(** * neo4j-python-migrations: a shallow embedding and its checked properties

    The development follows the three source files
    [neo4j_python_migrations/migration.py], [dao.py] and [executor.py].

    - Python [str] values are Rocq strings holding the UTF-8 bytes of the
      text, so that [st.encode()] is the identity on the bytes.
    - Python exceptions are values of [exn]; a call returns [Ok v] or
      [Raise e].
    - The Neo4j driver is an interface ([Class Env]): the statements the
      DAO sends are its operations, the Python around them is embedded
      here.
    - Effects are threaded through a state-and-exception monad over a
      [World] that holds the committed content of the schema database, the
      committed content of the migrated database and the log of the calls
      made so far. *)

From Stdlib Require Import ZArith NArith List String Ascii Lia Bool DecimalString.
From stdpp Require Import base gmap strings list.
Import ListNotations.

Local Open Scope string_scope.

(** ** Python values *)

Module Py.

Inductive exn : Type :=
| ValueError (msg : string)
| NotImplementedError (msg : string)
| KeyError (key : string)
| InvalidVersion (text : string)
| DriverError (msg : string)
| Exception (msg : string).

Inductive result (A : Type) : Type :=
| Ok (a : A)
| Raise (e : exn).

Arguments Ok {A} a.
Arguments Raise {A} e.

(** [str(e)] for the exceptions above. *)
Definition str_of_exn (e : exn) : string :=
  match e with
  | ValueError m | NotImplementedError m | KeyError m
  | InvalidVersion m | DriverError m | Exception m => m
  end.

(** Truth value of an [Optional[str]]: [None] and the empty string are
    false. *)
Definition truthy (o : option string) : bool :=
  match o with
  | None => false
  | Some s => negb (String.eqb s EmptyString)
  end.

(** [a == b] on [Optional[str]]. *)
Definition opt_eqb (a b : option string) : bool :=
  match a, b with
  | None, None => true
  | Some x, Some y => String.eqb x y
  | _, _ => false
  end.

(** Whether a call returned, and what it returned. *)
Definition is_ok {A} (r : result A) : bool :=
  match r with
  | Ok _ => true
  | Raise _ => false
  end.

Definition value_or {A} (default : A) (r : result A) : A :=
  match r with
  | Ok a => a
  | Raise _ => default
  end.

(** [l[:-1]] *)
Definition drop_last {A} (l : list A) : list A := removelast l.

(** [l[-1]]; [None] stands for the [IndexError] of an empty list. *)
Definition last_item {A} (l : list A) : option A := last l.

End Py.

Import Py.

(** ** The [str] methods the sources call *)

Module Str.

Definition byte (n : nat) : ascii := ascii_of_nat n.

(** The code points for which [str.isspace()] holds, each as its UTF-8
    encoding: U+0009..U+000D, U+001C..U+0020, U+0085, U+00A0, U+1680,
    U+2000..U+200A, U+2028, U+2029, U+202F, U+205F, U+3000. *)
Definition whitespace : list (list ascii) :=
  List.map (List.map byte)
    [ [9]; [10]; [11]; [12]; [13]; [28]; [29]; [30]; [31]; [32];
      [194; 133]; [194; 160]; [225; 154; 128];
      [226; 128; 128]; [226; 128; 129]; [226; 128; 130]; [226; 128; 131];
      [226; 128; 132]; [226; 128; 133]; [226; 128; 134]; [226; 128; 135];
      [226; 128; 136]; [226; 128; 137]; [226; 128; 138];
      [226; 128; 168]; [226; 128; 169]; [226; 128; 175];
      [226; 129; 159]; [227; 128; 128] ]%nat.

Fixpoint drop_prefix (p s : list ascii) : option (list ascii) :=
  match p, s with
  | [], _ => Some s
  | a :: p', b :: s' => if Ascii.eqb a b then drop_prefix p' s' else None
  | _ :: _, [] => None
  end.

Fixpoint drop_one_of (ps : list (list ascii)) (s : list ascii)
  : option (list ascii) :=
  match ps with
  | [] => None
  | p :: ps' =>
      match drop_prefix p s with
      | Some r => Some r
      | None => drop_one_of ps' s
      end
  end.

(** Remove leading members of [ps] for as long as there is one; every
    removal shortens the text, so [length s] rounds are enough. *)
Fixpoint drop_leading (rounds : nat) (ps : list (list ascii)) (s : list ascii)
  : list ascii :=
  match rounds with
  | O => s
  | S n =>
      match drop_one_of ps s with
      | Some r => drop_leading n ps r
      | None => s
      end
  end.

Definition lstrip_bytes (s : list ascii) : list ascii :=
  drop_leading (length s) whitespace s.

Definition rstrip_bytes (s : list ascii) : list ascii :=
  rev (drop_leading (length s) (List.map (@rev ascii) whitespace) (rev s)).

Definition lstrip (s : string) : string :=
  string_of_list_ascii (lstrip_bytes (list_ascii_of_string s)).

(** [s.strip()] *)
Definition strip (s : string) : string :=
  string_of_list_ascii
    (rstrip_bytes (lstrip_bytes (list_ascii_of_string s))).

(** [s.split(sep)] for a one-character separator: always at least one
    segment. *)
Fixpoint split (sep : ascii) (s : string) : list string :=
  match s with
  | EmptyString => [EmptyString]
  | String c s' =>
      if Ascii.eqb c sep then EmptyString :: split sep s'
      else match split sep s' with
           | seg :: rest => String c seg :: rest
           | [] => [String c EmptyString]
           end
  end.

Fixpoint startswith (p s : string) : bool :=
  match p, s with
  | EmptyString, _ => true
  | String a p', String b s' => Ascii.eqb a b && startswith p' s'
  | String _ _, EmptyString => false
  end.

(** [needle in hay] *)
Fixpoint contains (needle hay : string) : bool :=
  startswith needle hay
  || match hay with
     | EmptyString => false
     | String _ t => contains needle t
     end.

Fixpoint drop (n : nat) (s : string) : string :=
  match n, s with
  | O, _ => s
  | S n', String _ t => drop n' t
  | S _, EmptyString => EmptyString
  end.

(** The text that follows the leftmost occurrence of [marker]. *)
Fixpoint after_first (marker s : string) : option string :=
  if startswith marker s then Some (drop (String.length marker) s)
  else match s with
       | EmptyString => None
       | String _ t => after_first marker t
       end.

(** A lazy [(.*?)] under [re.DOTALL]: the shortest prefix after which
    [stop] holds of the rest of the text. *)
Fixpoint lazy_until (stop : string -> bool) (s : string) : string :=
  if stop s then EmptyString
  else match s with
       | EmptyString => EmptyString
       | String c t => String c (lazy_until stop t)
       end.

Definition newline : string := String (byte 10) EmptyString.

(** [$] without [re.MULTILINE]: the end of the text, or just before a
    newline that ends the text. *)
Definition at_dollar (s : string) : bool :=
  String.eqb s EmptyString || String.eqb s newline.

(** [str(n)] for a non-negative integer. *)
Definition of_Z (n : Z) : string :=
  NilZero.string_of_uint (N.to_uint (Z.to_N n)).

Definition is_digit (c : ascii) : bool :=
  let n := nat_of_ascii c in (48 <=? n)%nat && (n <=? 57)%nat.

Fixpoint digits_value (acc : N) (s : string) : N :=
  match s with
  | EmptyString => acc
  | String c t => digits_value (acc * 10 + (N_of_ascii c - 48))%N t
  end.

(** [int(s)] for a non-empty run of ASCII digits. *)
Definition to_N (s : string) : option N :=
  match s with
  | EmptyString => None
  | _ => if forallb is_digit (list_ascii_of_string s)
         then Some (digits_value 0%N s) else None
  end.

End Str.

(** ** [binascii.crc32]

    zlib's CRC-32: reflected polynomial [0xEDB88320], the register is
    complemented on entry and on exit, and the start value is read as an
    unsigned 32-bit number. *)

Module Crc32.

Local Open Scope Z_scope.

Definition poly : Z := 0xEDB88320.
Definition mask : Z := 0xFFFFFFFF.

Definition shift_bit (crc : Z) : Z :=
  if Z.testbit crc 0 then Z.lxor (Z.shiftr crc 1) poly else Z.shiftr crc 1.

Definition update (crc : Z) (b : ascii) : Z :=
  Nat.iter 8 shift_bit (Z.lxor crc (Z.of_N (N_of_ascii b))).

Definition register (data : list ascii) (reg : Z) : Z :=
  fold_left update data reg.

(** [binascii.crc32(data, value)] *)
Definition crc32 (data : string) (value : Z) : Z :=
  Z.lxor (register (list_ascii_of_string data) (Z.lxor (Z.land value mask) mask))
         mask.

End Crc32.

(** ** [packaging.version.Version]

    [Migration.__attrs_post_init__] parses the version text with
    [packaging.version.Version] and [Migration.__lt__] compares the parsed
    values.  The fragment embedded here is the release segment
    [N(.N)*] of PEP 440, which is what the loader produces from file
    names.  Epochs, pre-, post- and dev-releases, local versions, a
    leading [v] and surrounding white space are outside it: the library
    accepts such texts, and the values it gives them are not represented
    here.  [parse] answers [InvalidVersion] for every text outside the
    fragment, which is the answer of the library only for a text that is
    no version at all; what is proved of a parsed version is therefore
    stated for texts of the fragment.  For a release-only version the
    comparison key of the library is the release tuple with its trailing
    zeros removed, the other components of the key being the same
    constants for every version. *)

Module Version.

Local Open Scope N_scope.

(** [tuple(int(i) for i in release.split("."))], for a text of the
    fragment. *)
Definition parse (text : string) : result (list N) :=
  match mapM Str.to_N (Str.split "." text) with
  | Some release => Ok release
  | None => Raise (InvalidVersion text)
  end.

Fixpoint dropwhile {A} (p : A -> bool) (l : list A) : list A :=
  match l with
  | [] => []
  | x :: t => if p x then dropwhile p t else l
  end.

(** [_cmpkey]:
    [tuple(reversed(list(dropwhile(lambda x: x == 0, reversed(release)))))] *)
Definition cmpkey (release : list N) : list N :=
  rev (dropwhile (N.eqb 0) (rev release)).

(** Python's [<] on tuples of integers: the first differing position
    decides; without one the shorter tuple is the smaller. *)
Fixpoint tuple_lt (a b : list N) : bool :=
  match a, b with
  | [], [] => false
  | [], _ :: _ => true
  | _ :: _, [] => false
  | x :: a', y :: b' => if x =? y then tuple_lt a' b' else x <? y
  end.

(** Python's [==] on tuples of integers. *)
Fixpoint tuple_eq (a b : list N) : bool :=
  match a, b with
  | [], [] => true
  | x :: a', y :: b' => (x =? y) && tuple_eq a' b'
  | _, _ => false
  end.

(** [Version.__lt__] and [Version.__eq__]: comparison of the keys. *)
Definition lt (v w : list N) : bool := tuple_lt (cmpkey v) (cmpkey w).
Definition eq (v w : list N) : bool := tuple_eq (cmpkey v) (cmpkey w).

End Version.

(** ** The driver and the rest of the environment

    [Graph] is the content of the schema database as far as the DAO sees
    it (the nodes labelled [__Neo4jMigration] and their [MIGRATED_TO]
    relationships), [Data] the content of the migrated database.  They are
    kept apart also when both live in one Neo4j database: a migration body
    is taken not to touch the migration graph.  Every operation may raise.
    Each Cypher statement of [dao.py] is one operation; what it answers is
    up to the store. *)

Record Counters : Type := {
  nodes_created : Z;
  relationships_created : Z
}.

(** The keyword parameters of the statement of [add_migration]. *)
Record AppendParams : Type := {
  p_version_to : string;
  p_description : string;
  p_source : option string;
  p_type : string;
  p_checksum : option string;
  p_duration : Z;
  p_project : option string;
  p_migration_target : option string;
  p_migrated_by : string;
  p_connected_as : option string
}.

Class Env : Type := {
  Graph : Type;
  Data : Type;
  (** [tx.run(statement)] inside a transaction on the migrated database *)
  run : string -> Data -> result Data;
  (** [getpass.getuser()] *)
  getuser : result string;
  (** [SHOW CURRENT USER], the value behind [MigrationDAO.user] *)
  show_current_user : result (option string);
  (** the reading of the n-th call of [time.monotonic()], in clock units *)
  monotonic : nat -> Z;
  (** [MATCH (m {version: $version}) WHERE ... RETURN m], then
      [.single()]: is there a row *)
  match_baseline : string -> option string -> option string ->
                   Graph -> result bool;
  (** [CREATE (:__Neo4jMigration {version, project, migrationTarget})] *)
  create_baseline_node : string -> option string -> option string ->
                         Graph -> result Graph;
  (** [CREATE CONSTRAINT ... IF NOT EXISTS ... IS UNIQUE] *)
  create_unique_constraint : Graph -> result Graph;
  (** [MATCH (m1) WHERE ... CREATE (m2 {...}) MERGE (m1)-[link]->(m2) SET ...]:
      the graph as the open transaction sees it afterwards, and the
      counters of the result summary *)
  create_linked_migration : AppendParams -> Graph -> result (Graph * Counters);
  (** [MATCH (:__Neo4jMigration {version: $baseline})-[:MIGRATED_TO*]->(m)
      ... RETURN m ORDER BY version]: the property maps of the rows *)
  match_applied : string -> option string -> option string ->
                  Graph -> result (list (gmap string string));
  (** the first statement of [remove_migration], then [.single()]:
      [None] without a row, otherwise whether [next] is bound *)
  match_for_removal : string -> option string -> option string ->
                      Graph -> result (option bool);
  (** [MERGE (prev)-[new_link:MIGRATED_TO]->(next) SET ...] with the
      parameters [version], [project], [migration_target],
      [rolled_back_by], [connected_as] *)
  merge_bypass_link : string -> option string -> option string ->
                      string -> option string -> Graph -> result Graph;
  (** [DELETE r1, r2, m RETURN count(m) as deleted_count], then
      [.single()]: the graph afterwards and the count of the row, if any *)
  delete_migration_node : string -> option string -> option string ->
                          Graph -> result (Graph * option Z)
}.

(** ** migration.py *)

Module Migration.

(** [MigrationType] *)
Definition PYTHON : string := "PYTHON".
Definition CYPHER : string := "CYPHER".

(** The attributes of the base class [Migration]. *)
Record Fields : Type := {
  version : string;
  parsed_version : list N;
  description : string;
  type : string;
  source : option string;
  checksum : option string;
  rollback_checksum : option string
}.

(** [Migration(version=..., description=..., type=..., source=...,
    checksum=...)] with [__attrs_post_init__]. *)
Definition new (version description type : string)
    (source checksum : option string) : result Fields :=
  match Version.parse version with
  | Raise e => Raise e
  | Ok pv =>
      Ok {| version := version; parsed_version := pv;
            description := description; type := type; source := source;
            checksum := checksum; rollback_checksum := None |}
  end.

(** [self.checksum = ...; self.rollback_checksum = ...] *)
Definition with_checksums (f : Fields) (c rc : option string) : Fields :=
  {| version := f.(version); parsed_version := f.(parsed_version);
     description := f.(description); type := f.(type);
     source := f.(source); checksum := c; rollback_checksum := rc |}.

(** [Migration.from_dict] *)
Definition from_dict (properties : gmap string string) : result Fields :=
  match properties !! "version" with
  | None => Raise (KeyError "version")
  | Some v =>
      match properties !! "description" with
      | None => Raise (KeyError "description")
      | Some d =>
          match properties !! "type" with
          | None => Raise (KeyError "type")
          | Some t => new v d t (properties !! "source")
                          (properties !! "checksum")
          end
      end
  end.

(** [Migration.__lt__] *)
Definition lt (self other : Fields) : bool :=
  Version.lt (parsed_version self) (parsed_version other).

Definition UP_MARKER : string := "↑UP-MIGRATION".
Definition DOWN_MARKER : string := "// ↓DOWN-MIGRATION".

(** Group 1 of the leftmost match of
    [↑UP-MIGRATION\s*(.*?)(?=// ↓DOWN-MIGRATION|$)] under [re.DOTALL]. *)
Definition forward_group (query : string) : option string :=
  match Str.after_first UP_MARKER query with
  | None => None
  | Some rest =>
      Some (Str.lazy_until
              (fun s => Str.startswith DOWN_MARKER s || Str.at_dollar s)
              (Str.lstrip rest))
  end.

(** Group 1 of the leftmost match of [// ↓DOWN-MIGRATION\s*(.*?)(?=$)]
    under [re.DOTALL]. *)
Definition down_group (query : string) : option string :=
  match Str.after_first DOWN_MARKER query with
  | None => None
  | Some rest => Some (Str.lazy_until Str.at_dollar (Str.lstrip rest))
  end.

Definition is_empty (s : string) : bool := String.eqb s EmptyString.

(** [content.split(";") if content else []], without its last segment
    when that one is blank. *)
Definition section_statements (content : string) : list string :=
  let statements :=
    if is_empty content then [] else Str.split ";" content in
  match last_item statements with
  | Some l => if is_empty (Str.strip l) then drop_last statements
              else statements
  | None => statements
  end.

(** [CypherMigration._parse_statements] *)
Definition _parse_statements (query : string) : list string * list string :=
  if negb (Str.contains UP_MARKER query)
     && negb (Str.contains DOWN_MARKER query)
  then (drop_last (Str.split ";" query), [])
  else
    let forward_content :=
      match forward_group query with
      | Some g => Str.strip g
      | None => EmptyString
      end in
    let down_content :=
      match down_group query with
      | Some g => Str.strip g
      | None => EmptyString
      end in
    (section_statements forward_content, section_statements down_content).

(** [list(filter(lambda statement: statement,
                 [statement.strip() for statement in raw]))] *)
Definition normalize (raw : list string) : list string :=
  List.filter (fun st => negb (is_empty st)) (List.map Str.strip raw).

(** One round of the checksum loop of [__attrs_post_init__]. *)
Definition checksum_step (checksum : option Z) (st : string) : option Z :=
  match checksum with
  | Some c => if Z.eqb c 0 then Some (Crc32.crc32 st 0)
              else Some (Crc32.crc32 st c)
  | None => Some (Crc32.crc32 st 0)
  end.

Definition checksum_loop (statements : list string) : option Z :=
  fold_left checksum_step statements None.

(** [str(checksum) if checksum else None] *)
Definition checksum_text (c : option Z) : option string :=
  match c with
  | Some z => if Z.eqb z 0 then None else Some (Str.of_Z z)
  | None => None
  end.

Definition checksum_of (statements : list string) : option string :=
  checksum_text (checksum_loop statements).

Section Hierarchy.
(** The content of an open transaction on the migrated database. *)
Variable D : Type.

(** A migration body is a callable on an open transaction: it leaves the
    transaction with new content or raises. *)
Definition BodyOf : Type := D -> result D.

(** The class hierarchy: [Migration] and its two subclasses. *)
Inductive MigrationOf : Type :=
| Base (f : Fields)
| PythonMigration (f : Fields) (code : BodyOf)
    (rollback_code : option BodyOf)
| CypherMigration (f : Fields) (query : string)
    (statements rollback_statements : list string).

Definition fields (m : MigrationOf) : Fields :=
  match m with
  | Base f | PythonMigration f _ _ | CypherMigration f _ _ _ => f
  end.

(** Whether the subclass defines a backward body: [rollback_code] is
    given, or the script has a non-empty down section. *)
Definition has_backward_body (m : MigrationOf) : bool :=
  match m with
  | Base _ => false
  | PythonMigration _ _ rollback_code => bool_decide (is_Some rollback_code)
  | CypherMigration _ _ _ rollback_statements =>
      negb (bool_decide (rollback_statements = []))
  end.

End Hierarchy.

Arguments Base {D} f.
Arguments PythonMigration {D} f code rollback_code.
Arguments CypherMigration {D} f query statements rollback_statements.
Arguments fields {D} m.
Arguments has_backward_body {D} m.

(** The classes over the transactions of the driver at hand. *)
Abbreviation Body := (BodyOf Data).
Abbreviation Migration := (MigrationOf Data).

Section Classes.
Context `{Env}.

(** [PythonMigration(version=..., description=..., source=..., code=...,
    rollback_code=...)] *)
Definition new_python (version description : string) (source : option string)
    (code : Body) (rollback_code : option Body) : result Migration :=
  match new version description PYTHON source None with
  | Raise e => Raise e
  | Ok f => Ok (PythonMigration f code rollback_code)
  end.

(** [CypherMigration(version=..., description=..., source=..., query=...)]
    with [CypherMigration.__attrs_post_init__]. *)
Definition new_cypher (version description : string) (source : option string)
    (query : string) : result Migration :=
  match new version description CYPHER source None with
  | Raise e => Raise e
  | Ok f =>
      let '(forward_statements, down_statements) := _parse_statements query in
      let statements := normalize forward_statements in
      let rollback_statements := normalize down_statements in
      Ok (CypherMigration
            (with_checksums f (checksum_of statements)
                            (checksum_of rollback_statements))
            query statements rollback_statements)
  end.

(** [for statement in statements: tx.run(statement)] *)
Fixpoint run_all (statements : list string) (tx : Data) : result Data :=
  match statements with
  | [] => Ok tx
  | st :: rest =>
      match run st tx with
      | Ok tx' => run_all rest tx'
      | Raise e => Raise e
      end
  end.

Definition rollback_not_implemented (f : Fields) : exn :=
  NotImplementedError
    ("Rollback not implemented for migration V" ++ f.(version)).

(** [apply(self, tx)] of the three classes *)
Definition apply (m : Migration) (tx : Data) : result Data :=
  match m with
  | Base _ => Raise (NotImplementedError EmptyString)
  | PythonMigration _ code _ => code tx
  | CypherMigration _ _ statements _ => run_all statements tx
  end.

(** [rollback(self, tx)] of the three classes *)
Definition rollback (m : Migration) (tx : Data) : result Data :=
  match m with
  | Base _ => Raise (NotImplementedError EmptyString)
  | PythonMigration f _ None => Raise (rollback_not_implemented f)
  | PythonMigration _ _ (Some rollback_code) => rollback_code tx
  | CypherMigration f _ _ [] => Raise (rollback_not_implemented f)
  | CypherMigration _ _ _ rollback_statements =>
      run_all rollback_statements tx
  end.

End Classes.

End Migration.

(** ** Analysis results

    Modelled from the spec: [analyzer.py] is not among the sources.  The
    record has the three attributes [executor.py] reads, and the status of
    a finding is one of the two the spec names (missing locally, drifted). *)

Module Analyzer.

Inductive InvalidVersionStatus : Type :=
| DIFFERENT
| MISSED_LOCALLY.

Record InvalidVersion : Type := {
  iv_version : string;
  iv_status : InvalidVersionStatus
}.

Section Result.
Variable D : Type.

Record AnalyzingResultOf : Type := {
  pending_migrations : list (Migration.MigrationOf D);
  invalid_versions : list InvalidVersion;
  latest_applied_version : option string
}.

Definition same_version (a b : Migration.MigrationOf D) : bool :=
  String.eqb (Migration.fields a).(Migration.version)
             (Migration.fields b).(Migration.version).

(** Modelled from the spec: section 4.3.  A local version absent from the
    applied entries is pending; an applied entry absent from the local
    definitions is missing locally; a version present on both sides with
    different checksums has drifted; the latest applied version is that
    of the last applied entry. *)
Definition analyze
    (local_migrations applied_migrations : list (Migration.MigrationOf D))
  : AnalyzingResultOf :=
  {| pending_migrations :=
       List.filter
         (fun l => negb (existsb (same_version l) applied_migrations))
         local_migrations;
     invalid_versions :=
       flat_map
         (fun a =>
            let v := (Migration.fields a).(Migration.version) in
            match List.find (same_version a) local_migrations with
            | None => [ {| iv_version := v; iv_status := MISSED_LOCALLY |} ]
            | Some l =>
                if opt_eqb (Migration.fields l).(Migration.checksum)
                           (Migration.fields a).(Migration.checksum)
                then []
                else [ {| iv_version := v; iv_status := DIFFERENT |} ]
            end)
         applied_migrations;
     latest_applied_version :=
       match last_item applied_migrations with
       | Some a => Some (Migration.fields a).(Migration.version)
       | None => None
       end |}.

End Result.

Arguments pending_migrations {D} _.
Arguments invalid_versions {D} _.
Arguments latest_applied_version {D} _.
Arguments same_version {D} a b.
Arguments analyze {D} local_migrations applied_migrations.

Abbreviation AnalyzingResult := (AnalyzingResultOf Data).

End Analyzer.

(** ** Effects *)

Module Effects.

(** The calls whose order the executor fixes. *)
Inductive Event : Type :=
| DaoGetApplied
| DaoCreateBaseline
| DaoCreateConstraints
| DaoAddMigration (version : string) (dry_run : bool)
| DaoRemoveMigration (version : string)
| TxBegin
| TxCommit
| TxRollback
| BodyApply (version : string)
| BodyRollback (version : string)
| OnApply (version : string)
| OnRollback (version : string).

Section Worlds.
Variables G D : Type.

Record WorldOf : Type := {
  schema : G;
  target : D;
  ticks : nat;
  trace : list Event
}.

Definition set_schema (g : G) (w : WorldOf) : WorldOf :=
  {| schema := g; target := w.(target); ticks := w.(ticks);
     trace := w.(trace) |}.

Definition set_target (d : D) (w : WorldOf) : WorldOf :=
  {| schema := w.(schema); target := d; ticks := w.(ticks);
     trace := w.(trace) |}.

Definition add_event (e : Event) (w : WorldOf) : WorldOf :=
  {| schema := w.(schema); target := w.(target); ticks := w.(ticks);
     trace := w.(trace) ++ [e] |}.

Definition tick (w : WorldOf) : WorldOf :=
  {| schema := w.(schema); target := w.(target); ticks := S w.(ticks);
     trace := w.(trace) |}.

End Worlds.

Arguments schema {G D} _.
Arguments target {G D} _.
Arguments ticks {G D} _.
Arguments trace {G D} _.
Arguments set_schema {G D} g w.
Arguments set_target {G D} d w.
Arguments add_event {G D} e w.
Arguments tick {G D} w.

(** The worlds of the driver at hand. *)
Abbreviation World := (WorldOf Graph Data).

Section World.
Context `{Env}.

(** A Python computation: from a world to a value or an exception, and the
    world reached. *)
Definition M (A : Type) : Type := World -> result A * World.

Definition ret {A} (a : A) : M A := fun w => (Ok a, w).

Definition raise {A} (e : exn) : M A := fun w => (Raise e, w).

Definition bind {A B} (c : M A) (k : A -> M B) : M B :=
  fun w =>
    match c w with
    | (Ok a, w') => k a w'
    | (Raise e, w') => (Raise e, w')
    end.

Definition lift {A} (r : result A) : M A := fun w => (r, w).

Definition log (e : Event) : M unit := fun w => (Ok tt, add_event e w).

(** [time.monotonic()] *)
Definition time_monotonic : M Z :=
  fun w => (Ok (monotonic w.(ticks)), tick w).

(** [try: c except NotImplementedError as e: handler(e)] *)
Definition except_NotImplementedError {A} (c : M A) (handler : exn -> M A)
  : M A :=
  fun w =>
    match c w with
    | (Raise (NotImplementedError msg), w') =>
        handler (NotImplementedError msg) w'
    | other => other
    end.

(** [for x in l: body(x)] *)
Fixpoint for_each {A} (l : list A) (body : A -> M unit) : M unit :=
  match l with
  | [] => ret tt
  | x :: rest => bind (body x) (fun _ => for_each rest body)
  end.

(** [session.run(...)] that only reads the schema database. *)
Definition session_read {A} (q : Graph -> result A) : M A :=
  fun w => (q w.(schema), w).

(** [session.run(...)] of a writing statement, committed on its own. *)
Definition session_write (q : Graph -> result Graph) : M unit :=
  fun w =>
    match q w.(schema) with
    | Ok g => (Ok tt, set_schema g w)
    | Raise e => (Raise e, w)
    end.

(** An explicit transaction: what it sees of the database, and whether
    it has been closed by [tx.rollback()]. *)
Record Tx (C : Type) : Type := {
  content : C;
  closed : bool
}.
Arguments content {C} _.
Arguments closed {C} _.

(** [with session.begin_transaction() as tx: body] on the schema
    database.  Leaving the block commits an open transaction; leaving it
    by an exception rolls it back; a closed transaction is left alone.
    The calls of the driver that end a transaction, the commit and the
    roll-back, are taken to return: a connection lost at that very
    point is not represented. *)
Definition schema_transaction {A} (body : Graph -> result (A * Tx Graph))
  : M A :=
  fun w =>
    match body w.(schema) with
    | Ok (a, tx) =>
        if tx.(closed) then (Ok a, w) else (Ok a, set_schema tx.(content) w)
    | Raise e => (Raise e, w)
    end.

(** [with self.driver.session(database=self.database) as session:
      with session.begin_transaction() as tx: body] on the migrated
    database.  The body may call into the DAO, so it is a computation; it
    returns the content the transaction has reached.  As above, the
    commit and the roll-back themselves are taken to return. *)
Definition target_transaction {A} (body : Data -> M (A * Data)) : M A :=
  fun w =>
    let w0 := add_event TxBegin w in
    match body w0.(target) w0 with
    | (Ok (a, tx), w1) => (Ok a, add_event TxCommit (set_target tx w1))
    | (Raise e, w1) => (Raise e, add_event TxRollback w1)
    end.

End World.

End Effects.

Import Effects.

Declare Scope py_scope.
Delimit Scope py_scope with py.
Notation "x <- c ;; k" := (bind c (fun x => k))
  (at level 100, c at next level, right associativity) : py_scope.
Notation "c ;; k" := (bind c (fun _ => k))
  (at level 100, right associativity) : py_scope.
Local Open Scope py_scope.

(** ** dao.py *)

Module Dao.

Record MigrationDAO : Type := {
  project : option string;
  schema_database : option string;
  database : option string;
  baseline : string
}.

(** [MigrationDAO.__init__] *)
Definition new (project database schema_database : option string)
  : MigrationDAO :=
  {| project := project;
     schema_database := schema_database;
     database := if opt_eqb database schema_database then None else database;
     baseline := "BASELINE" |}.

Section Methods.
Context `{Env}.

(** [MigrationDAO.create_baseline] *)
Definition create_baseline (self : MigrationDAO) : M unit :=
  log DaoCreateBaseline ;;
  found <- session_read
             (match_baseline self.(baseline) self.(project) self.(database)) ;;
  if (found : bool) then ret tt
  else session_write
         (create_baseline_node self.(baseline) self.(project)
                               self.(database)).

(** [MigrationDAO.create_constraints] *)
Definition create_constraints (self : MigrationDAO) : M unit :=
  log DaoCreateConstraints ;;
  session_write create_unique_constraint.

Definition record_not_created : exn :=
  ValueError
    "The migration record could not be created. Check the migration graph.".

(** The guard of [add_migration] on the counters of the summary. *)
Definition counters_rejected (c : Counters) : bool :=
  negb (Z.eqb c.(nodes_created) 1)
  && negb (Z.eqb c.(relationships_created) 1).

(** [MigrationDAO.add_migration] *)
Definition add_migration (self : MigrationDAO) (migration : Migration.Fields)
    (duration : Z) (dry_run : bool) : M unit :=
  log (DaoAddMigration migration.(Migration.version) dry_run) ;;
  schema_transaction (fun g =>
    match getuser with
    | Raise e => Raise e
    | Ok migrated_by =>
    match show_current_user with
    | Raise e => Raise e
    | Ok connected_as =>
    match create_linked_migration
            {| p_version_to := migration.(Migration.version);
               p_description := migration.(Migration.description);
               p_source := migration.(Migration.source);
               p_type := migration.(Migration.type);
               p_checksum := migration.(Migration.checksum);
               p_duration := duration;
               p_project := self.(project);
               p_migration_target := self.(database);
               p_migrated_by := migrated_by;
               p_connected_as := connected_as |} g with
    | Raise e => Raise e
    | Ok (g', counters) =>
        let tx := {| content := g'; closed := false |} in
        let tx := if dry_run then {| content := g; closed := true |}
                  else tx in
        if counters_rejected counters then Raise record_not_created
        else Ok (tt, tx)
    end end end).

(** [[Migration.from_dict(row.data()["m"]) for row in query_result]] *)
Fixpoint rows_to_migrations (rows : list (gmap string string))
  : result (list Migration.Migration) :=
  match rows with
  | [] => Ok []
  | row :: rest =>
      match Migration.from_dict row with
      | Raise e => Raise e
      | Ok f =>
          match rows_to_migrations rest with
          | Raise e => Raise e
          | Ok ms => Ok (Migration.Base f :: ms)
          end
      end
  end.

(** [MigrationDAO.get_applied_migrations] *)
Definition get_applied_migrations (self : MigrationDAO)
  : M (list Migration.Migration) :=
  log DaoGetApplied ;;
  rows <- session_read
            (match_applied self.(baseline) self.(project) self.(database)) ;;
  lift (rows_to_migrations rows).

Definition version_not_found (version : string) : exn :=
  ValueError ("Migration version " ++ version ++ " not found.").

Definition removal_failed (version : string) : exn :=
  ValueError ("Failed to remove migration version " ++ version ++ ".").

(** [MigrationDAO.remove_migration] *)
Definition remove_migration (self : MigrationDAO) (version : string)
  : M unit :=
  log (DaoRemoveMigration version) ;;
  schema_transaction (fun g =>
    match match_for_removal version self.(project) self.(database) g with
    | Raise e => Raise e
    | Ok None => Raise (version_not_found version)
    | Ok (Some has_next) =>
        let relinked :=
          if (has_next : bool) then
            match getuser with
            | Raise e => Raise e
            | Ok rolled_back_by =>
                match show_current_user with
                | Raise e => Raise e
                | Ok connected_as =>
                    merge_bypass_link version self.(project) self.(database)
                                      rolled_back_by connected_as g
                end
            end
          else Ok g in
        match relinked with
        | Raise e => Raise e
        | Ok g1 =>
            match delete_migration_node version self.(project)
                                        self.(database) g1 with
            | Raise e => Raise e
            | Ok (g2, Some 1%Z) => Ok (tt, {| content := g2; closed := false |})
            | Ok (_, _) => Raise (removal_failed version)
            end
        end
    end).

End Methods.

End Dao.

(** ** executor.py *)

Module Executor.

Section Attributes.
Variable D : Type.

Record ExecutorOf : Type := {
  dao : Dao.MigrationDAO;
  local_migrations : list (Migration.MigrationOf D);
  database : option string
}.

End Attributes.

Arguments dao {D} _.
Arguments local_migrations {D} _.
Arguments database {D} _.

Abbreviation Executor := (ExecutorOf Data).

Section Methods.
Context `{Env}.

(** [analyzer.analyze], which [Executor.analyze] calls on the local and
    the applied migrations; [analyzer.py] is not among the sources. *)
Variable analyzer_analyze :
  list Migration.Migration -> list Migration.Migration ->
  Analyzer.AnalyzingResult.

(** [Executor.__init__]; [loaded] is the value of
    [loader.load(migrations_path)]. *)
Definition new (loaded : list Migration.Migration)
    (project database schema_database : option string) : Executor :=
  let schema_database :=
    if truthy database && negb (truthy schema_database) then database
    else schema_database in
  {| dao := Dao.new project database schema_database;
     local_migrations := loaded;
     database := database |}.

Definition version_of (m : Migration.Migration) : string :=
  (Migration.fields m).(Migration.version).

(** A user callback: returns or raises. *)
Definition Callback : Type := Migration.Migration -> result unit.

(** [Executor.analyze] *)
Definition analyze (self : Executor) : M Analyzer.AnalyzingResult :=
  applied_migrations <- Dao.get_applied_migrations self.(dao) ;;
  ret (analyzer_analyze self.(local_migrations) applied_migrations).

(** The search loop shared by [migrate] and [rollback]:
    [for i, migration in enumerate(l): if migration.version == version:
       version_index = i; break]. *)
Fixpoint version_index (version : string) (l : list Migration.Migration)
  : option nat :=
  match l with
  | [] => None
  | migration :: rest =>
      if String.eqb (version_of migration) version then Some O
      else match version_index version rest with
           | Some i => Some (S i)
           | None => None
           end
  end.

Definition verification_failed : exn :=
  ValueError
    ("Errors were found during migration verification. "
     ++ "Run the `analyze` command for more information.").

Definition not_in_pending (version : string) : exn :=
  ValueError
    ("Migration version " ++ version ++ " not found in pending migrations.").

(** Lines 74-87 of [migrate]: the migrations to apply. *)
Definition migrations_to_apply (pending : list Migration.Migration)
    (version : option string) : result (list Migration.Migration) :=
  match version with
  | None => Ok pending
  | Some v =>
      match version_index v pending with
      | None => Raise (not_in_pending v)
      | Some i => Ok (firstn (i + 1) pending)
      end
  end.

(** The body of the [for] loop of [migrate]. *)
Definition apply_one (self : Executor) (on_apply : option Callback)
    (migration : Migration.Migration) : M unit :=
  Dao.add_migration self.(dao) (Migration.fields migration) 0 true ;;
  duration <- target_transaction (fun tx =>
    start_time <- time_monotonic ;;
    log (BodyApply (version_of migration)) ;;
    tx' <- lift (Migration.apply migration tx) ;;
    end_time <- time_monotonic ;;
    match on_apply with
    | Some callback =>
        log (OnApply (version_of migration)) ;;
        lift (callback migration)
    | None => ret tt
    end ;;
    ret ((end_time - start_time)%Z, tx')) ;;
  Dao.add_migration self.(dao) (Migration.fields migration) duration false.

(** Lines 69-71 of [migrate]:
    [if not analyzing_result.latest_applied_version: ...]. *)
Definition prepare_schema (self : Executor)
    (analyzing_result : Analyzer.AnalyzingResult) : M unit :=
  if truthy analyzing_result.(Analyzer.latest_applied_version)
  then ret tt
  else Dao.create_baseline self.(dao) ;;
       Dao.create_constraints self.(dao).

(** [Executor.migrate] *)
Definition migrate (self : Executor) (version : option string)
    (on_apply : option Callback) : M unit :=
  analyzing_result <- analyze self ;;
  match analyzing_result.(Analyzer.invalid_versions) with
  | _ :: _ => raise verification_failed
  | [] =>
      prepare_schema self analyzing_result ;;
      to_apply <- lift (migrations_to_apply
                          analyzing_result.(Analyzer.pending_migrations)
                          version) ;;
      for_each to_apply (apply_one self on_apply)
  end.

Definition nothing_to_rollback : exn :=
  ValueError "No migrations found to rollback.".

Definition not_in_applied (version : string) : exn :=
  ValueError
    ("Migration version " ++ version ++ " not found in applied migrations.").

Definition local_not_found (version : string) : exn :=
  ValueError
    ("Local migration V" ++ version ++ " not found. "
     ++ "Cannot perform rollback without local migration file.").

Definition rollback_unsupported (version : string) (e : exn) : exn :=
  ValueError
    ("Migration V" ++ version ++ " does not support rollback: "
     ++ str_of_exn e).

(** Lines 120-141 of [rollback]: the migrations to roll back. *)
Definition migrations_to_rollback (applied_migrations : list Migration.Migration)
    (version : option string) : result (list Migration.Migration) :=
  match applied_migrations with
  | [] => Raise nothing_to_rollback
  | first :: _ =>
      match version with
      | None => Ok [List.last applied_migrations first]
      | Some v =>
          match version_index v applied_migrations with
          | None => Raise (not_in_applied v)
          | Some i => Ok (rev (skipn (i + 1) applied_migrations))
          end
      end
  end.

(** [next((m for m in self.local_migrations
           if m.version == migration.version), None)] *)
Definition find_local (self : Executor) (migration : Migration.Migration)
  : option Migration.Migration :=
  List.find (fun m => String.eqb (version_of m) (version_of migration))
            self.(local_migrations).

(** The body of the [for] loop of [rollback]. *)
Definition rollback_one (self : Executor) (on_rollback : option Callback)
    (migration : Migration.Migration) : M unit :=
  match find_local self migration with
  | None => raise (local_not_found (version_of migration))
  | Some local_migration =>
      target_transaction (fun tx =>
        start_time <- time_monotonic ;;
        except_NotImplementedError
          (log (BodyRollback (version_of migration)) ;;
           tx' <- lift (Migration.rollback local_migration tx) ;;
           end_time <- time_monotonic ;;
           match on_rollback with
           | Some callback =>
               log (OnRollback (version_of migration)) ;;
               lift (callback local_migration)
           | None => ret tt
           end ;;
           Dao.remove_migration self.(dao) (version_of migration) ;;
           ret (tt, tx'))
          (fun e => raise (rollback_unsupported (version_of migration) e)))
  end.

(** [Executor.rollback] *)
Definition rollback (self : Executor) (version : option string)
    (on_rollback : option Callback) : M unit :=
  applied_migrations <- Dao.get_applied_migrations self.(dao) ;;
  to_rollback <- lift (migrations_to_rollback applied_migrations version) ;;
  for_each to_rollback (rollback_one self on_rollback).

End Methods.

End Executor.

(** ** An in-memory store

    A small graph store that answers the statements of [dao.py], to run
    the embedding on concrete inputs the way the test-suite runs the
    sources against mocks. *)

Module MemoryStore.

Record Node : Type := {
  node_id : nat;
  props : gmap string string
}.

Record Store : Type := {
  nodes : list Node;
  edges : list (nat * nat);
  next_id : nat;
  unique_constraint : bool
}.

Definition empty : Store :=
  {| nodes := []; edges := []; next_id := 0; unique_constraint := false |}.

Definition coalesce (o : option string) : string := default "<default>" o.

Definition in_scope (project target : option string) (n : Node) : bool :=
  String.eqb (coalesce (n.(props) !! "project")) (coalesce project)
  && String.eqb (coalesce (n.(props) !! "migrationTarget")) (coalesce target).

Definition has_version (v : string) (n : Node) : bool :=
  opt_eqb (n.(props) !! "version") (Some v).

Definition set_prop (k : string) (o : option string) (m : gmap string string)
  : gmap string string :=
  match o with
  | Some v => <[k := v]> m
  | None => m
  end.

Definition successors (g : Store) (i : nat) : list nat :=
  List.map snd (List.filter (fun e => Nat.eqb (fst e) i) g.(edges)).

Definition node_of (g : Store) (i : nat) : option Node :=
  List.find (fun n => Nat.eqb n.(node_id) i) g.(nodes).

Definition add_node (p : gmap string string) (g : Store) : Store :=
  {| nodes := g.(nodes) ++ [ {| node_id := g.(next_id); props := p |} ];
     edges := g.(edges);
     next_id := S g.(next_id);
     unique_constraint := g.(unique_constraint) |}.

Definition add_edge (e : nat * nat) (g : Store) : Store :=
  {| nodes := g.(nodes); edges := g.(edges) ++ [e];
     next_id := g.(next_id);
     unique_constraint := g.(unique_constraint) |}.

Definition mem_match_baseline (v : string) (project target : option string)
    (g : Store) : result bool :=
  Ok (existsb (fun n => has_version v n && in_scope project target n)
              g.(nodes)).

Definition mem_create_baseline (v : string) (project target : option string)
    (g : Store) : result Store :=
  Ok (add_node (set_prop "migrationTarget" target
                  (set_prop "project" project {[ "version" := v ]})) g).

Definition mem_create_constraint (g : Store) : result Store :=
  Ok {| nodes := g.(nodes); edges := g.(edges); next_id := g.(next_id);
        unique_constraint := true |}.

Definition migration_props (p : AppendParams) : gmap string string :=
  set_prop "checksum" p.(p_checksum)
    (set_prop "migrationTarget" p.(p_migration_target)
       (set_prop "project" p.(p_project)
          (set_prop "source" p.(p_source)
             {[ "version" := p.(p_version_to);
                "description" := p.(p_description);
                "type" := p.(p_type) ]}))).

Definition heads (project target : option string) (g : Store) : list Node :=
  List.filter
    (fun n => in_scope project target n
              && Nat.eqb (length (successors g n.(node_id))) 0)
    g.(nodes).

(** One new node and one new relationship for every head matched. *)
Definition mem_create_linked (p : AppendParams) (g : Store)
  : result (Store * Counters) :=
  let hs := heads p.(p_project) p.(p_migration_target) g in
  let g' :=
    fold_left
      (fun acc h => add_edge (h.(node_id), acc.(next_id))
                             (add_node (migration_props p) acc))
      hs g in
  Ok (g', {| nodes_created := Z.of_nat (length hs);
             relationships_created := Z.of_nat (length hs) |}).

(** The nodes at the end of a path of one or more relationships from
    [frontier], shorter paths first. *)
Fixpoint reachable (fuel : nat) (g : Store) (frontier : list nat) : list nat :=
  match fuel with
  | O => []
  | S fuel' =>
      let next := flat_map (successors g) frontier in
      match next with
      | [] => []
      | _ => (next ++ reachable fuel' g next)%list
      end
  end.

(** [[x IN split(m.version, '.') | toInteger(x)]] *)
Definition order_key (n : Node) : list (option N) :=
  match n.(props) !! "version" with
  | Some v => List.map Str.to_N (Str.split "." v)
  | None => []
  end.

(** Cypher's ascending order on lists of integers: element by element,
    null after every number, a proper prefix first. *)
Fixpoint key_le (a b : list (option N)) : bool :=
  match a, b with
  | [], _ => true
  | _ :: _, [] => false
  | x :: a', y :: b' =>
      match x, y with
      | Some m, Some n => if N.eqb m n then key_le a' b' else N.ltb m n
      | Some _, None => true
      | None, Some _ => false
      | None, None => key_le a' b'
      end
  end.

Fixpoint insert_by_key (n : Node) (l : list Node) : list Node :=
  match l with
  | [] => [n]
  | m :: rest =>
      if key_le (order_key m) (order_key n) then m :: insert_by_key n rest
      else n :: l
  end.

Definition sort_by_key (l : list Node) : list Node :=
  fold_left (fun acc n => insert_by_key n acc) l [].

Definition mem_match_applied (baseline : string)
    (project target : option string) (g : Store)
  : result (list (gmap string string)) :=
  let starts :=
    List.map node_id (List.filter (has_version baseline) g.(nodes)) in
  let reached :=
    omap (node_of g) (reachable (length g.(nodes)) g starts) in
  Ok (List.map props
        (sort_by_key (List.filter (in_scope project target) reached))).

(** The rows [(prev, m, next)] of the first statement of
    [remove_migration]; [next] is absent when [m] has no successor. *)
Definition removal_rows (v : string) (project target : option string)
    (g : Store) : list (nat * nat * option nat) :=
  flat_map
    (fun e =>
       match node_of g (snd e) with
       | Some m =>
           if has_version v m && in_scope project target m then
             match successors g m.(node_id) with
             | [] => [ (fst e, snd e, None) ]
             | nexts => List.map (fun x => (fst e, snd e, Some x)) nexts
             end
           else []
       | None => []
       end)
    g.(edges).

Definition mem_match_for_removal (v : string) (project target : option string)
    (g : Store) : result (option bool) :=
  match removal_rows v project target g with
  | [] => Ok None
  | (_, _, next) :: _ => Ok (Some (bool_decide (is_Some next)))
  end.

Definition has_edge (g : Store) (e : nat * nat) : bool :=
  existsb (fun x => Nat.eqb (fst x) (fst e) && Nat.eqb (snd x) (snd e))
          g.(edges).

Definition mem_merge_bypass (v : string) (project target : option string)
    (rolled_back_by : string) (connected_as : option string) (g : Store)
  : result Store :=
  Ok (fold_left
        (fun acc row =>
           match row with
           | (prev, _, Some next) =>
               if has_edge acc (prev, next) then acc
               else add_edge (prev, next) acc
           | (_, _, None) => acc
           end)
        (removal_rows v project target g) g).

Definition mem_delete (v : string) (project target : option string)
    (g : Store) : result (Store * option Z) :=
  let rows := removal_rows v project target g in
  let doomed := List.map (fun row => snd (fst row)) rows in
  let gone (i : nat) := existsb (Nat.eqb i) doomed in
  Ok ({| nodes := List.filter (fun n => negb (gone n.(node_id))) g.(nodes);
         edges := List.filter
                    (fun e => negb (gone (fst e)) && negb (gone (snd e)))
                    g.(edges);
         next_id := g.(next_id);
         unique_constraint := g.(unique_constraint) |},
      Some (Z.of_nat (length rows))).

(** A statement whose text starts with [INVALID] is refused; any other
    is appended to the statements the transaction has run. *)
Definition mem_run (statement : string) (tx : list string)
  : result (list string) :=
  if Str.startswith "INVALID" statement
  then Raise (DriverError ("Invalid input: " ++ statement))
  else Ok (tx ++ [statement])%list.

Definition env : Env :=
  {| Graph := Store;
     Data := list string;
     run := mem_run;
     getuser := Ok "operator";
     show_current_user := Ok (Some "neo4j");
     monotonic := fun n => Z.of_nat (10 * n);
     match_baseline := mem_match_baseline;
     create_baseline_node := mem_create_baseline;
     create_unique_constraint := mem_create_constraint;
     create_linked_migration := mem_create_linked;
     match_applied := mem_match_applied;
     match_for_removal := mem_match_for_removal;
     merge_bypass_link := mem_merge_bypass;
     delete_migration_node := mem_delete |}.

Definition initial (E : Env) (g : @Graph E) (d : @Data E)
  : WorldOf (@Graph E) (@Data E) :=
  {| schema := g; target := d; ticks := 0; trace := [] |}.

End MemoryStore.

(** ** Worked inputs

    Three scripted migrations, of which the second has no down section,
    an executor over them with no project and the default database, and
    the worlds reached by migrating an empty store. *)

Module Scenario.

Import Migration.

#[local] Existing Instance MemoryStore.env.

Definition cypher (version description query : string) : Migration :=
  match new_cypher version description None query with
  | Ok m => m
  | Raise _ => CypherMigration
                 (with_checksums
                    {| version := version; parsed_version := [];
                       description := description; type := CYPHER;
                       source := None; checksum := None;
                       rollback_checksum := None |} None None)
                 query [] []
  end.

Definition V1 : Migration :=
  cypher "0001" "first"
    "↑UP-MIGRATION CREATE (a:A); // ↓DOWN-MIGRATION MATCH (a:A) DELETE a;".

Definition V2 : Migration :=
  cypher "0002" "second" "CREATE (b:B);".

Definition V3 : Migration :=
  cypher "0003" "third"
    "↑UP-MIGRATION CREATE (c:C); // ↓DOWN-MIGRATION MATCH (c:C) DELETE c;".

Definition executor : Executor.Executor :=
  Executor.new [V1; V2; V3] None None None.

Definition fresh : World :=
  MemoryStore.initial MemoryStore.env MemoryStore.empty [].

(** After [migrate()] on the fresh store. *)
Definition migrated : World :=
  snd (Executor.migrate Analyzer.analyze executor None None fresh).

(** An executor whose directory holds the first migration only. *)
Definition partial : Executor.Executor :=
  Executor.new [V1] None None None.

(** A store that holds the baseline and nothing else. *)
Definition with_baseline : MemoryStore.Store :=
  value_or MemoryStore.empty
    (MemoryStore.mem_create_baseline "BASELINE" None None MemoryStore.empty).

Definition no_result : Analyzer.AnalyzingResult :=
  {| Analyzer.pending_migrations := [];
     Analyzer.invalid_versions := [];
     Analyzer.latest_applied_version := None |}.

(** The analysis of the fresh store, and the world after the schema was
    prepared. *)
Definition fresh_analysis : result Analyzer.AnalyzingResult * World :=
  Executor.analyze Analyzer.analyze executor fresh.

Definition fresh_prepared : result unit * World :=
  Executor.prepare_schema executor
    (value_or no_result (fst fresh_analysis)) (snd fresh_analysis).

(** The applied migrations of the migrated store. *)
Definition migrated_applied : result (list Migration.Migration) * World :=
  Dao.get_applied_migrations (Executor.dao executor)
    migrated.

(** A callback that raises for one version. *)
Definition failing_for (version : string) : Executor.Callback :=
  fun m =>
    if String.eqb (Executor.version_of m) version
    then Raise (Exception "callback failed")
    else Ok tt.

End Scenario.

(** ** The vocabulary of the statements *)

(** The statements of a script written one after the other. *)
Definition joined (statements : list string) : string :=
  fold_right String.append EmptyString statements.

(** The range of an unsigned 32-bit number. *)
Definition in32 (z : Z) : Prop := (0 <= z < 2 ^ 32)%Z.

Module VersionOrder.

Local Open Scope N_scope.

Definition all_zero (l : list N) : bool := forallb (N.eqb 0) l.

(** Comparison of two releases position by position, an absent position
    counting as [0]. *)
Fixpoint padded_compare (a b : list N) : comparison :=
  match a, b with
  | [], _ => if all_zero b then Eq else Lt
  | _ :: _, [] => if all_zero a then Eq else Gt
  | x :: a', y :: b' =>
      match x ?= y with
      | Eq => padded_compare a' b'
      | c => c
      end
  end.

(** The release without its trailing zeros, by recursion on the list. *)
Fixpoint trimmed (l : list N) : list N :=
  match l with
  | [] => []
  | x :: t =>
      match trimmed t with
      | [] => if 0 =? x then [] else [x]
      | t' => x :: t'
      end
  end.

End VersionOrder.

(** The versions whose forward body was run, in the order of the calls. *)
Definition applied_versions (t : list Event) : list string :=
  flat_map (fun e => match e with BodyApply v => [v] | _ => [] end) t.

Section Vocabulary.
Context `{Env}.

(** The append statement as [add_migration] sends it. *)
Definition append_statement (dao : Dao.MigrationDAO) (f : Migration.Fields)
    (duration : Z) (g : Graph) : result (Graph * Counters) :=
  match getuser with
  | Raise e => Raise e
  | Ok migrated_by =>
      match show_current_user with
      | Raise e => Raise e
      | Ok connected_as =>
          create_linked_migration
            {| p_version_to := f.(Migration.version);
               p_description := f.(Migration.description);
               p_source := f.(Migration.source);
               p_type := f.(Migration.type);
               p_checksum := f.(Migration.checksum);
               p_duration := duration;
               p_project := dao.(Dao.project);
               p_migration_target := dao.(Dao.database);
               p_migrated_by := migrated_by;
               p_connected_as := connected_as |} g
      end
  end.

(** The world in which [apply_one] calls the callback, or commits when
    there is none: the dry run is over, the transaction is open and the
    body has run. *)
Definition after_forward_body (version : string) (w : World) : World :=
  tick (add_event (BodyApply version)
          (tick (add_event TxBegin
                   (add_event (DaoAddMigration version true) w)))).

(** The call of the callback of [migrate], when there is one. *)
Definition on_apply_events (on_apply : option Executor.Callback)
    (version : string) : list Event :=
  match on_apply with
  | Some _ => [OnApply version]
  | None => []
  end.

(** What the [except] clause of [rollback_one] makes of an exception. *)
Definition surfaced (version : string) (e : exn) : exn :=
  match e with
  | NotImplementedError _ => Executor.rollback_unsupported version e
  | _ => e
  end.

(** The world in which [rollback_one] calls the callback, or the DAO
    when there is none: the transaction is open and the body has run. *)
Definition after_backward_body (version : string) (w : World) : World :=
  tick (add_event (BodyRollback version) (tick (add_event TxBegin w))).

(** The call of the callback of [rollback], when there is one. *)
Definition on_rollback_events (on_rollback : option Executor.Callback)
    (version : string) : list Event :=
  match on_rollback with
  | Some _ => [OnRollback version]
  | None => []
  end.

End Vocabulary.

(** ** Further parts of the sources *)

(** [attr.asdict(other)] as far as [from_dict] reads it: the attributes
    [version], [description], [type], [source] and [checksum].  An
    attribute that holds [None] is left out, [.get] answering [None] for
    it either way; the other attributes of the instance are not read. *)
Definition asdict {D} (other : Migration.MigrationOf D) : gmap string string :=
  let f := Migration.fields other in
  let required : gmap string string :=
    <["version" := f.(Migration.version)]>
      (<["description" := f.(Migration.description)]>
         (<["type" := f.(Migration.type)]> ∅)) in
  let with_source :=
    match f.(Migration.source) with
    | Some s => <["source" := s]> required
    | None => required
    end in
  match f.(Migration.checksum) with
  | Some c => <["checksum" := c]> with_source
  | None => with_source
  end.

(** [Migration.from_other]: [cls.from_dict(asdict(other))], an instance
    of the base class. *)
Definition from_other {D} (other : Migration.MigrationOf D)
  : result (Migration.MigrationOf D) :=
  match Migration.from_dict (asdict other) with
  | Ok f => Ok (Migration.Base f)
  | Raise e => Raise e
  end.

(** ** More vocabulary *)

(** A statement as [tx.run] gets it: not empty, without [;], and equal
    to its own [strip()]. *)
Definition clean_statement (st : string) : Prop :=
  st <> EmptyString /\ Str.contains ";" st = false /\ Str.strip st = st.

(** The stripped text of the up section and of the down section of a
    script with markers: [forward_content] and [down_content] of
    [_parse_statements]. *)
Definition forward_content (query : string) : string :=
  match Migration.forward_group query with
  | Some g => Str.strip g
  | None => EmptyString
  end.

Definition down_content (query : string) : string :=
  match Migration.down_group query with
  | Some g => Str.strip g
  | None => EmptyString
  end.

(** The bytes of [s.strip()]. *)
Definition strip_bytes (s : list ascii) : list ascii :=
  Str.rstrip_bytes (Str.lstrip_bytes s).

(** Patterns of which each removal shortens the text. *)
Definition no_empty_pattern (ps : list (list ascii)) : Prop :=
  List.Forall (fun p => p <> []) ps.

Section MoreVocabulary.
Context `{Env}.

(** The calls of a migration that [migrate] brings to its end, and of an
    entry that [rollback] brings to its end. *)
Definition apply_events (on_apply : option Executor.Callback)
    (m : Migration.Migration) : list Event :=
  [DaoAddMigration (Executor.version_of m) true; TxBegin;
   BodyApply (Executor.version_of m)]
  ++ on_apply_events on_apply (Executor.version_of m)
  ++ [TxCommit; DaoAddMigration (Executor.version_of m) false].

Definition rollback_events (on_rollback : option Executor.Callback)
    (m : Migration.Migration) : list Event :=
  [TxBegin; BodyRollback (Executor.version_of m)]
  ++ on_rollback_events on_rollback (Executor.version_of m)
  ++ [DaoRemoveMigration (Executor.version_of m); TxCommit].

(** The forward bodies of a list of migrations, one after the other on
    the content of the migrated database. *)
Fixpoint apply_in_order (l : list Migration.Migration) (tx : Data)
  : result Data :=
  match l with
  | [] => Ok tx
  | m :: rest =>
      match Migration.apply m tx with
      | Ok tx' => apply_in_order rest tx'
      | Raise e => Raise e
      end
  end.

(** The backward bodies of the local migrations of a list of entries,
    one after the other. *)
Fixpoint rollback_in_order (self : Executor.Executor)
    (l : list Migration.Migration) (tx : Data) : result Data :=
  match l with
  | [] => Ok tx
  | m :: rest =>
      match Executor.find_local self m with
      | None => Raise (Executor.local_not_found (Executor.version_of m))
      | Some local =>
          match Migration.rollback local tx with
          | Ok tx' => rollback_in_order self rest tx'
          | Raise e => Raise e
          end
      end
  end.

(** Whether the callback, if there is one, returns for a migration. *)
Definition callback_returns (callback : option Executor.Callback)
    (m : Migration.Migration) : Prop :=
  match callback with
  | Some c => c m = Ok tt
  | None => True
  end.

(** The world in which [apply_one] records the migration: the callback
    has returned and the transaction of the body is committed. *)
Definition before_record (on_apply : option Executor.Callback)
    (version : string) (tx' : Data) (w : World) : World :=
  add_event TxCommit
    (set_target tx'
       (match on_apply with
        | Some _ => add_event (OnApply version) (after_forward_body version w)
        | None => after_forward_body version w
        end)).

(** The world in which [rollback_one] calls the DAO: the callback has
    returned and the transaction of the body is still open. *)
Definition before_remove (on_rollback : option Executor.Callback)
    (version : string) (w : World) : World :=
  match on_rollback with
  | Some _ => add_event (OnRollback version) (after_backward_body version w)
  | None => after_backward_body version w
  end.

(** The statement of [remove_migration] that links the predecessor of
    the entry to its successor, as the DAO sends it when there is a
    successor. *)
Definition relink_statement (dao : Dao.MigrationDAO) (version : string)
    (has_next : bool) (g : Graph) : result Graph :=
  if has_next then
    match getuser with
    | Raise e => Raise e
    | Ok rolled_back_by =>
        match show_current_user with
        | Raise e => Raise e
        | Ok connected_as =>
            merge_bypass_link version dao.(Dao.project) dao.(Dao.database)
                              rolled_back_by connected_as g
        end
    end
  else Ok g.

(** What the driver owes [create_baseline]: a baseline that was created
    is found. *)
Definition baseline_is_found : Prop :=
  forall (version : string) (project target : option string) (g g' : Graph),
    create_baseline_node version project target g = Ok g' ->
    match_baseline version project target g' = Ok true.

End MoreVocabulary.

(** ** More stores and inputs *)

Module Doubles.

(** The in-memory store on a machine where [getuser()] raises. *)
Definition without_user : Env :=
  {| Graph := MemoryStore.Store;
     Data := list string;
     run := MemoryStore.mem_run;
     getuser := Raise (Exception "Test exception");
     show_current_user := Ok (Some "neo4j");
     monotonic := fun n => Z.of_nat (10 * n);
     match_baseline := MemoryStore.mem_match_baseline;
     create_baseline_node := MemoryStore.mem_create_baseline;
     create_unique_constraint := MemoryStore.mem_create_constraint;
     create_linked_migration := MemoryStore.mem_create_linked;
     match_applied := MemoryStore.mem_match_applied;
     match_for_removal := MemoryStore.mem_match_for_removal;
     merge_bypass_link := MemoryStore.mem_merge_bypass;
     delete_migration_node := MemoryStore.mem_delete |}.

(** The in-memory store with a connection that is lost when a record
    with a measured duration is written: the dry run goes through, the
    recording does not. *)
Definition recording_fails : Env :=
  {| Graph := MemoryStore.Store;
     Data := list string;
     run := MemoryStore.mem_run;
     getuser := Ok "operator";
     show_current_user := Ok (Some "neo4j");
     monotonic := fun n => Z.of_nat (10 * n);
     match_baseline := MemoryStore.mem_match_baseline;
     create_baseline_node := MemoryStore.mem_create_baseline;
     create_unique_constraint := MemoryStore.mem_create_constraint;
     create_linked_migration :=
       fun p g =>
         if Z.eqb p.(p_duration) 0
         then MemoryStore.mem_create_linked p g
         else Raise (DriverError "connection lost");
     match_applied := MemoryStore.mem_match_applied;
     match_for_removal := MemoryStore.mem_match_for_removal;
     merge_bypass_link := MemoryStore.mem_merge_bypass;
     delete_migration_node := MemoryStore.mem_delete |}.

End Doubles.

Module Cases.

#[local] Existing Instance MemoryStore.env.

(** A script whose only statement the store refuses. *)
Definition broken : Migration.Migration :=
  Scenario.cypher "0002" "broken" "INVALID STATEMENT;".

(** A script whose down section the store refuses. *)
Definition one_way : Migration.Migration :=
  Scenario.cypher "0001" "one way"
    "↑UP-MIGRATION CREATE (a:A); // ↓DOWN-MIGRATION INVALID STATEMENT;".

Definition with_broken : Executor.Executor :=
  Executor.new [Scenario.V1; broken; Scenario.V3] None None None.

Definition with_one_way : Executor.Executor :=
  Executor.new [one_way] None None None.

(** After [migrate()] of [with_one_way] on the fresh store. *)
Definition migrated_one_way : World :=
  snd (Executor.migrate Analyzer.analyze with_one_way None None
         Scenario.fresh).

(** The store after the first migration, with the relationship from the
    baseline to its entry doubled. *)
Definition doubled : World :=
  let w := snd (Executor.migrate Analyzer.analyze Scenario.executor
                  (Some "0001") None Scenario.fresh) in
  set_schema (MemoryStore.add_edge (0, 1)%nat w.(schema)) w.

(** A store whose baseline is followed by a node that has a version and
    nothing else. *)
Definition with_bare_node : World :=
  MemoryStore.initial MemoryStore.env
    (MemoryStore.add_edge (0, 1)%nat
       (MemoryStore.add_node {[ "version" := "0001" ]}
          Scenario.with_baseline))
    [].

End Cases.

Module Inputs.

#[local] Existing Instance MemoryStore.env.

Definition script_one : string :=
  "↑UP-MIGRATION CREATE (a:A); // ↓DOWN-MIGRATION MATCH (a:A) DELETE a;".

(** A script with a down section only. *)
Definition script_down_only : string :=
  "// ↓DOWN-MIGRATION MATCH (a:A) DELETE a;".

Definition down_only : Migration.Migration :=
  Scenario.cypher "0004" "down only" script_down_only.

(** A script whose only statement has no [;]. *)
Definition unterminated : Migration.Migration :=
  Scenario.cypher "0005" "unterminated" "CREATE (d:D)".

(** The applied migrations of the migrated store, as the DAO reads
    them. *)
Definition applied : list Migration.Migration :=
  value_or [] (fst Scenario.migrated_applied).

Definition entry (i : nat) : Migration.Migration :=
  nth i applied Scenario.V1.

End Inputs.

(** * Properties *)

(** ** Texts *)

Lemma append_cons (c : ascii) (a b : string) :
  (String c a ++ b)%string = String c (a ++ b).
Proof. reflexivity. Qed.

Lemma append_empty_l (b : string) : (EmptyString ++ b)%string = b.
Proof. reflexivity. Qed.

Lemma append_empty_r (a : string) : (a ++ EmptyString)%string = a.
Proof.
  induction a as [|x a IH]; [reflexivity|].
  now rewrite append_cons, IH.
Qed.

Lemma append_assoc (a b c : string) : ((a ++ b) ++ c = a ++ (b ++ c))%string.
Proof.
  induction a as [|x a IH]; [reflexivity|].
  now rewrite !append_cons, IH.
Qed.

Lemma list_ascii_of_string_app (a b : string) :
  list_ascii_of_string (a ++ b)
  = (list_ascii_of_string a ++ list_ascii_of_string b)%list.
Proof.
  induction a as [|c a IH]; [reflexivity|].
  rewrite append_cons. simpl. now rewrite IH.
Qed.

(** ** The checksum of a script *)

Section Crc32Facts.

Local Open Scope Z_scope.

Lemma lxor_in32 a b : in32 a -> in32 b -> in32 (Z.lxor a b).
Proof.
  unfold in32. intros [Ha0 Ha] [Hb0 Hb].
  assert (H0 : 0 <= Z.lxor a b) by (apply Z.lxor_nonneg; tauto).
  split; [exact H0|].
  destruct (Z.eq_dec (Z.lxor a b) 0) as [->|Hne]; [reflexivity|].
  apply Z.log2_lt_pow2; [lia|].
  pose proof (Z.log2_lxor a b Ha0 Hb0) as Hl.
  assert (Z.log2 a < 32).
  { destruct (Z.eq_dec a 0) as [->|]; [reflexivity|].
    apply Z.log2_lt_pow2; lia. }
  assert (Z.log2 b < 32).
  { destruct (Z.eq_dec b 0) as [->|]; [reflexivity|].
    apply Z.log2_lt_pow2; lia. }
  lia.
Qed.

Lemma shiftr1_in32 c : in32 c -> in32 (Z.shiftr c 1).
Proof.
  unfold in32. intros [H0 H].
  rewrite Z.shiftr_div_pow2 by lia. change (2 ^ 1) with 2.
  split.
  - apply Z.div_pos; lia.
  - apply Z.div_lt_upper_bound; lia.
Qed.

Lemma shift_bit_in32 c : in32 c -> in32 (Crc32.shift_bit c).
Proof.
  intros H. unfold Crc32.shift_bit.
  destruct (Z.testbit c 0).
  - apply lxor_in32; [now apply shiftr1_in32|].
    unfold in32, Crc32.poly. lia.
  - now apply shiftr1_in32.
Qed.

Lemma update_in32 c b : in32 c -> in32 (Crc32.update c b).
Proof.
  intros H. unfold Crc32.update.
  assert (Hb : in32 (Z.of_N (N_of_ascii b))).
  { pose proof (N_ascii_bounded b). unfold in32. lia. }
  pose proof (lxor_in32 _ _ H Hb) as Hx.
  generalize dependent (Z.lxor c (Z.of_N (N_of_ascii b))).
  intros z Hz. cbn [Nat.iter nat_rect].
  do 8 apply shift_bit_in32. exact Hz.
Qed.

Lemma register_in32 data : forall r, in32 r -> in32 (Crc32.register data r).
Proof.
  unfold Crc32.register.
  induction data as [|b data IH]; intros r Hr; cbn [fold_left]; [exact Hr|].
  apply IH. now apply update_in32.
Qed.

Lemma mask_in32 : in32 Crc32.mask.
Proof. unfold in32, Crc32.mask. lia. Qed.

Lemma land_mask_in32 z : in32 (Z.land z Crc32.mask).
Proof.
  change Crc32.mask with (Z.ones 32). rewrite Z.land_ones by lia.
  unfold in32. apply Z.mod_pos_bound. lia.
Qed.

Lemma land_mask_id z : in32 z -> Z.land z Crc32.mask = z.
Proof.
  intros H. change Crc32.mask with (Z.ones 32).
  rewrite Z.land_ones by lia. apply Z.mod_small. exact H.
Qed.

Lemma crc32_in32 data value : in32 (Crc32.crc32 data value).
Proof.
  unfold Crc32.crc32.
  apply lxor_in32; [|exact mask_in32].
  apply register_in32. apply lxor_in32; [apply land_mask_in32 | exact mask_in32].
Qed.

Lemma lxor_twice z m : Z.lxor (Z.lxor z m) m = z.
Proof. now rewrite Z.lxor_assoc, Z.lxor_nilpotent, Z.lxor_0_r. Qed.

(** Feeding the checksum of [a] back in as the start value continues the
    computation: the streaming interface of [crc32]. *)
Lemma crc32_streaming a b value :
  Crc32.crc32 b (Crc32.crc32 a value) = Crc32.crc32 (a ++ b) value.
Proof.
  unfold Crc32.crc32 at 1.
  rewrite (land_mask_id _ (crc32_in32 a value)).
  unfold Crc32.crc32. rewrite lxor_twice.
  rewrite list_ascii_of_string_app. unfold Crc32.register.
  now rewrite fold_left_app.
Qed.

End Crc32Facts.

Lemma checksum_loop_from (statements : list string) :
  forall seen : string,
    fold_left Migration.checksum_step statements
              (Some (Crc32.crc32 seen 0))
    = Some (Crc32.crc32 (seen ++ joined statements) 0).
Proof.
  induction statements as [|st rest IH]; intros seen; cbn [fold_left joined fold_right].
  - now rewrite append_empty_r.
  - assert (Hstep : Migration.checksum_step (Some (Crc32.crc32 seen 0)) st
                    = Some (Crc32.crc32 (seen ++ st) 0)).
    { unfold Migration.checksum_step.
      destruct (Z.eqb_spec (Crc32.crc32 seen 0) 0) as [Hz|Hz].
      - rewrite <- crc32_streaming, Hz. reflexivity.
      - now rewrite crc32_streaming. }
    rewrite Hstep, IH, append_assoc. reflexivity.
Qed.

Lemma checksum_loop_joined (statements : list string) :
  Migration.checksum_loop statements
  = match statements with
    | [] => None
    | _ :: _ => Some (Crc32.crc32 (joined statements) 0)
    end.
Proof.
  destruct statements as [|st rest]; [reflexivity|].
  unfold Migration.checksum_loop. cbn [fold_left].
  change (Migration.checksum_step None st) with (Some (Crc32.crc32 st 0)).
  apply checksum_loop_from.
Qed.

Lemma checksum_of_joined (statements : list string) :
  Migration.checksum_of statements
  = match statements with
    | [] => None
    | _ :: _ =>
        let crc := Crc32.crc32 (joined statements) 0 in
        if Z.eqb crc 0 then None else Some (Str.of_Z crc)
    end.
Proof.
  unfold Migration.checksum_of. rewrite checksum_loop_joined.
  destruct statements; reflexivity.
Qed.

Section CypherChecksum.
Context `{Env}.

Lemma new_cypher_shape (version description : string)
    (source : option string) (query : string) :
  Migration.new_cypher version description source query
  = match Migration.new version description Migration.CYPHER source None with
    | Raise e => Raise e
    | Ok f =>
        let statements :=
          Migration.normalize (fst (Migration._parse_statements query)) in
        let rollback_statements :=
          Migration.normalize (snd (Migration._parse_statements query)) in
        Ok (Migration.CypherMigration
              (Migration.with_checksums f
                 (Migration.checksum_of statements)
                 (Migration.checksum_of rollback_statements))
              query statements rollback_statements)
    end.
Proof.
  unfold Migration.new_cypher.
  destruct (Migration.new version description Migration.CYPHER source None);
    [|reflexivity].
  destruct (Migration._parse_statements query). reflexivity.
Qed.

(** C8, as amended: the checksum of a scripted migration is the CRC-32 of
    its trimmed, non-empty statements written one after the other, in
    decimal, and is absent when there is no statement or the CRC is 0.
    The checksum therefore depends on the statement sequence through the
    joined text only. *)
Theorem cypher_checksum_is_crc32_of_joined_statements
    (version description : string) (source : option string)
    (query : string) (m : Migration.Migration) :
  Migration.new_cypher version description source query = Ok m ->
  let statements :=
    Migration.normalize (fst (Migration._parse_statements query)) in
  let crc := Crc32.crc32 (joined statements) 0 in
  (exists f rollback_statements,
      m = Migration.CypherMigration f query statements rollback_statements)
  /\ (Migration.fields m).(Migration.checksum)
     = match statements with
       | [] => None
       | _ :: _ => if Z.eqb crc 0 then None else Some (Str.of_Z crc)
       end.
Proof.
  intros Hm statements crc. rewrite new_cypher_shape in Hm.
  destruct (Migration.new version description Migration.CYPHER source None)
    as [f|e]; [|discriminate].
  cbv zeta in Hm. injection Hm as <-. split.
  - eexists _, _. reflexivity.
  - cbn [Migration.fields Migration.with_checksums Migration.checksum].
    apply checksum_of_joined.
Qed.

End CypherChecksum.

(** The theorem at the second migration of the worked inputs. *)
Lemma cypher_checksum_is_crc32_of_joined_statements_witness :
  (Migration.fields Scenario.V2).(Migration.checksum)
  = (if Z.eqb (Crc32.crc32 "CREATE (b:B)" 0) 0 then None
     else Some (Str.of_Z (Crc32.crc32 "CREATE (b:B)" 0))).
Proof.
  exact (proj2 (@cypher_checksum_is_crc32_of_joined_statements
                  MemoryStore.env "0002" "second" None "CREATE (b:B);"
                  Scenario.V2 eq_refl)).
Defined.

(** C8, as stated, fails: the scripts [a;aa;] and [aa;a;] hold the same
    two distinct statements in swapped order and have the same
    checksum. *)
Lemma swapped_statements_same_checksum :
  let fields :=
    {| Migration.version := "0001"; Migration.parsed_version := [1%N];
       Migration.description := "swap"; Migration.type := "CYPHER";
       Migration.source := None; Migration.checksum := Some "4027020077";
       Migration.rollback_checksum := None |} in
  @Migration.new_cypher MemoryStore.env "0001" "swap" None "a;aa;"
  = Ok (Migration.CypherMigration fields "a;aa;" ["a"; "aa"] [])
  /\ @Migration.new_cypher MemoryStore.env "0001" "swap" None "aa;a;"
     = Ok (Migration.CypherMigration fields "aa;a;" ["aa"; "a"] [])
  /\ "a" <> "aa".
Proof.
  split; [vm_compute; reflexivity|].
  split; [vm_compute; reflexivity | discriminate].
Qed.

(** Where the joined text changes, so as a rule does the checksum. *)
Example swapped_statements_other_checksum :
  Migration.checksum_of ["CREATE (a)"; "CREATE (b)"]
  <> Migration.checksum_of ["CREATE (b)"; "CREATE (a)"].
Proof. vm_compute. discriminate. Qed.

(** The statements and checksums [test_init_cypher_migration] expects. *)
Example test_init_cypher_migration_repeated :
  let statements :=
    Migration.normalize
      (fst (Migration._parse_statements
              "MATCH (n) RETURN count(n) AS n;
MATCH (n) RETURN count(n) AS n;
MATCH (n) RETURN count(n) AS n;
")) in
  statements = ["MATCH (n) RETURN count(n) AS n";
                "MATCH (n) RETURN count(n) AS n";
                "MATCH (n) RETURN count(n) AS n"]
  /\ Migration.checksum_of statements = Some "1902097523".
Proof. split; vm_compute; reflexivity. Qed.

Example test_init_cypher_migration_comments :
  let statements :=
    Migration.normalize
      (fst (Migration._parse_statements
              "//some comment
  MATCH (n) RETURN n;

 //some other comment
 MATCH (n)
    RETURN (n);
;
")) in
  statements = ["//some comment
  MATCH (n) RETURN n";
                "//some other comment
 MATCH (n)
    RETURN (n)"]
  /\ Migration.checksum_of statements = Some "3156131171".
Proof. split; vm_compute; reflexivity. Qed.

(** The cases of [test_parse_sections_in_cypher_migration]. *)
Example test_parse_sections_in_cypher_migration :
  let parsed (query : string) :=
    (Migration.normalize (fst (Migration._parse_statements query)),
     Migration.normalize (snd (Migration._parse_statements query))) in
  parsed "MATCH (n) RETURN count(n) AS n;
MATCH (m) RETURN count(m) AS m;"
  = (["MATCH (n) RETURN count(n) AS n"; "MATCH (m) RETURN count(m) AS m"], [])
  /\ parsed "↑UP-MIGRATION
CREATE (n:Test);
MATCH (n:Test) RETURN n;
// ↓DOWN-MIGRATION
MATCH (n:Test) DELETE n;"
     = (["CREATE (n:Test)"; "MATCH (n:Test) RETURN n"],
        ["MATCH (n:Test) DELETE n"])
  /\ parsed "↑UP-MIGRATION
CREATE (n:Test);
// ↓DOWN-MIGRATION"
     = (["CREATE (n:Test)"], [])
  /\ parsed "↑UP-MIGRATION
CREATE (n:Test);
CREATE (m:Test2);
// ↓DOWN-MIGRATION
MATCH (n:Test) DELETE n;
MATCH (m:Test2) DELETE m;"
     = (["CREATE (n:Test)"; "CREATE (m:Test2)"],
        ["MATCH (n:Test) DELETE n"; "MATCH (m:Test2) DELETE m"]).
Proof. repeat split; vm_compute; reflexivity. Qed.

(** The cases of [test_dao_schema_database]. *)
Example test_dao_schema_database :
  let schema_db (db schema : option string) :=
    Dao.schema_database
      (Executor.dao (@Executor.new MemoryStore.env [] None db schema)) in
  schema_db None None = None
  /\ schema_db (Some "test") None = Some "test"
  /\ schema_db (Some "test1") (Some "test2") = Some "test2"
  /\ schema_db None (Some "test2") = Some "test2".
Proof. repeat split; vm_compute; reflexivity. Qed.

(** ** Scripts without section markers *)

Lemma split_not_nil (sep : ascii) (s : string) : Str.split sep s <> [].
Proof.
  destruct s as [|c s]; cbn [Str.split]; [discriminate|].
  destruct (Ascii.eqb c sep); [discriminate|].
  destruct (Str.split sep s); discriminate.
Qed.

Lemma contains_sep_cons (sep c : ascii) (t : string) :
  Str.contains (String sep EmptyString) (String c t)
  = Ascii.eqb c sep || Str.contains (String sep EmptyString) t.
Proof.
  cbn [Str.contains Str.startswith].
  rewrite (Ascii.eqb_sym sep c). destruct t; now rewrite andb_true_r.
Qed.

Lemma split_without_sep (sep : ascii) (s : string) :
  Str.contains (String sep EmptyString) s = false -> Str.split sep s = [s].
Proof.
  induction s as [|c s IH]; intros Hs; [reflexivity|].
  rewrite contains_sep_cons in Hs. apply orb_false_elim in Hs as [Hc Ht].
  cbn [Str.split]. rewrite Hc, (IH Ht). reflexivity.
Qed.

Lemma split_app_sep (sep : ascii) (body tail : string) :
  Str.contains (String sep EmptyString) tail = false ->
  Str.split sep (body ++ String sep tail)
  = (Str.split sep body ++ [tail])%list.
Proof.
  intros Htail. induction body as [|c body IH].
  - rewrite append_empty_l. cbn [Str.split]. rewrite Ascii.eqb_refl.
    now rewrite (split_without_sep _ _ Htail).
  - rewrite append_cons. cbn [Str.split]. rewrite IH.
    destruct (Ascii.eqb c sep); [reflexivity|].
    pose proof (split_not_nil sep body) as Hne.
    destruct (Str.split sep body) as [|seg rest]; [contradiction|reflexivity].
Qed.

Lemma drop_last_snoc {A} (l : list A) (x : A) : Py.drop_last (l ++ [x]) = l.
Proof. unfold Py.drop_last. apply removelast_last. Qed.

Lemma parse_statements_without_markers (query : string) :
  Str.contains Migration.UP_MARKER query = false ->
  Str.contains Migration.DOWN_MARKER query = false ->
  Migration._parse_statements query
  = (Py.drop_last (Str.split ";" query), []).
Proof.
  intros Hup Hdown. unfold Migration._parse_statements.
  now rewrite Hup, Hdown.
Qed.

Section Unterminated.
Context `{Env}.

(** C10: in a script without section markers the raw statement list is
    the list of [;]-separated segments without the last one, so the text
    after the last [;] reaches neither the statements that are run nor
    the checksum: the migration built from [body;tail] has the
    statements and the checksum of the segments of [body], whatever
    [tail] is. *)
Theorem text_after_last_semicolon_is_dropped
    (version description : string) (source : option string)
    (body tail : string) :
  let query := (body ++ String ";" tail)%string in
  Str.contains Migration.UP_MARKER query = false ->
  Str.contains Migration.DOWN_MARKER query = false ->
  Str.contains ";" tail = false ->
  let statements := Migration.normalize (Str.split ";" body) in
  Migration._parse_statements query
  = (Py.drop_last (Str.split ";" query), [])
  /\ Py.drop_last (Str.split ";" query) = Str.split ";" body
  /\ Migration.new_cypher version description source query
     = match Migration.new version description Migration.CYPHER source None
       with
       | Raise e => Raise e
       | Ok f =>
           Ok (Migration.CypherMigration
                 (Migration.with_checksums f
                    (Migration.checksum_of statements) None)
                 query statements [])
       end.
Proof.
  intros query Hup Hdown Htail statements.
  pose proof (parse_statements_without_markers query Hup Hdown) as Hparse.
  assert (Hsplit : Py.drop_last (Str.split ";" query) = Str.split ";" body).
  { unfold query. rewrite (split_app_sep _ _ _ Htail). apply drop_last_snoc. }
  split; [exact Hparse|]. split; [exact Hsplit|].
  rewrite new_cypher_shape, Hparse. cbn [fst snd]. rewrite Hsplit.
  reflexivity.
Qed.

(** A script without any [;] has no statement at all. *)
Lemma script_without_semicolon_has_no_statement (query : string) :
  Str.contains Migration.UP_MARKER query = false ->
  Str.contains Migration.DOWN_MARKER query = false ->
  Str.contains ";" query = false ->
  Migration._parse_statements query = ([], []).
Proof.
  intros Hup Hdown Hsemi.
  rewrite (parse_statements_without_markers query Hup Hdown).
  now rewrite (split_without_sep _ _ Hsemi).
Qed.

End Unterminated.

(** The theorem at a script whose second statement lacks its [;]. *)
Lemma text_after_last_semicolon_is_dropped_witness :
  @Migration.new_cypher MemoryStore.env "0007" "two statements" None
    "CREATE (a:A); CREATE (b:B)"
  = match Migration.new "0007" "two statements" Migration.CYPHER None None
    with
    | Raise e => Raise e
    | Ok f =>
        Ok (Migration.CypherMigration
              (Migration.with_checksums f
                 (Migration.checksum_of
                    (Migration.normalize (Str.split ";" "CREATE (a:A)")))
                 None)
              "CREATE (a:A); CREATE (b:B)"
              (Migration.normalize (Str.split ";" "CREATE (a:A)")) [])
    end.
Proof.
  assert (Hup : Str.contains Migration.UP_MARKER
                  "CREATE (a:A); CREATE (b:B)" = false)
    by (vm_compute; reflexivity).
  assert (Hdown : Str.contains Migration.DOWN_MARKER
                    "CREATE (a:A); CREATE (b:B)" = false)
    by (vm_compute; reflexivity).
  assert (Htail : Str.contains ";" " CREATE (b:B)" = false)
    by (vm_compute; reflexivity).
  exact (proj2 (proj2 (@text_after_last_semicolon_is_dropped MemoryStore.env
                         "0007" "two statements" None "CREATE (a:A)"
                         " CREATE (b:B)" Hup Hdown Htail))).
Defined.

(** ** The order of versions *)

Module VersionFacts.

Import VersionOrder.
Local Open Scope N_scope.

Lemma dropwhile_app_all {A} (p : A -> bool) (l : list A) (x : A) :
  forallb p l = true ->
  Version.dropwhile p (l ++ [x]) = if p x then [] else [x].
Proof.
  induction l as [|y l IH]; intros Hall; [reflexivity|].
  cbn in Hall. apply andb_prop in Hall as [Hy Hl].
  cbn [app Version.dropwhile]. rewrite Hy. now apply IH.
Qed.

Lemma dropwhile_app_some {A} (p : A -> bool) (l : list A) (x : A) :
  forallb p l = false ->
  Version.dropwhile p (l ++ [x]) = (Version.dropwhile p l ++ [x])%list.
Proof.
  induction l as [|y l IH]; intros Hall; [discriminate|].
  cbn in Hall. cbn [app Version.dropwhile].
  destruct (p y); [apply IH; exact Hall | reflexivity].
Qed.

Lemma dropwhile_nil_iff {A} (p : A -> bool) (l : list A) :
  Version.dropwhile p l = [] <-> forallb p l = true.
Proof.
  induction l as [|y l IH]; [easy|].
  cbn [Version.dropwhile forallb]. destruct (p y); [exact IH | easy].
Qed.

Lemma forallb_rev {A} (p : A -> bool) (l : list A) :
  forallb p (rev l) = forallb p l.
Proof.
  induction l as [|y l IH]; [reflexivity|].
  cbn [rev forallb]. rewrite forallb_app, IH. cbn. rewrite andb_true_r.
  apply andb_comm.
Qed.

Lemma cmpkey_nil_iff (l : list N) :
  Version.cmpkey l = [] <-> all_zero l = true.
Proof.
  unfold Version.cmpkey, all_zero. rewrite <- (forallb_rev _ l).
  rewrite <- dropwhile_nil_iff.
  destruct (Version.dropwhile (N.eqb 0) (rev l)) as [|z r]; [easy|].
  split; [|discriminate]. intros Hr.
  apply (f_equal (@length N)) in Hr. rewrite length_rev in Hr. discriminate.
Qed.

Lemma cmpkey_cons (x : N) (t : list N) :
  Version.cmpkey (x :: t)
  = match Version.cmpkey t with
    | [] => if 0 =? x then [] else [x]
    | t' => x :: t'
    end.
Proof.
  destruct (forallb (N.eqb 0) (rev t)) eqn:Hall.
  - assert (Ht : Version.cmpkey t = []).
    { apply cmpkey_nil_iff. unfold all_zero. now rewrite <- forallb_rev. }
    rewrite Ht. unfold Version.cmpkey. cbn [rev].
    rewrite (dropwhile_app_all _ _ _ Hall). now destruct (0 =? x).
  - unfold Version.cmpkey at 1. cbn [rev].
    rewrite (dropwhile_app_some _ _ _ Hall), rev_app_distr. cbn [rev app].
    fold (Version.cmpkey t).
    destruct (Version.cmpkey t) as [|z r] eqn:Ht; [|reflexivity].
    apply cmpkey_nil_iff in Ht. unfold all_zero in Ht.
    rewrite <- forallb_rev in Ht. congruence.
Qed.

Lemma cmpkey_trimmed (l : list N) : Version.cmpkey l = trimmed l.
Proof.
  induction l as [|x t IH]; [reflexivity|].
  rewrite cmpkey_cons, IH. reflexivity.
Qed.

Lemma trimmed_nil_iff (l : list N) : trimmed l = [] <-> all_zero l = true.
Proof. rewrite <- cmpkey_trimmed. apply cmpkey_nil_iff. Qed.

Lemma tuple_lt_nil_l (b : list N) :
  Version.tuple_lt [] b = negb (bool_decide (b = [])).
Proof. now destruct b. Qed.

Lemma tuple_lt_nil_r (a : list N) : Version.tuple_lt a [] = false.
Proof. now destruct a. Qed.

Lemma trimmed_cons_cases (x : N) (t : list N) :
  (x = 0 /\ all_zero t = true /\ trimmed (x :: t) = [])
  \/ ((x <> 0 \/ all_zero t = false) /\ trimmed (x :: t) = x :: trimmed t).
Proof.
  cbn [trimmed]. destruct (trimmed t) as [|z r] eqn:Ht.
  - apply trimmed_nil_iff in Ht. destruct (N.eqb_spec 0 x) as [<-|Hx].
    + left. auto.
    + right. split; [left; congruence | reflexivity].
  - right. split; [|reflexivity]. right.
    destruct (all_zero t) eqn:Hz; [|reflexivity].
    apply trimmed_nil_iff in Hz. congruence.
Qed.

Lemma lt_padded (a : list N) :
  forall b, Version.tuple_lt (trimmed a) (trimmed b) = true
            <-> padded_compare a b = Lt.
Proof.
  induction a as [|x a IH]; intros b.
  - cbn [trimmed padded_compare]. rewrite tuple_lt_nil_l.
    destruct (all_zero b) eqn:Hb.
    + apply trimmed_nil_iff in Hb. rewrite Hb. easy.
    + destruct (trimmed b) eqn:Ht; [|easy].
      apply trimmed_nil_iff in Ht. congruence.
  - destruct b as [|y b].
    + cbn [padded_compare]. change (trimmed []) with (@nil N).
      rewrite tuple_lt_nil_r. destruct (all_zero (x :: a)); easy.
    + cbn [padded_compare].
      destruct (trimmed_cons_cases x a) as [(-> & Ha & ->)|(Ha & ->)];
        destruct (trimmed_cons_cases y b) as [(-> & Hb & ->)|(Hb & ->)].
      * cbn. rewrite <- IH.
        apply trimmed_nil_iff in Ha, Hb. now rewrite Ha, Hb.
      * cbn [Version.tuple_lt]. apply trimmed_nil_iff in Ha.
        destruct (N.compare_spec 0 y) as [<-|Hlt|Hgt]; [|easy|lia].
        rewrite <- IH, Ha, tuple_lt_nil_l.
        destruct Hb as [Hb|Hb]; [congruence|].
        destruct (trimmed b) eqn:Ht; [|easy].
        apply trimmed_nil_iff in Ht. congruence.
      * rewrite tuple_lt_nil_r. apply trimmed_nil_iff in Hb.
        destruct (N.compare_spec x 0) as [->|Hlt|Hgt]; [|lia|easy].
        rewrite <- IH, Hb, tuple_lt_nil_r. easy.
      * cbn [Version.tuple_lt].
        destruct (N.compare_spec x y) as [->|Hlt|Hgt].
        -- rewrite N.eqb_refl. apply IH.
        -- destruct (N.eqb_spec x y); [lia|].
           split; [reflexivity|]. intros _. now apply N.ltb_lt.
        -- destruct (N.eqb_spec x y); [lia|].
           split; [|discriminate]. intros Hlt. apply N.ltb_lt in Hlt. lia.
Qed.

Lemma tuple_eq_iff (a : list N) : forall b, Version.tuple_eq a b = true <-> a = b.
Proof.
  induction a as [|x a IH]; intros [|y b]; cbn [Version.tuple_eq]; try easy.
  rewrite andb_true_iff, N.eqb_eq, IH. split; [intros [-> ->]; reflexivity|].
  intros Heq. now injection Heq.
Qed.

Lemma eq_padded (a : list N) :
  forall b, trimmed a = trimmed b <-> padded_compare a b = Eq.
Proof.
  induction a as [|x a IH]; intros b.
  - cbn [trimmed padded_compare]. destruct (all_zero b) eqn:Hb.
    + apply trimmed_nil_iff in Hb. rewrite Hb. easy.
    + split; [|discriminate]. intros Ht. symmetry in Ht.
      apply trimmed_nil_iff in Ht. congruence.
  - destruct b as [|y b].
    + cbn [padded_compare]. change (trimmed []) with (@nil N).
      rewrite trimmed_nil_iff. destruct (all_zero (x :: a)); easy.
    + cbn [padded_compare].
      destruct (trimmed_cons_cases x a) as [(-> & Ha & ->)|(Ha & ->)];
        destruct (trimmed_cons_cases y b) as [(-> & Hb & ->)|(Hb & ->)].
      * cbn. rewrite <- IH.
        apply trimmed_nil_iff in Ha, Hb. now rewrite Ha, Hb.
      * split; [discriminate|]. apply trimmed_nil_iff in Ha.
        destruct (N.compare_spec 0 y) as [<-|Hlt|Hgt]; [|easy|lia].
        rewrite <- IH, Ha. intros Ht. symmetry in Ht.
        apply trimmed_nil_iff in Ht. destruct Hb; congruence.
      * split; [discriminate|]. apply trimmed_nil_iff in Hb.
        destruct (N.compare_spec x 0) as [->|Hlt|Hgt]; [|lia|easy].
        rewrite <- IH, Hb. intros Ht.
        apply trimmed_nil_iff in Ht. destruct Ha; congruence.
      * destruct (N.compare_spec x y) as [->|Hlt|Hgt].
        -- rewrite <- IH. split; [intros Heq; now injection Heq|].
           intros ->. reflexivity.
        -- split; [|discriminate]. intros Heq. injection Heq. lia.
        -- split; [|discriminate]. intros Heq. injection Heq. lia.
Qed.

Lemma padded_compare_same_length (a : list N) :
  forall b, length a = length b ->
    (padded_compare a b = Lt <-> Version.tuple_lt a b = true)
    /\ (padded_compare a b = Eq <-> a = b).
Proof.
  induction a as [|x a IH]; intros [|y b] Hlen; try discriminate.
  - cbn. easy.
  - injection Hlen as Hlen. specialize (IH b Hlen).
    cbn [padded_compare Version.tuple_lt].
    destruct (N.compare_spec x y) as [->|Hlt|Hgt].
    + rewrite N.eqb_refl. destruct IH as [IH1 IH2]. split; [exact IH1|].
      rewrite IH2. split; [intros ->; reflexivity|].
      intros Heq. now injection Heq.
    + destruct (N.eqb_spec x y); [lia|]. split.
      * split; [intros _; now apply N.ltb_lt | reflexivity].
      * split; [discriminate|]. intros Heq. injection Heq. lia.
    + destruct (N.eqb_spec x y); [lia|]. split.
      * split; [discriminate|]. intros Hlt. apply N.ltb_lt in Hlt. lia.
      * split; [discriminate|]. intros Heq. injection Heq. lia.
Qed.

End VersionFacts.

(** C7, as amended: migrations are compared number by number on the
    integers of the split version text, a missing position counting as
    [0] (trailing zeros do not matter); two versions are equal exactly
    when their sequences agree after the trailing zeros are removed; on
    sequences of one length this is the ordinary comparison of integer
    tuples, equality included; and [0.20.0] is above [0.3.0] although its
    text is below. *)
Theorem version_order_is_numeric_with_zero_padding :
  (forall self other : Migration.Fields,
      let a := self.(Migration.parsed_version) in
      let b := other.(Migration.parsed_version) in
      (Migration.lt self other = true
       <-> VersionOrder.padded_compare a b = Lt)
      /\ (Version.eq a b = true <-> VersionOrder.padded_compare a b = Eq)
      /\ (Version.eq a b = true
          <-> VersionOrder.trimmed a = VersionOrder.trimmed b)
      /\ (length a = length b ->
          Migration.lt self other = Version.tuple_lt a b
          /\ (Version.eq a b = true <-> a = b)))
  /\ (Version.parse "0.3.0" = Ok [0; 3; 0]%N
      /\ Version.parse "0.20.0" = Ok [0; 20; 0]%N
      /\ Version.lt [0; 3; 0]%N [0; 20; 0]%N = true
      /\ Version.lt [0; 20; 0]%N [0; 3; 0]%N = false
      /\ String.ltb "0.20.0" "0.3.0" = true).
Proof.
  split.
  - intros self other a b. unfold Migration.lt, Version.lt, Version.eq.
    fold a b. rewrite !VersionFacts.cmpkey_trimmed.
    pose proof (VersionFacts.lt_padded a b) as Hlt.
    pose proof (VersionFacts.eq_padded a b) as Heq.
    pose proof (VersionFacts.tuple_eq_iff (VersionOrder.trimmed a)
                  (VersionOrder.trimmed b)) as Hteq.
    split; [exact Hlt|]. split; [now rewrite Hteq|]. split; [exact Hteq|].
    intros Hlen.
    destruct (VersionFacts.padded_compare_same_length a b Hlen) as [H1 H2].
    split.
    + apply eq_true_iff_eq. now rewrite Hlt, H1.
    + now rewrite Hteq, Heq.
  - repeat split; vm_compute; reflexivity.
Qed.

(** The theorem at the releases of [1.2] and [1.10], of one length. *)
Lemma version_order_is_numeric_with_zero_padding_witness :
  let f (text : string) (release : list N) :=
    {| Migration.version := text; Migration.parsed_version := release;
       Migration.description := "a"; Migration.type := Migration.CYPHER;
       Migration.source := None; Migration.checksum := None;
       Migration.rollback_checksum := None |} in
  Migration.new "1.2" "a" Migration.CYPHER None None = Ok (f "1.2" [1; 2]%N)
  /\ Migration.new "1.10" "a" Migration.CYPHER None None
     = Ok (f "1.10" [1; 10]%N)
  /\ Migration.lt (f "1.2" [1; 2]%N) (f "1.10" [1; 10]%N) = true.
Proof.
  intros f. split; [vm_compute; reflexivity|].
  split; [vm_compute; reflexivity|].
  destruct (proj1 version_order_is_numeric_with_zero_padding
              (f "1.2" [1; 2]%N) (f "1.10" [1; 10]%N)) as (_ & _ & _ & Hsame).
  destruct (Hsame eq_refl) as [Hlt _]. rewrite Hlt. reflexivity.
Defined.

(** C7, as stated, fails: [1] and [1.0] split into different integer
    sequences, and yet the parsed versions are equal and neither is below
    the other. *)
Lemma version_one_equals_one_zero :
  let f1 :=
    {| Migration.version := "1"; Migration.parsed_version := [1%N];
       Migration.description := "a"; Migration.type := "CYPHER";
       Migration.source := None; Migration.checksum := None;
       Migration.rollback_checksum := None |} in
  let f10 :=
    {| Migration.version := "1.0"; Migration.parsed_version := [1%N; 0%N];
       Migration.description := "b"; Migration.type := "CYPHER";
       Migration.source := None; Migration.checksum := None;
       Migration.rollback_checksum := None |} in
  Migration.new "1" "a" Migration.CYPHER None None = Ok f1
  /\ Migration.new "1.0" "b" Migration.CYPHER None None = Ok f10
  /\ f1.(Migration.parsed_version) <> f10.(Migration.parsed_version)
  /\ Version.eq f1.(Migration.parsed_version)
                f10.(Migration.parsed_version) = true
  /\ Migration.lt f1 f10 = false
  /\ Migration.lt f10 f1 = false.
Proof.
  cbv zeta. split; [vm_compute; reflexivity|].
  split; [vm_compute; reflexivity|].
  split; [discriminate|].
  repeat split; vm_compute; reflexivity.
Qed.

(** ** The DAO and the executor *)

Local Open Scope list_scope.

Section ExecutorFacts.
Context `{Env}.

Local Abbreviation version_of := Executor.version_of.

(** A run that is claimed to have raised either did not, or left the
    world the goal names. *)
Ltac raised :=
  let Heq := fresh "Heq" in
  intros Heq;
  first [ discriminate Heq
        | injection Heq as _ <-; reflexivity
        | injection Heq as <-; reflexivity ].

(** *** Loops and lists *)

Lemma for_each_app {A} (body : A -> M unit) (l1 l2 : list A) (w : World) :
  for_each (l1 ++ l2) body w
  = match for_each l1 body w with
    | (Ok _, w') => for_each l2 body w'
    | (Raise e, w') => (Raise e, w')
    end.
Proof.
  revert w. induction l1 as [|x l1 IH]; intros w; [reflexivity|].
  cbn [app for_each]. unfold bind.
  destruct (body x w) as [[[]|e] w']; [apply IH | reflexivity].
Qed.

Lemma version_index_none (v : string) (l : list Migration.Migration) :
  ~ In v (List.map version_of l) -> Executor.version_index v l = None.
Proof.
  induction l as [|m l IH]; intros Hnot; [reflexivity|].
  cbn [Executor.version_index]. cbn [List.map In] in Hnot.
  destruct (String.eqb_spec (version_of m) v) as [Heq|Hne]; [tauto|].
  rewrite IH; [reflexivity | tauto].
Qed.

Lemma version_index_first (v : string) (pre : list Migration.Migration)
    (m : Migration.Migration) (post : list Migration.Migration) :
  version_of m = v -> ~ In v (List.map version_of pre) ->
  Executor.version_index v (pre ++ m :: post) = Some (length pre).
Proof.
  intros Hm. induction pre as [|x pre IH]; intros Hnot.
  - cbn [app Executor.version_index]. rewrite Hm, String.eqb_refl.
    reflexivity.
  - cbn [app Executor.version_index length]. cbn [List.map In] in Hnot.
    destruct (String.eqb_spec (version_of x) v) as [Heq|Hne]; [tauto|].
    rewrite IH; [reflexivity | tauto].
Qed.



Lemma skipn_through {A} (pre : list A) (m : A) (post : list A) :
  skipn (length pre + 1) (pre ++ m :: post) = post.
Proof.
  induction pre as [|x pre IH]; [reflexivity|].
  cbn [length Nat.add app skipn]. exact IH.
Qed.

(** *** What the DAO methods leave of the world *)

Lemma get_applied_migrations_world (dao : Dao.MigrationDAO) (w : World) :
  snd (Dao.get_applied_migrations dao w) = add_event DaoGetApplied w.
Proof.
  unfold Dao.get_applied_migrations, bind, log, session_read, lift.
  cbn. destruct (match_applied _ _ _ _); reflexivity.
Qed.

(** [add_migration] in one equation: the call is logged; the statement
    runs; a dry run keeps nothing; rejected counters raise and keep
    nothing; otherwise the transaction commits what the statement did. *)
Lemma add_migration_run (dao : Dao.MigrationDAO) (f : Migration.Fields)
    (duration : Z) (dry_run : bool) (w : World) :
  let w0 := add_event (DaoAddMigration f.(Migration.version) dry_run) w in
  Dao.add_migration dao f duration dry_run w
  = match append_statement dao f duration w.(schema) with
    | Raise e => (Raise e, w0)
    | Ok (g', counters) =>
        if Dao.counters_rejected counters
        then (Raise Dao.record_not_created, w0)
        else if dry_run then (Ok tt, w0)
             else (Ok tt, set_schema g' w0)
    end.
Proof.
  unfold Dao.add_migration, append_statement, bind, log, schema_transaction.
  cbn.
  destruct getuser; [|reflexivity].
  destruct show_current_user; [|reflexivity].
  destruct (create_linked_migration _ _) as [[g' c]|e]; [|reflexivity].
  destruct (Dao.counters_rejected c); [reflexivity|].
  destruct dry_run; reflexivity.
Qed.

Lemma add_migration_dry_run (dao : Dao.MigrationDAO) (f : Migration.Fields)
    (duration : Z) (w : World) :
  snd (Dao.add_migration dao f duration true w)
  = add_event (DaoAddMigration f.(Migration.version) true) w.
Proof.
  rewrite add_migration_run. cbv zeta.
  destruct (append_statement _ _ _ _) as [[g' c]|e]; [|reflexivity].
  destruct (Dao.counters_rejected c); reflexivity.
Qed.

(** No partial state: a call that raises leaves the schema database as
    it was. *)
Lemma add_migration_raise (dao : Dao.MigrationDAO) (f : Migration.Fields)
    (duration : Z) (dry_run : bool) (w w' : World) (e : exn) :
  Dao.add_migration dao f duration dry_run w = (Raise e, w') ->
  w' = add_event (DaoAddMigration f.(Migration.version) dry_run) w.
Proof.
  rewrite add_migration_run. cbv zeta.
  destruct (append_statement _ _ _ _) as [[g' c]|e']; [|raised].
  destruct (Dao.counters_rejected c); [raised|].
  destruct dry_run; raised.
Qed.

Lemma add_migration_frame (dao : Dao.MigrationDAO) (f : Migration.Fields)
    (duration : Z) (dry_run : bool) (w : World) :
  let w' := snd (Dao.add_migration dao f duration dry_run w) in
  w'.(target) = w.(target) /\ w'.(ticks) = w.(ticks)
  /\ w'.(trace)
     = w.(trace) ++ [DaoAddMigration f.(Migration.version) dry_run].
Proof.
  rewrite add_migration_run. cbv zeta.
  destruct (append_statement _ _ _ _) as [[g' c]|e']; [|easy].
  destruct (Dao.counters_rejected c); [easy|].
  destruct dry_run; easy.
Qed.


(** With both counters off, the call raises and keeps nothing. *)
Lemma add_migration_rejects_two_wrong_counters (dao : Dao.MigrationDAO)
    (f : Migration.Fields) (duration : Z) (dry_run : bool) (w : World)
    (g' : Graph) (c : Counters) :
  append_statement dao f duration w.(schema) = Ok (g', c) ->
  c.(nodes_created) <> 1%Z -> c.(relationships_created) <> 1%Z ->
  Dao.add_migration dao f duration dry_run w
  = (Raise Dao.record_not_created,
     add_event (DaoAddMigration f.(Migration.version) dry_run) w).
Proof.
  intros Hrun Hn Hr. rewrite add_migration_run. cbv zeta. rewrite Hrun.
  unfold Dao.counters_rejected.
  destruct (Z.eqb_spec (nodes_created c) 1); [contradiction|].
  destruct (Z.eqb_spec (relationships_created c) 1); [contradiction|].
  reflexivity.
Qed.


Lemma remove_migration_frame (dao : Dao.MigrationDAO) (version : string)
    (w : World) :
  let w' := snd (Dao.remove_migration dao version w) in
  w'.(target) = w.(target) /\ w'.(ticks) = w.(ticks)
  /\ w'.(trace) = w.(trace) ++ [DaoRemoveMigration version].
Proof.
  unfold Dao.remove_migration, bind, log, schema_transaction. cbn.
  destruct (match_for_removal _ _ _ _) as [[has_next|]|e]; [|easy|easy].
  destruct (if has_next then _ else _) as [g1|e]; [|easy].
  destruct (delete_migration_node _ _ _ _) as [[g2 [count|]]|e];
    [|easy|easy].
  destruct count as [|[p|p|]|p]; easy.
Qed.

Lemma remove_migration_raise (dao : Dao.MigrationDAO) (version : string)
    (w w' : World) (e : exn) :
  Dao.remove_migration dao version w = (Raise e, w') ->
  w' = add_event (DaoRemoveMigration version) w.
Proof.
  unfold Dao.remove_migration, bind, log, schema_transaction. cbn.
  destruct (match_for_removal _ _ _ _) as [[has_next|]|e'];
    [|raised|raised].
  destruct (if has_next then _ else _) as [g1|e']; [|raised].
  destruct (delete_migration_node _ _ _ _) as [[g2 [count|]]|e'];
    [|raised|raised].
  destruct count as [|[p|p|]|p]; raised.
Qed.

Lemma create_baseline_frame (dao : Dao.MigrationDAO) (w : World) :
  let w' := snd (Dao.create_baseline dao w) in
  w'.(target) = w.(target) /\ w'.(ticks) = w.(ticks)
  /\ w'.(trace) = w.(trace) ++ [DaoCreateBaseline].
Proof.
  unfold Dao.create_baseline, bind, log, session_read, session_write, ret.
  cbn. destruct (match_baseline _ _ _ _) as [[|]|e]; [easy| |easy].
  destruct (create_baseline_node _ _ _ _); easy.
Qed.

Lemma create_constraints_frame (dao : Dao.MigrationDAO) (w : World) :
  let w' := snd (Dao.create_constraints dao w) in
  w'.(target) = w.(target) /\ w'.(ticks) = w.(ticks)
  /\ w'.(trace) = w.(trace) ++ [DaoCreateConstraints].
Proof.
  unfold Dao.create_constraints, bind, log, session_write. cbn.
  destruct (create_unique_constraint _); easy.
Qed.

Lemma prepare_schema_ok (self : Executor.Executor)
    (res : Analyzer.AnalyzingResult) (w w' : World) :
  Executor.prepare_schema self res w = (Ok tt, w') ->
  w'.(target) = w.(target) /\ w'.(ticks) = w.(ticks)
  /\ w'.(trace)
     = w.(trace)
       ++ (if truthy res.(Analyzer.latest_applied_version) then []
           else [DaoCreateBaseline; DaoCreateConstraints]).
Proof.
  unfold Executor.prepare_schema.
  destruct (truthy _).
  - unfold ret. intros [= <-]. now rewrite app_nil_r.
  - unfold bind.
    pose proof (create_baseline_frame (Executor.dao self) w) as Hb.
    destruct (Dao.create_baseline (Executor.dao self) w) as [[[]|e] w1];
      [|discriminate].
    pose proof (create_constraints_frame (Executor.dao self) w1) as Hc.
    intros Hrun. rewrite Hrun in Hc. cbn in Hb, Hc.
    destruct Hb as (Ht1 & Hk1 & Hr1), Hc as (Ht2 & Hk2 & Hr2).
    rewrite Ht2, Hk2, Hr2, Ht1, Hk1, Hr1, <- app_assoc. easy.
Qed.

(** *** [migrate] *)

Lemma applied_versions_app (t1 t2 : list Event) :
  applied_versions (t1 ++ t2) = applied_versions t1 ++ applied_versions t2.
Proof. unfold applied_versions. apply flat_map_app. Qed.

(** [apply_one] in one equation. *)
Lemma apply_one_run (self : Executor.Executor)
    (on_apply : option Executor.Callback) (m : Migration.Migration)
    (w : World) :
  let v := version_of m in
  let duration := (monotonic (S w.(ticks)) - monotonic w.(ticks))%Z in
  let record w_done tx' :=
    Dao.add_migration (Executor.dao self) (Migration.fields m) duration false
      (add_event TxCommit (set_target tx' w_done)) in
  Executor.apply_one self on_apply m w
  = match fst (Dao.add_migration (Executor.dao self) (Migration.fields m)
                 0 true w) with
    | Raise e => (Raise e, add_event (DaoAddMigration v true) w)
    | Ok _ =>
        match Migration.apply m w.(target) with
        | Raise e =>
            (Raise e,
             add_event TxRollback
               (add_event (BodyApply v)
                  (tick (add_event TxBegin
                           (add_event (DaoAddMigration v true) w)))))
        | Ok tx' =>
            match on_apply with
            | None => record (after_forward_body v w) tx'
            | Some callback =>
                match callback m with
                | Raise e =>
                    (Raise e,
                     add_event TxRollback
                       (add_event (OnApply v) (after_forward_body v w)))
                | Ok _ =>
                    record (add_event (OnApply v) (after_forward_body v w))
                           tx'
                end
            end
        end
    end.
Proof.
  cbv zeta. unfold Executor.apply_one, bind at 1.
  pose proof (add_migration_dry_run (Executor.dao self)
                (Migration.fields m) 0 w) as Hdry.
  destruct (Dao.add_migration (Executor.dao self) (Migration.fields m) 0 true w)
    as [[[]|e] w1]; cbn [fst snd] in Hdry |- *; subst w1; [|reflexivity].
  unfold target_transaction, time_monotonic, log, lift, bind, ret,
    after_forward_body.
  cbn -[Dao.add_migration].
  destruct (Migration.apply m (target w)) as [tx'|e]; [|reflexivity].
  destruct on_apply as [callback|]; cbn -[Dao.add_migration];
    [|reflexivity].
  destruct (callback m) as [[]|e]; reflexivity.
Qed.

(** A migration that [apply_one] brings to its end went through the dry
    run, the body in its transaction, the callback, the commit and the
    recording, in this order. *)
Lemma apply_one_ok (self : Executor.Executor)
    (on_apply : option Executor.Callback) (m : Migration.Migration)
    (w w' : World) :
  Executor.apply_one self on_apply m w = (Ok tt, w') ->
  exists tx',
    Migration.apply m w.(target) = Ok tx'
    /\ w'.(target) = tx'
    /\ w'.(trace)
       = w.(trace)
         ++ [DaoAddMigration (version_of m) true; TxBegin;
             BodyApply (version_of m)]
         ++ on_apply_events on_apply (version_of m)
         ++ [TxCommit; DaoAddMigration (version_of m) false].
Proof.
  rewrite apply_one_run. cbv zeta.
  destruct (fst (Dao.add_migration _ _ 0 true w)); [|discriminate].
  destruct (Migration.apply m (target w)) as [tx'|e]; [|discriminate].
  intros Hrun. exists tx'. split; [reflexivity|].
  assert (Hrec : forall wd,
    Dao.add_migration (Executor.dao self) (Migration.fields m)
      (monotonic (S (ticks w)) - monotonic (ticks w))%Z false
      (add_event TxCommit (set_target tx' wd)) = (Ok tt, w') ->
    w'.(target) = tx'
    /\ w'.(trace)
       = wd.(trace) ++ [TxCommit; DaoAddMigration (version_of m) false]).
  { intros wd Hwd.
    pose proof (add_migration_frame (Executor.dao self) (Migration.fields m)
                  (monotonic (S (ticks w)) - monotonic (ticks w))%Z false
                  (add_event TxCommit (set_target tx' wd))) as Hframe.
    rewrite Hwd in Hframe. cbn in Hframe.
    destruct Hframe as (Ht & _ & Htr). split; [exact Ht|].
    rewrite Htr, <- app_assoc. reflexivity. }
  destruct on_apply as [callback|].
  - destruct (callback m) as [[]|e]; [|discriminate].
    destruct (Hrec _ Hrun) as [Ht Htr]. split; [exact Ht|].
    rewrite Htr. cbn. rewrite <- !app_assoc. reflexivity.
  - destruct (Hrec _ Hrun) as [Ht Htr]. split; [exact Ht|].
    rewrite Htr. cbn. rewrite <- !app_assoc. reflexivity.
Qed.

Lemma for_each_apply_ok (self : Executor.Executor)
    (on_apply : option Executor.Callback) (sel : list Migration.Migration) :
  forall w w',
    for_each sel (Executor.apply_one self on_apply) w = (Ok tt, w') ->
    applied_versions w'.(trace)
    = applied_versions w.(trace) ++ List.map version_of sel.
Proof.
  induction sel as [|m sel IH]; intros w w' Hrun.
  - cbn in Hrun. injection Hrun as <-. now rewrite app_nil_r.
  - cbn [for_each] in Hrun. unfold bind in Hrun.
    destruct (Executor.apply_one self on_apply m w) as [[[]|e] w1] eqn:H1;
      [|discriminate].
    destruct (apply_one_ok _ _ _ _ _ H1) as (tx' & _ & _ & Htr).
    rewrite (IH _ _ Hrun), Htr, !applied_versions_app.
    cbn [List.map]. destruct on_apply; cbn; rewrite <- !app_assoc; reflexivity.
Qed.

Section Migrate.
Variable analyzer_analyze :
  list Migration.Migration -> list Migration.Migration ->
  Analyzer.AnalyzingResult.

Local Abbreviation analyze := (Executor.analyze analyzer_analyze).
Local Abbreviation migrate := (Executor.migrate analyzer_analyze).

Lemma analyze_world (self : Executor.Executor) (w : World) :
  snd (analyze self w) = add_event DaoGetApplied w.
Proof.
  unfold Executor.analyze, bind, ret.
  pose proof (get_applied_migrations_world (Executor.dao self) w) as Hw.
  destruct (Dao.get_applied_migrations (Executor.dao self) w) as [[l|e] w'];
    cbn in Hw |- *; exact Hw.
Qed.

Lemma migrate_run (self : Executor.Executor) (version : option string)
    (on_apply : option Executor.Callback) (w w1 w2 : World)
    (res : Analyzer.AnalyzingResult) :
  analyze self w = (Ok res, w1) ->
  res.(Analyzer.invalid_versions) = [] ->
  Executor.prepare_schema self res w1 = (Ok tt, w2) ->
  migrate self version on_apply w
  = match Executor.migrations_to_apply res.(Analyzer.pending_migrations)
            version with
    | Raise e => (Raise e, w2)
    | Ok to_apply => for_each to_apply (Executor.apply_one self on_apply) w2
    end.
Proof.
  intros Ha Hinv Hp. unfold Executor.migrate, bind.
  rewrite Ha, Hinv. unfold bind. rewrite Hp. unfold lift.
  destruct (Executor.migrations_to_apply _ _); reflexivity.
Qed.

(** The analysis and the preparation of the schema run no body. *)
Lemma prepared_world (self : Executor.Executor) (w w1 w2 : World)
    (res : Analyzer.AnalyzingResult) :
  analyze self w = (Ok res, w1) ->
  Executor.prepare_schema self res w1 = (Ok tt, w2) ->
  w2.(target) = w.(target)
  /\ applied_versions w2.(trace) = applied_versions w.(trace).
Proof.
  intros Ha Hp.
  pose proof (analyze_world self w) as Hw1. rewrite Ha in Hw1.
  cbn [snd] in Hw1.
  destruct (prepare_schema_ok _ _ _ _ Hp) as (Ht & _ & Htr).
  split; [rewrite Ht, Hw1; reflexivity|].
  rewrite Htr, Hw1. cbn [trace add_event]. rewrite !applied_versions_app.
  destruct (truthy _); cbn; now rewrite !app_nil_r.
Qed.

(** C2: with an invalid finding in the analysis, [migrate] raises the
    verification error at once: the world it leaves differs from the one
    it found by the logged read of the applied migrations only, so no
    baseline, no constraint, no body and no record was attempted. *)
Theorem migrate_refuses_invalid_findings (self : Executor.Executor)
    (version : option string) (on_apply : option Executor.Callback)
    (w w1 : World) (res : Analyzer.AnalyzingResult) :
  analyze self w = (Ok res, w1) ->
  res.(Analyzer.invalid_versions) <> [] ->
  migrate self version on_apply w = (Raise Executor.verification_failed, w1)
  /\ w1.(schema) = w.(schema)
  /\ w1.(target) = w.(target)
  /\ w1.(trace) = w.(trace) ++ [DaoGetApplied].
Proof.
  intros Ha Hinv. split.
  - unfold Executor.migrate, bind. rewrite Ha.
    destruct (Analyzer.invalid_versions res); [contradiction|reflexivity].
  - pose proof (analyze_world self w) as Hw. rewrite Ha in Hw.
    cbn [snd] in Hw. subst w1. easy.
Qed.


(** C6: when the callback raises for a migration of the batch, after the
    migrations before it went through, [migrate] raises that exception;
    the transaction around the forward body is rolled back, so the
    migrated database is as the earlier migrations left it; the schema
    database is as they left it too, no record being added for the
    failing migration; and the log ends with the roll-back, nothing of
    the rest of the batch being attempted. *)
Theorem on_apply_failure_aborts_current_only (self : Executor.Executor)
    (version : option string) (callback : Executor.Callback)
    (w w1 w2 w3 : World) (res : Analyzer.AnalyzingResult)
    (pre : list Migration.Migration) (m : Migration.Migration)
    (rest : list Migration.Migration) (tx' : Data) (e : exn) :
  analyze self w = (Ok res, w1) ->
  res.(Analyzer.invalid_versions) = [] ->
  Executor.prepare_schema self res w1 = (Ok tt, w2) ->
  Executor.migrations_to_apply res.(Analyzer.pending_migrations) version
  = Ok (pre ++ m :: rest) ->
  for_each pre (Executor.apply_one self (Some callback)) w2 = (Ok tt, w3) ->
  fst (Dao.add_migration (Executor.dao self) (Migration.fields m) 0 true w3)
  = Ok tt ->
  Migration.apply m w3.(target) = Ok tx' ->
  callback m = Raise e ->
  exists w',
    migrate self version (Some callback) w = (Raise e, w')
    /\ w'.(target) = w3.(target)
    /\ w'.(schema) = w3.(schema)
    /\ w'.(trace)
       = w3.(trace)
         ++ [DaoAddMigration (version_of m) true; TxBegin;
             BodyApply (version_of m); OnApply (version_of m); TxRollback]
    /\ applied_versions w3.(trace)
       = applied_versions w.(trace) ++ List.map version_of pre.
Proof.
  intros Ha Hinv Hp Hsel Hpre Hdry Happly Hcb.
  rewrite (migrate_run self version (Some callback) w w1 w2 res Ha Hinv Hp).
  rewrite Hsel, for_each_app, Hpre. cbn [for_each]. unfold bind at 1.
  rewrite apply_one_run. cbv zeta. rewrite Hdry, Happly, Hcb.
  eexists. split; [reflexivity|]. unfold after_forward_body. cbn.
  rewrite <- !app_assoc. split; [reflexivity|]. split; [reflexivity|].
  split; [reflexivity|].
  destruct (prepared_world self w w1 w2 res Ha Hp) as [_ Happlied].
  rewrite <- Happlied. now apply (for_each_apply_ok self (Some callback) pre).
Qed.

End Migrate.

(** *** [rollback] *)

Lemma rollback_run (self : Executor.Executor) (version : option string)
    (on_rollback : option Executor.Callback) (w w1 : World)
    (applied : list Migration.Migration) :
  Dao.get_applied_migrations (Executor.dao self) w = (Ok applied, w1) ->
  Executor.rollback self version on_rollback w
  = match Executor.migrations_to_rollback applied version with
    | Raise e => (Raise e, w1)
    | Ok to_rollback =>
        for_each to_rollback (Executor.rollback_one self on_rollback) w1
    end.
Proof.
  intros Hget. unfold Executor.rollback, bind. rewrite Hget. unfold lift.
  destruct (Executor.migrations_to_rollback _ _); reflexivity.
Qed.

(** C5: on an empty list of applied migrations [rollback] raises the
    nothing-to-roll-back error; without a version its loop runs over the
    last applied migration alone; with a version that is applied, over
    the migrations after its first occurrence, last one first; with a
    version that is not applied it raises the not-found error. *)
Theorem rollback_selects_entries_after_target (self : Executor.Executor)
    (version : option string) (on_rollback : option Executor.Callback)
    (w w1 : World) (applied : list Migration.Migration) :
  Dao.get_applied_migrations (Executor.dao self) w = (Ok applied, w1) ->
  let run sel := for_each sel (Executor.rollback_one self on_rollback) w1 in
  (applied = [] ->
   Executor.rollback self version on_rollback w
   = (Raise Executor.nothing_to_rollback, w1))
  /\ (forall init m, version = None -> applied = init ++ [m] ->
      Executor.rollback self version on_rollback w = run [m])
  /\ (forall v pre m post,
      version = Some v -> applied = pre ++ m :: post ->
      version_of m = v -> ~ In v (List.map version_of pre) ->
      Executor.rollback self version on_rollback w = run (rev post))
  /\ (forall v, version = Some v -> applied <> [] ->
      ~ In v (List.map version_of applied) ->
      Executor.rollback self version on_rollback w
      = (Raise (Executor.not_in_applied v), w1)).
Proof.
  intros Hget run.
  pose proof (rollback_run self version on_rollback w w1 applied Hget) as Hrun.
  split; [|split; [|split]].
  - intros ->. exact Hrun.
  - intros init m -> ->. rewrite Hrun. unfold Executor.migrations_to_rollback.
    destruct (init ++ [m]) as [|first tl] eqn:Hl.
    + now destruct init.
    + rewrite <- Hl, last_last. reflexivity.
  - intros v pre m post -> -> Hm Hpre. rewrite Hrun.
    unfold Executor.migrations_to_rollback.
    destruct (pre ++ m :: post) as [|first tl] eqn:Hl.
    + now destruct pre.
    + rewrite <- Hl, (version_index_first v pre m post Hm Hpre).
      now rewrite skipn_through.
  - intros v -> Hne Hnot. rewrite Hrun.
    unfold Executor.migrations_to_rollback.
    destruct applied as [|first tl]; [contradiction|].
    now rewrite (version_index_none v _ Hnot).
Qed.

Lemma rollback_without_backward_body (local : Migration.Migration) (tx : Data) :
  Migration.has_backward_body local = false ->
  exists msg, Migration.rollback local tx = Raise (NotImplementedError msg).
Proof.
  destruct local as [f|f code [rc|]|f q sts [|st rsts]]; cbn;
    intros Hb; try discriminate; eexists; reflexivity.
Qed.

(** [rollback_one] in one equation. *)
Lemma rollback_one_run (self : Executor.Executor)
    (on_rollback : option Executor.Callback) (m : Migration.Migration)
    (w : World) :
  let v := version_of m in
  let remove w_called tx' :=
    match Dao.remove_migration (Executor.dao self) v w_called with
    | (Ok _, wr) => (Ok tt, add_event TxCommit (set_target tx' wr))
    | (Raise e, wr) => (Raise (surfaced v e), add_event TxRollback wr)
    end in
  Executor.rollback_one self on_rollback m w
  = match Executor.find_local self m with
    | None => (Raise (Executor.local_not_found v), w)
    | Some local =>
        match Migration.rollback local w.(target) with
        | Raise e =>
            (Raise (surfaced v e),
             add_event TxRollback
               (add_event (BodyRollback v) (tick (add_event TxBegin w))))
        | Ok tx' =>
            match on_rollback with
            | None => remove (after_backward_body v w) tx'
            | Some callback =>
                match callback local with
                | Raise e =>
                    (Raise (surfaced v e),
                     add_event TxRollback
                       (add_event (OnRollback v) (after_backward_body v w)))
                | Ok _ =>
                    remove (add_event (OnRollback v)
                              (after_backward_body v w)) tx'
                end
            end
        end
    end.
Proof.
  cbv zeta. unfold Executor.rollback_one.
  destruct (Executor.find_local self m) as [local|]; [|reflexivity].
  unfold target_transaction, except_NotImplementedError, time_monotonic,
    log, lift, bind, ret, raise, after_backward_body.
  cbn -[Dao.remove_migration].
  destruct (Migration.rollback local (target w)) as [tx'|e].
  2:{ destruct e; reflexivity. }
  destruct on_rollback as [callback|]; cbn -[Dao.remove_migration].
  - destruct (callback local) as [[]|e]; cbn -[Dao.remove_migration].
    2:{ destruct e; reflexivity. }
    destruct (Dao.remove_migration _ _ _) as [[[]|e] wr]; [reflexivity|].
    destruct e; reflexivity.
  - destruct (Dao.remove_migration _ _ _) as [[[]|e] wr]; [reflexivity|].
    destruct e; reflexivity.
Qed.

(** A removal that fails takes the backward body with it: its
    transaction is rolled back. *)
Lemma rollback_one_remove_fails (self : Executor.Executor)
    (m local : Migration.Migration) (w wr : World) (tx' : Data) (e : exn) :
  Executor.find_local self m = Some local ->
  Migration.rollback local w.(target) = Ok tx' ->
  Dao.remove_migration (Executor.dao self) (version_of m)
    (after_backward_body (version_of m) w) = (Raise e, wr) ->
  Executor.rollback_one self None m w
  = (Raise (surfaced (version_of m) e), add_event TxRollback wr)
  /\ wr.(target) = w.(target)
  /\ wr.(schema) = w.(schema).
Proof.
  intros Hlocal Hbody Hrm. rewrite rollback_one_run. cbv zeta.
  rewrite Hlocal, Hbody, Hrm. split; [reflexivity|].
  apply remove_migration_raise in Hrm. subst wr. easy.
Qed.


(** C9: when the loop of [rollback] reaches an entry whose local
    migration has no backward body, after the entries before it went
    through, [rollback] raises a [ValueError] naming the version; the
    transaction just opened is rolled back; the schema database and the
    migrated database are as the earlier entries left them; and after
    the roll-back nothing more is called: no removal for this entry nor
    for a later one. *)
Theorem rollback_halts_without_backward_body (self : Executor.Executor)
    (version : option string) (on_rollback : option Executor.Callback)
    (w w1 w2 : World) (applied pre : list Migration.Migration)
    (m : Migration.Migration) (rest : list Migration.Migration)
    (local : Migration.Migration) :
  Dao.get_applied_migrations (Executor.dao self) w = (Ok applied, w1) ->
  Executor.migrations_to_rollback applied version = Ok (pre ++ m :: rest) ->
  for_each pre (Executor.rollback_one self on_rollback) w1 = (Ok tt, w2) ->
  Executor.find_local self m = Some local ->
  Migration.has_backward_body local = false ->
  exists msg w',
    Executor.rollback self version on_rollback w
    = (Raise (Executor.rollback_unsupported (version_of m)
                (NotImplementedError msg)), w')
    /\ w'.(schema) = w2.(schema)
    /\ w'.(target) = w2.(target)
    /\ w'.(trace)
       = w2.(trace) ++ [TxBegin; BodyRollback (version_of m); TxRollback].
Proof.
  intros Hget Hsel Hpre Hlocal Hbody.
  destruct (rollback_without_backward_body local w2.(target) Hbody)
    as [msg Hraise].
  exists msg.
  rewrite (rollback_run self version on_rollback w w1 applied Hget), Hsel.
  rewrite for_each_app, Hpre. cbn [for_each]. unfold bind at 1.
  rewrite rollback_one_run. cbv zeta. rewrite Hlocal, Hraise.
  eexists. split; [reflexivity|]. cbn. rewrite <- !app_assoc. easy.
Qed.

End ExecutorFacts.

(** ** The theorems on the worked inputs *)

Lemma returned {A W : Type} (default : A) (x : result A * W) :
  is_ok (fst x) = true -> x = (Ok (value_or default (fst x)), snd x).
Proof. destruct x as [[a|e] w]; [reflexivity | discriminate]. Qed.

Lemma returned_unit {W : Type} (x : result unit * W) :
  is_ok (fst x) = true -> x = (Ok tt, snd x).
Proof. destruct x as [[[]|e] w]; [reflexivity | discriminate]. Qed.

Section OnTheMemoryStore.

#[local] Existing Instance MemoryStore.env.

Local Abbreviation analyzer := (@Analyzer.analyze (@Data MemoryStore.env)).

(** The theorem at an executor that knows the first migration only, on
    the store to which all three were applied: the other two are missing
    locally. *)
Lemma migrate_refuses_invalid_findings_witness :
  fst (Executor.migrate analyzer Scenario.partial None None Scenario.migrated)
  = Raise Executor.verification_failed.
Proof.
  destruct (migrate_refuses_invalid_findings analyzer Scenario.partial
              None None Scenario.migrated
              (snd (Executor.analyze analyzer Scenario.partial
                      Scenario.migrated))
              (value_or Scenario.no_result
                 (fst (Executor.analyze analyzer Scenario.partial
                         Scenario.migrated))))
    as [Hrun _].
  - apply returned. vm_compute. reflexivity.
  - vm_compute. discriminate.
  - rewrite Hrun. reflexivity.
Defined.

(** The in-memory store creates one relationship for every node it
    creates. *)
Lemma memory_store_counts_agree (p : AppendParams) (g g' : MemoryStore.Store)
    (c : Counters) :
  MemoryStore.mem_create_linked p g = Ok (g', c) ->
  c.(nodes_created) = c.(relationships_created).
Proof. unfold MemoryStore.mem_create_linked. now intros [= _ <-]. Qed.


Lemma fresh_analysis_returned :
  Scenario.fresh_analysis
  = (Ok (value_or Scenario.no_result (fst Scenario.fresh_analysis)),
     snd Scenario.fresh_analysis).
Proof. apply returned. vm_compute. reflexivity. Qed.

Lemma fresh_analysis_clean :
  (value_or Scenario.no_result (fst Scenario.fresh_analysis)).(Analyzer.invalid_versions)
  = [].
Proof. vm_compute. reflexivity. Qed.

Lemma fresh_prepared_returned : Scenario.fresh_prepared = (Ok tt, snd Scenario.fresh_prepared).
Proof. apply returned_unit. vm_compute. reflexivity. Qed.


(** The theorem at [migrate()] on the fresh store with a callback that
    raises for the second migration. *)
Lemma on_apply_failure_aborts_current_only_witness :
  fst (Executor.migrate analyzer Scenario.executor None
         (Some (Scenario.failing_for "0002")) Scenario.fresh)
  = Raise (Exception "callback failed")
  /\ (snd (Executor.migrate analyzer Scenario.executor None
             (Some (Scenario.failing_for "0002")) Scenario.fresh)).(target)
     = ["CREATE (a:A)"].
Proof.
  pose (loop := for_each [Scenario.V1]
                  (Executor.apply_one Scenario.executor
                     (Some (Scenario.failing_for "0002")))
                  (snd Scenario.fresh_prepared)).
  assert (Hloop : loop = (Ok tt, snd loop))
    by (apply returned_unit; vm_compute; reflexivity).
  destruct (on_apply_failure_aborts_current_only analyzer Scenario.executor
              None (Scenario.failing_for "0002") Scenario.fresh _ _
              (snd loop) _ [Scenario.V1] Scenario.V2 [Scenario.V3]
              ["CREATE (a:A)"; "CREATE (b:B)"] (Exception "callback failed")
              fresh_analysis_returned fresh_analysis_clean
              fresh_prepared_returned)
    as (w' & Hrun & Htarget & _).
  - vm_compute. reflexivity.
  - exact Hloop.
  - vm_compute. reflexivity.
  - vm_compute. reflexivity.
  - vm_compute. reflexivity.
  - rewrite Hrun. cbn [fst snd]. split; [reflexivity|].
    rewrite Htarget. vm_compute. reflexivity.
Defined.

Lemma migrated_applied_returned :
  Scenario.migrated_applied
  = (Ok (value_or [] (fst Scenario.migrated_applied)), snd Scenario.migrated_applied).
Proof. apply returned. vm_compute. reflexivity. Qed.

(** The theorem at [rollback(version="0001")] on the migrated store. *)
Lemma rollback_selects_entries_after_target_witness :
  let applied := value_or [] (fst Scenario.migrated_applied) in
  List.map Executor.version_of (rev (skipn 1 applied)) = ["0003"; "0002"]
  /\ Executor.rollback Scenario.executor (Some "0001") None Scenario.migrated
     = for_each (rev (skipn 1 applied))
         (Executor.rollback_one Scenario.executor None)
         (snd Scenario.migrated_applied).
Proof.
  intros applied. split; [vm_compute; reflexivity|].
  destruct (rollback_selects_entries_after_target Scenario.executor
              (Some "0001") None Scenario.migrated _ _
              migrated_applied_returned) as (_ & _ & Hgiven & _).
  apply (Hgiven "0001" [] (nth 0 applied Scenario.V1) (skipn 1 applied)
           eq_refl).
  - vm_compute. reflexivity.
  - vm_compute. reflexivity.
  - intros [].
Defined.



(** The theorem at [rollback(version="0001")] on the migrated store: the
    third migration is rolled back, the second has no down section. *)
Lemma rollback_halts_without_backward_body_witness :
  exists msg,
    fst (Executor.rollback Scenario.executor (Some "0001") None
           Scenario.migrated)
    = Raise (Executor.rollback_unsupported "0002" (NotImplementedError msg)).
Proof.
  pose (applied := value_or [] (fst Scenario.migrated_applied)).
  pose (loop := for_each [nth 2 applied Scenario.V1]
                  (Executor.rollback_one Scenario.executor None)
                  (snd Scenario.migrated_applied)).
  assert (Hloop : loop = (Ok tt, snd loop))
    by (apply returned_unit; vm_compute; reflexivity).
  destruct (rollback_halts_without_backward_body Scenario.executor
              (Some "0001") None Scenario.migrated _ (snd loop) applied
              [nth 2 applied Scenario.V1] (nth 1 applied Scenario.V1) []
              Scenario.V2 migrated_applied_returned)
    as (msg & w' & Hrun & _).
  - vm_compute. reflexivity.
  - exact Hloop.
  - vm_compute. reflexivity.
  - vm_compute. reflexivity.
  - exists msg. rewrite Hrun. reflexivity.
Defined.

End OnTheMemoryStore.

(** * Further properties *)

(** ** [strip] and [split] *)

Section Stripping.

Local Open Scope list_scope.

Lemma drop_prefix_spec (p : list ascii) :
  forall s r, Str.drop_prefix p s = Some r -> s = p ++ r.
Proof.
  induction p as [|a p IH]; intros s r Hd; cbn in Hd.
  - now injection Hd as ->.
  - destruct s as [|b s]; [discriminate|].
    destruct (Ascii.eqb_spec a b) as [->|]; [|discriminate].
    cbn. f_equal. now apply IH.
Qed.

Lemma drop_prefix_app (p r : list ascii) : Str.drop_prefix p (p ++ r) = Some r.
Proof.
  induction p as [|a p IH]; cbn; [reflexivity|].
  now rewrite Ascii.eqb_refl.
Qed.

Lemma drop_one_of_spec (ps : list (list ascii)) :
  forall s r, Str.drop_one_of ps s = Some r -> exists p, In p ps /\ s = p ++ r.
Proof.
  induction ps as [|p ps IH]; intros s r Hd; cbn in Hd; [discriminate|].
  destruct (Str.drop_prefix p s) as [r'|] eqn:Hp.
  - injection Hd as ->. exists p. split; [now left|].
    now apply drop_prefix_spec.
  - destruct (IH s r Hd) as (q & Hq & ->). exists q. split; [now right|easy].
Qed.

Lemma drop_one_of_none (ps : list (list ascii)) (s : list ascii) :
  Str.drop_one_of ps s = None ->
  forall p r, In p ps -> s <> p ++ r.
Proof.
  induction ps as [|q ps IH]; intros Hd p r Hin; [contradiction|].
  cbn in Hd. destruct (Str.drop_prefix q s) as [r'|] eqn:Hq; [discriminate|].
  destruct Hin as [->|Hin].
  - intros ->. now rewrite drop_prefix_app in Hq.
  - now apply IH.
Qed.

Lemma drop_one_of_prefix (ps : list (list ascii)) (a b : list ascii) :
  Str.drop_one_of ps (a ++ b) = None -> Str.drop_one_of ps a = None.
Proof.
  intros Hd. destruct (Str.drop_one_of ps a) as [r|] eqn:Ha; [|reflexivity].
  destruct (drop_one_of_spec ps a r Ha) as (p & Hp & ->).
  exfalso. apply (drop_one_of_none ps _ Hd p (r ++ b) Hp).
  now rewrite app_assoc.
Qed.

Lemma drop_leading_done (ps : list (list ascii)) :
  no_empty_pattern ps ->
  forall n s, (length s <= n)%nat ->
    Str.drop_one_of ps (Str.drop_leading n ps s) = None.
Proof.
  intros Hps n. induction n as [|n IH]; intros s Hlen.
  - destruct s; [|cbn in Hlen; lia]. cbn.
    destruct (Str.drop_one_of ps []) as [r|] eqn:Hd; [|reflexivity].
    destruct (drop_one_of_spec ps [] r Hd) as (p & Hp & Heq).
    pose proof (proj1 (List.Forall_forall _ _) Hps p Hp) as Hne.
    destruct p; [contradiction|discriminate].
  - cbn. destruct (Str.drop_one_of ps s) as [r|] eqn:Hd; [|exact Hd].
    apply IH. destruct (drop_one_of_spec ps s r Hd) as (p & Hp & ->).
    pose proof (proj1 (List.Forall_forall _ _) Hps p Hp) as Hne.
    rewrite length_app in Hlen. destruct p; [contradiction|].
    cbn in Hlen. lia.
Qed.

Lemma drop_leading_suffix (ps : list (list ascii)) :
  forall n s, exists pre, s = pre ++ Str.drop_leading n ps s.
Proof.
  induction n as [|n IH]; intros s; [now exists []|].
  cbn. destruct (Str.drop_one_of ps s) as [r|] eqn:Hd; [|now exists []].
  destruct (drop_one_of_spec ps s r Hd) as (p & _ & ->).
  destruct (IH r) as [pre Hpre]. exists (p ++ pre).
  now rewrite <- app_assoc, <- Hpre.
Qed.

Lemma drop_leading_fixed (ps : list (list ascii)) (n : nat) (s : list ascii) :
  Str.drop_one_of ps s = None -> Str.drop_leading n ps s = s.
Proof. intros Hd. destruct n; cbn; [reflexivity | now rewrite Hd]. Qed.

Lemma whitespace_not_empty : no_empty_pattern Str.whitespace.
Proof. unfold no_empty_pattern. repeat constructor; discriminate. Qed.

Lemma reversed_whitespace_not_empty :
  no_empty_pattern (List.map (@rev ascii) Str.whitespace).
Proof. unfold no_empty_pattern. repeat constructor; discriminate. Qed.

Lemma strip_bytes_within (s : list ascii) :
  exists pre post, s = pre ++ strip_bytes s ++ post.
Proof.
  unfold strip_bytes, Str.rstrip_bytes, Str.lstrip_bytes.
  destruct (drop_leading_suffix Str.whitespace (length s) s) as [pre Hpre].
  set (t := Str.drop_leading (length s) Str.whitespace s) in *.
  destruct (drop_leading_suffix (List.map (@rev ascii) Str.whitespace)
              (length t) (rev t)) as [post Hpost].
  exists pre, (rev post). rewrite <- rev_app_distr, <- Hpost, rev_involutive.
  exact Hpre.
Qed.

Lemma strip_bytes_leading (s : list ascii) :
  Str.drop_one_of Str.whitespace (strip_bytes s) = None.
Proof.
  unfold strip_bytes, Str.rstrip_bytes.
  set (t := Str.lstrip_bytes s).
  destruct (drop_leading_suffix (List.map (@rev ascii) Str.whitespace)
              (length t) (rev t)) as [post Hpost].
  apply (drop_one_of_prefix _ _ (rev post)).
  rewrite <- rev_app_distr, <- Hpost, rev_involutive.
  apply drop_leading_done; [exact whitespace_not_empty | reflexivity].
Qed.

Lemma strip_bytes_trailing (s : list ascii) :
  Str.drop_one_of (List.map (@rev ascii) Str.whitespace) (rev (strip_bytes s))
  = None.
Proof.
  unfold strip_bytes, Str.rstrip_bytes. rewrite rev_involutive.
  apply drop_leading_done; [exact reversed_whitespace_not_empty|].
  now rewrite length_rev.
Qed.

Lemma strip_bytes_idempotent (s : list ascii) :
  strip_bytes (strip_bytes s) = strip_bytes s.
Proof.
  unfold strip_bytes at 1.
  unfold Str.lstrip_bytes.
  rewrite (drop_leading_fixed _ _ _ (strip_bytes_leading s)).
  unfold Str.rstrip_bytes.
  rewrite (drop_leading_fixed _ _ _ (strip_bytes_trailing s)).
  apply rev_involutive.
Qed.

Lemma strip_as_bytes (s : string) :
  Str.strip s = string_of_list_ascii (strip_bytes (list_ascii_of_string s)).
Proof. reflexivity. Qed.

Lemma strip_idempotent (s : string) : Str.strip (Str.strip s) = Str.strip s.
Proof.
  rewrite !strip_as_bytes, list_ascii_of_string_of_list_ascii.
  now rewrite strip_bytes_idempotent.
Qed.

Lemma contains_sep_iff (sep : ascii) (s : string) :
  Str.contains (String sep EmptyString) s = false
  <-> ~ In sep (list_ascii_of_string s).
Proof.
  induction s as [|c s IH]; [cbn; tauto|].
  rewrite contains_sep_cons, orb_false_iff, IH. cbn [list_ascii_of_string In].
  destruct (Ascii.eqb_spec c sep) as [->|Hne].
  - split; [intros [Hf _]; discriminate | intros Hn; exfalso; auto].
  - split; [intros [_ Hn] [Heq|Hin]; [congruence | contradiction]|].
    intros Hn. split; [reflexivity | auto].
Qed.

Lemma strip_keeps_free (sep : ascii) (s : string) :
  Str.contains (String sep EmptyString) s = false ->
  Str.contains (String sep EmptyString) (Str.strip s) = false.
Proof.
  rewrite !contains_sep_iff, strip_as_bytes, list_ascii_of_string_of_list_ascii.
  destruct (strip_bytes_within (list_ascii_of_string s)) as (pre & post & Hs).
  intros Hn Hin. apply Hn. rewrite Hs, !in_app_iff. tauto.
Qed.

Lemma split_segments_free (sep : ascii) (s : string) :
  Forall (fun x => Str.contains (String sep EmptyString) x = false)
         (Str.split sep s).
Proof.
  induction s as [|c s IH]; cbn [Str.split].
  - constructor; [reflexivity | constructor].
  - destruct (Ascii.eqb c sep) eqn:Hc.
    + constructor; [reflexivity | exact IH].
    + destruct (Str.split sep s) as [|seg rest]; [repeat constructor|].
      * rewrite contains_sep_cons, Hc. reflexivity.
      * inversion IH as [|? ? Hseg Hrest]; subst. constructor; [|exact Hrest].
        rewrite contains_sep_cons, Hc. exact Hseg.
Qed.

Lemma Forall_drop_last {A} (P : A -> Prop) (l : list A) :
  Forall P l -> Forall P (Py.drop_last l).
Proof.
  unfold Py.drop_last. induction l as [|x l IH]; intros Hl; [constructor|].
  inversion Hl as [|? ? Hx Hrest]; subst. cbn [removelast].
  destruct l; [constructor|]. constructor; [exact Hx | now apply IH].
Qed.

End Stripping.

(** ** Scripted migrations *)

Section Scripts.

Local Open Scope list_scope.

Local Abbreviation free := (fun x : string => Str.contains ";" x = false).

Lemma normalize_app (a b : list string) :
  Migration.normalize (a ++ b)
  = Migration.normalize a ++ Migration.normalize b.
Proof. unfold Migration.normalize. now rewrite List.map_app, List.filter_app. Qed.

Lemma normalize_clean (raw : list string) :
  List.Forall free raw -> List.Forall clean_statement (Migration.normalize raw).
Proof.
  unfold Migration.normalize.
  induction raw as [|x raw IH]; intros Hraw; [constructor|].
  inversion Hraw as [|? ? Hx Hrest]; subst. cbn [List.map List.filter].
  destruct (Migration.is_empty (Str.strip x)) eqn:He; cbn [negb].
  - now apply IH.
  - constructor; [|now apply IH]. split; [|split].
    + intros Hs. unfold Migration.is_empty in He. rewrite Hs in He.
      discriminate.
    + now apply strip_keeps_free.
    + apply strip_idempotent.
Qed.

Lemma section_statements_free (content : string) :
  List.Forall free (Migration.section_statements content).
Proof.
  unfold Migration.section_statements.
  assert (Hall : List.Forall free
                   (if Migration.is_empty content then []
                    else Str.split ";" content)).
  { destruct (Migration.is_empty content); [constructor|].
    apply split_segments_free. }
  destruct (last_item _) as [l|]; [|exact Hall].
  destruct (Migration.is_empty (Str.strip l)); [|exact Hall].
  now apply Forall_drop_last.
Qed.

Lemma parse_statements_free (query : string) :
  List.Forall free (fst (Migration._parse_statements query))
  /\ List.Forall free (snd (Migration._parse_statements query)).
Proof.
  unfold Migration._parse_statements.
  destruct (negb _ && negb _); cbn [fst snd].
  - split; [|constructor]. apply Forall_drop_last, split_segments_free.
  - split; apply section_statements_free.
Qed.

Lemma normalize_section_statements (content : string) :
  Migration.normalize (Migration.section_statements content)
  = Migration.normalize (Str.split ";" content).
Proof.
  unfold Migration.section_statements.
  destruct (Migration.is_empty content) eqn:He.
  - unfold Migration.is_empty in He. apply String.eqb_eq in He. subst content.
    reflexivity.
  - unfold last_item.
    destruct (last (Str.split ";" content)) as [l|] eqn:Hlast; [|reflexivity].
    destruct (Migration.is_empty (Str.strip l)) eqn:Hl; [|reflexivity].
    apply last_Some in Hlast as [init ->].
    rewrite drop_last_snoc, normalize_app.
    unfold Migration.normalize at 3. cbn [List.map List.filter].
    rewrite Hl. cbn [negb]. now rewrite app_nil_r.
Qed.

Lemma after_first_absent (marker s : string) :
  Str.contains marker s = false -> Str.after_first marker s = None.
Proof.
  induction s as [|c s IH]; cbn [Str.contains Str.after_first]; intros Hc;
    apply orb_false_elim in Hc as [Hs Ht]; rewrite Hs; [reflexivity|].
  now apply IH.
Qed.

Lemma new_attributes (version description type : string)
    (source checksum : option string) (f : Migration.Fields) :
  Migration.new version description type source checksum = Ok f ->
  f.(Migration.version) = version
  /\ f.(Migration.description) = description
  /\ f.(Migration.type) = type
  /\ f.(Migration.source) = source
  /\ f.(Migration.checksum) = checksum
  /\ f.(Migration.rollback_checksum) = None
  /\ Version.parse version = Ok f.(Migration.parsed_version).
Proof.
  unfold Migration.new.
  destruct (Version.parse version) as [pv|e]; [|discriminate].
  intros [= <-]. cbn. easy.
Qed.

Context `{Env}.

Lemma new_cypher_ok (version description : string) (source : option string)
    (query : string) (m : Migration.Migration) :
  Migration.new_cypher version description source query = Ok m ->
  exists f,
    Migration.new version description Migration.CYPHER source None = Ok f
    /\ m = Migration.CypherMigration
             (Migration.with_checksums f
                (Migration.checksum_of
                   (Migration.normalize
                      (fst (Migration._parse_statements query))))
                (Migration.checksum_of
                   (Migration.normalize
                      (snd (Migration._parse_statements query)))))
             query
             (Migration.normalize (fst (Migration._parse_statements query)))
             (Migration.normalize (snd (Migration._parse_statements query))).
Proof.
  rewrite new_cypher_shape.
  destruct (Migration.new version description Migration.CYPHER source None)
    as [f|e]; [|discriminate].
  cbv zeta. intros [= <-]. now exists f.
Qed.

(** X1: every statement and every rollback statement of a scripted
    migration is non-empty, holds no [;] and has no white space at
    either end. *)
Theorem cypher_statements_are_clean (version description : string)
    (source : option string) (query : string) (m : Migration.Migration) :
  Migration.new_cypher version description source query = Ok m ->
  exists f statements rollback_statements,
    m = Migration.CypherMigration f query statements rollback_statements
    /\ List.Forall clean_statement statements
    /\ List.Forall clean_statement rollback_statements.
Proof.
  intros Hm. destruct (new_cypher_ok _ _ _ _ _ Hm) as (f & _ & ->).
  destruct (parse_statements_free query) as [Hf Hd].
  eexists _, _, _. split; [reflexivity|].
  split; now apply normalize_clean.
Qed.

(** X2: in a script with a marker the statements of a section are the
    trimmed non-empty [;]-segments of the stripped section text, all of
    them: the removal of a blank last segment changes nothing, and a last
    statement without its [;] is kept. *)
Theorem marked_sections_keep_every_segment (version description : string)
    (source : option string) (query : string) (m : Migration.Migration) :
  Migration.new_cypher version description source query = Ok m ->
  Str.contains Migration.UP_MARKER query
  || Str.contains Migration.DOWN_MARKER query = true ->
  exists f,
    m = Migration.CypherMigration f query
          (Migration.normalize (Str.split ";" (forward_content query)))
          (Migration.normalize (Str.split ";" (down_content query))).
Proof.
  intros Hm Hmark. destruct (new_cypher_ok _ _ _ _ _ Hm) as (f & _ & ->).
  eexists. unfold Migration._parse_statements.
  destruct (Str.contains Migration.UP_MARKER query);
    destruct (Str.contains Migration.DOWN_MARKER query);
    try discriminate; cbn [negb andb fst snd];
    rewrite !normalize_section_statements; reflexivity.
Qed.

(** X3: a script without the down marker has no rollback statements and
    no rollback checksum, and its [rollback] raises [NotImplementedError]
    naming the version, whatever the transaction; a script with the down
    marker and without the up marker has no forward statements and no
    checksum, and its [apply] runs nothing. *)
Theorem missing_marker_leaves_section_empty (version description : string)
    (source : option string) (query : string) (m : Migration.Migration) :
  Migration.new_cypher version description source query = Ok m ->
  (Str.contains Migration.DOWN_MARKER query = false ->
   (exists f statements,
       m = Migration.CypherMigration f query statements []
       /\ f.(Migration.rollback_checksum) = None)
   /\ Migration.has_backward_body m = false
   /\ forall tx,
       Migration.rollback m tx
       = Raise (NotImplementedError
                  ("Rollback not implemented for migration V" ++ version)))
  /\ (Str.contains Migration.UP_MARKER query = false ->
      Str.contains Migration.DOWN_MARKER query = true ->
      (exists f rollback_statements,
          m = Migration.CypherMigration f query [] rollback_statements
          /\ f.(Migration.checksum) = None)
      /\ forall tx, Migration.apply m tx = Ok tx).
Proof.
  intros Hm. destruct (new_cypher_ok _ _ _ _ _ Hm) as (f & Hf & ->).
  destruct (new_attributes _ _ _ _ _ _ Hf) as (Hv & _).
  split.
  - intros Hdown.
    assert (Hsnd : snd (Migration._parse_statements query) = []).
    { unfold Migration._parse_statements.
      destruct (negb _ && negb _); [reflexivity|]. cbn [snd].
      unfold Migration.down_group.
      now rewrite (after_first_absent _ _ Hdown). }
    rewrite Hsnd. change (Migration.normalize []) with (@nil string).
    split; [|split].
    + eexists _, _. split; reflexivity.
    + reflexivity.
    + intros tx. cbn. unfold Migration.rollback_not_implemented. cbn.
      now rewrite Hv.
  - intros Hup Hdown.
    assert (Hfst : fst (Migration._parse_statements query) = []).
    { unfold Migration._parse_statements. rewrite Hup, Hdown.
      cbn [negb andb fst]. unfold Migration.forward_group.
      now rewrite (after_first_absent _ _ Hup). }
    rewrite Hfst. change (Migration.normalize []) with (@nil string).
    split; [|reflexivity]. eexists _, _. split; reflexivity.
Qed.

(** X4: a script without markers and without any [;] gives a migration
    without statements and without checksum, whose [apply] runs nothing
    and returns. *)
Theorem script_without_semicolon_applies_nothing
    (version description : string) (source : option string)
    (query : string) (m : Migration.Migration) :
  Migration.new_cypher version description source query = Ok m ->
  Str.contains Migration.UP_MARKER query = false ->
  Str.contains Migration.DOWN_MARKER query = false ->
  Str.contains ";" query = false ->
  (exists f, m = Migration.CypherMigration f query [] []
             /\ f.(Migration.checksum) = None)
  /\ forall tx, Migration.apply m tx = Ok tx.
Proof.
  intros Hm Hup Hdown Hsemi.
  destruct (new_cypher_ok _ _ _ _ _ Hm) as (f & _ & ->).
  rewrite (script_without_semicolon_has_no_statement query Hup Hdown Hsemi).
  cbn [fst snd]. change (Migration.normalize []) with (@nil string).
  split; [|reflexivity]. eexists. split; reflexivity.
Qed.

Lemma run_all_app (pre post : list string) (tx : Data) :
  Migration.run_all (pre ++ post) tx
  = match Migration.run_all pre tx with
    | Ok tx' => Migration.run_all post tx'
    | Raise e => Raise e
    end.
Proof.
  revert tx. induction pre as [|st pre IH]; intros tx; [reflexivity|].
  cbn [app Migration.run_all]. destruct (run st tx); [apply IH|reflexivity].
Qed.

(** X5: [apply] of a scripted migration runs the statements in order on
    the transaction and stops at the first one that raises: its
    exception is the result, whatever the statements after it. *)
Theorem cypher_apply_stops_at_first_failure (f : Migration.Fields)
    (query : string) (pre : list string) (st : string)
    (rollback_statements : list string) (tx tx1 : Data) (e : exn) :
  Migration.run_all pre tx = Ok tx1 ->
  run st tx1 = Raise e ->
  forall post,
    Migration.apply
      (Migration.CypherMigration f query (pre ++ st :: post)
         rollback_statements) tx
    = Raise e.
Proof.
  intros Hpre Hst post. cbn [Migration.apply].
  rewrite run_all_app, Hpre. cbn [Migration.run_all]. now rewrite Hst.
Qed.

End Scripts.

(** X6: the checksum of a statement list, when there is one, is the
    decimal text of a number between 1 and 2^32 - 1, the CRC-32 of the
    joined statements; there is none exactly when the list is empty or
    that CRC is 0. *)
Theorem checksum_is_nonzero_32_bit (statements : list string) :
  match Migration.checksum_of statements with
  | Some text =>
      statements <> []
      /\ exists z, (0 < z < 2 ^ 32)%Z
                   /\ z = Crc32.crc32 (joined statements) 0
                   /\ text = Str.of_Z z
  | None =>
      statements = [] \/ Crc32.crc32 (joined statements) 0 = 0%Z
  end.
Proof.
  rewrite checksum_of_joined. destruct statements as [|st rest]; [now left|].
  cbv zeta. pose proof (crc32_in32 (joined (st :: rest)) 0) as Hrange.
  destruct (Z.eqb_spec (Crc32.crc32 (joined (st :: rest)) 0) 0) as [Hz|Hz].
  - now right.
  - split; [discriminate|]. eexists. split; [|split; reflexivity].
    unfold in32 in Hrange. lia.
Qed.

(** ** Copies of migrations *)

Section Copies.

(** X7: on a dictionary whose version, if it has one, is a text of the
    release fragment, [from_dict] returns exactly when the keys
    [version], [description] and [type] are present; the result carries
    these three, the optional [source] and [checksum] and no rollback
    checksum.  Otherwise it raises [KeyError] for the first of the three
    keys that is missing, in this order. *)
Theorem from_dict_reads_required_keys (properties : gmap string string) :
  (forall v, properties !! "version" = Some v ->
             exists release, Version.parse v = Ok release) ->
  match Migration.from_dict properties with
  | Ok f =>
      properties !! "version" = Some f.(Migration.version)
      /\ properties !! "description" = Some f.(Migration.description)
      /\ properties !! "type" = Some f.(Migration.type)
      /\ f.(Migration.source) = properties !! "source"
      /\ f.(Migration.checksum) = properties !! "checksum"
      /\ f.(Migration.rollback_checksum) = None
      /\ Version.parse f.(Migration.version) = Ok f.(Migration.parsed_version)
  | Raise e =>
      (properties !! "version" = None /\ e = KeyError "version")
      \/ (is_Some (properties !! "version")
          /\ properties !! "description" = None
          /\ e = KeyError "description")
      \/ (is_Some (properties !! "version")
          /\ is_Some (properties !! "description")
          /\ properties !! "type" = None
          /\ e = KeyError "type")
  end.
Proof.
  intros Hrelease. unfold Migration.from_dict.
  destruct (properties !! "version") as [v|]; [|left; easy].
  destruct (properties !! "description") as [d|]; [|right; left; easy].
  destruct (properties !! "type") as [t|]; [|right; right; easy].
  destruct (Hrelease v eq_refl) as [release Hparse].
  destruct (Migration.new v d t (properties !! "source")
              (properties !! "checksum")) as [f|e] eqn:Hnew.
  - destruct (new_attributes _ _ _ _ _ _ Hnew)
      as (-> & -> & -> & -> & -> & Hr & Hp). easy.
  - unfold Migration.new in Hnew. rewrite Hparse in Hnew. discriminate.
Qed.

Lemma asdict_lookups {D} (m : Migration.MigrationOf D) :
  let f := Migration.fields m in
  asdict m !! "version" = Some f.(Migration.version)
  /\ asdict m !! "description" = Some f.(Migration.description)
  /\ asdict m !! "type" = Some f.(Migration.type)
  /\ asdict m !! "source" = f.(Migration.source)
  /\ asdict m !! "checksum" = f.(Migration.checksum).
Proof.
  cbv zeta. unfold asdict.
  destruct (Migration.source (Migration.fields m)),
    (Migration.checksum (Migration.fields m));
    repeat split; simplify_map_eq; reflexivity.
Qed.

(** X8: [from_other] of a migration whose parsed version is that of its
    version text returns an instance of the base class, which has no
    bodies, with the same version, description, type, source and
    checksum, and without the rollback checksum. *)
Theorem from_other_keeps_recorded_attributes {D}
    (m : Migration.MigrationOf D) :
  let f := Migration.fields m in
  Version.parse f.(Migration.version) = Ok f.(Migration.parsed_version) ->
  from_other m
  = Ok (Migration.Base
          (Migration.with_checksums f f.(Migration.checksum) None)).
Proof.
  cbv zeta. intros Hparse.
  unfold from_other, Migration.from_dict.
  destruct (asdict_lookups m) as (-> & -> & -> & -> & ->).
  unfold Migration.new. rewrite Hparse. reflexivity.
Qed.

End Copies.

(** ** The order of migrations *)

Section StrictOrder.

Local Open Scope N_scope.

Lemma tuple_lt_irreflexive (a : list N) : Version.tuple_lt a a = false.
Proof.
  induction a as [|x a IH]; [reflexivity|].
  cbn [Version.tuple_lt]. now rewrite N.eqb_refl.
Qed.

Lemma tuple_lt_transitive (a : list N) :
  forall b c,
    Version.tuple_lt a b = true -> Version.tuple_lt b c = true ->
    Version.tuple_lt a c = true.
Proof.
  induction a as [|x a IH]; intros [|y b] [|z c]; cbn [Version.tuple_lt];
    try easy.
  destruct (N.eqb_spec x y) as [->|Hxy]; destruct (N.eqb_spec y z) as [->|Hyz].
  - apply IH.
  - easy.
  - destruct (N.eqb_spec x z); [lia | easy].
  - rewrite !N.ltb_lt. intros Hlt1 Hlt2.
    destruct (N.eqb_spec x z); [lia|]. apply N.ltb_lt. lia.
Qed.

Lemma tuple_lt_total (a : list N) :
  forall b,
    Version.tuple_lt a b = false -> Version.tuple_lt b a = false ->
    Version.tuple_eq a b = true.
Proof.
  induction a as [|x a IH]; intros [|y b]; cbn [Version.tuple_lt Version.tuple_eq];
    try easy.
  rewrite (N.eqb_sym y x).
  destruct (N.eqb_spec x y) as [->|Hxy]; [apply IH|].
  rewrite !N.ltb_ge. lia.
Qed.

Lemma tuple_eq_not_lt (a : list N) :
  forall b, Version.tuple_eq a b = true -> Version.tuple_lt a b = false.
Proof.
  intros b Heq. apply VersionFacts.tuple_eq_iff in Heq. subst b.
  apply tuple_lt_irreflexive.
Qed.

(** X9: [Migration.__lt__] is a strict order on migrations: no migration
    is below itself, the relation is transitive and never holds both
    ways, and two migrations neither of which is below the other have
    equal parsed versions. *)
Theorem migration_lt_is_strict_order (a b c : Migration.Fields) :
  Migration.lt a a = false
  /\ (Migration.lt a b = true -> Migration.lt b c = true ->
      Migration.lt a c = true)
  /\ (Migration.lt a b = true -> Migration.lt b a = false)
  /\ (Migration.lt a b = false -> Migration.lt b a = false ->
      Version.eq a.(Migration.parsed_version) b.(Migration.parsed_version)
      = true)
  /\ (Version.eq a.(Migration.parsed_version) b.(Migration.parsed_version)
      = true -> Migration.lt a b = false).
Proof.
  unfold Migration.lt, Version.lt, Version.eq.
  split; [apply tuple_lt_irreflexive|].
  split; [apply tuple_lt_transitive|].
  split; [|split; [apply tuple_lt_total | apply tuple_eq_not_lt]].
  intros Hab.
  destruct (Version.tuple_lt (Version.cmpkey (Migration.parsed_version b))
              (Version.cmpkey (Migration.parsed_version a))) eqn:Hba;
    [|reflexivity].
  pose proof (tuple_lt_transitive _ _ _ Hab Hba) as Haa.
  now rewrite tuple_lt_irreflexive in Haa.
Qed.

End StrictOrder.

(** ** The DAO *)

Section DaoFacts.
Context `{Env}.

Local Open Scope list_scope.

Lemma opt_eqb_eq (a b : option string) : opt_eqb a b = true <-> a = b.
Proof.
  destruct a as [x|], b as [y|]; cbn; try easy.
  rewrite String.eqb_eq. split; congruence.
Qed.

(** X10: [Executor.__init__] with [MigrationDAO.__init__]: without a
    schema database the records go to the migrated database and carry no
    migration target; with one, they go there, and carry the name of the
    migrated database unless the two are the same. *)
Theorem records_carry_target_of_other_database
    (loaded : list Migration.Migration)
    (project database schema_database : option string) :
  let dao := Executor.dao (Executor.new loaded project database
                             schema_database) in
  (truthy schema_database = false -> truthy database = true ->
   dao.(Dao.schema_database) = database /\ dao.(Dao.database) = None)
  /\ (truthy schema_database = true ->
      dao.(Dao.schema_database) = schema_database
      /\ (database = schema_database -> dao.(Dao.database) = None)
      /\ (database <> schema_database -> dao.(Dao.database) = database)).
Proof.
  cbv zeta. unfold Executor.new, Dao.new. cbn. split.
  - intros -> ->. cbn. split; [reflexivity|].
    destruct (opt_eqb database database) eqn:Heq; [reflexivity|].
    assert (Hrefl : opt_eqb database database = true)
      by now apply opt_eqb_eq.
    congruence.
  - intros ->. rewrite andb_false_r. split; [reflexivity|]. split.
    + intros <-.
      assert (Hrefl : opt_eqb database database = true)
        by now apply opt_eqb_eq.
      now rewrite Hrefl.
    + intros Hne. destruct (opt_eqb database schema_database) eqn:Heq;
        [|reflexivity].
      apply opt_eqb_eq in Heq. contradiction.
Qed.

(** X11: [create_baseline]: on a store that finds the baseline it has
    created, a second call returns and leaves the schema database as the
    first call left it. *)
Theorem create_baseline_is_idempotent (dao : Dao.MigrationDAO)
    (w w1 : World) :
  baseline_is_found ->
  Dao.create_baseline dao w = (Ok tt, w1) ->
  exists w2,
    Dao.create_baseline dao w1 = (Ok tt, w2)
    /\ w2.(schema) = w1.(schema).
Proof.
  intros Hlaw. unfold Dao.create_baseline, bind, log, session_read,
    session_write, ret. cbn.
  destruct (match_baseline _ _ _ (schema w)) as [[|]|e] eqn:Hfound.
  - intros [= <-]. cbn. rewrite Hfound. eexists. split; reflexivity.
  - cbn.
    destruct (create_baseline_node (Dao.baseline dao) (Dao.project dao)
                (Dao.database dao) (schema w)) as [g'|e] eqn:Hmake;
      [|discriminate].
    intros [= <-]. cbn. rewrite (Hlaw _ _ _ _ _ Hmake).
    eexists. split; reflexivity.
  - discriminate.
Qed.

(** X12: [add_migration]: a call that raises and a dry run leave the
    schema database as it was; a call that returns and is no dry run
    leaves what the statement made of it, the counters being accepted.
    The migrated database is never touched. *)
Theorem add_migration_is_all_or_nothing (dao : Dao.MigrationDAO)
    (f : Migration.Fields) (duration : Z) (dry_run : bool) (w : World) :
  let r := Dao.add_migration dao f duration dry_run w in
  match fst r with
  | Raise _ => (snd r).(schema) = w.(schema)
  | Ok _ =>
      if dry_run then (snd r).(schema) = w.(schema)
      else exists c,
          append_statement dao f duration w.(schema)
          = Ok ((snd r).(schema), c)
          /\ Dao.counters_rejected c = false
  end
  /\ (snd r).(target) = w.(target).
Proof.
  cbv zeta. split; [|apply add_migration_frame].
  rewrite add_migration_run. cbv zeta.
  destruct (append_statement _ _ _ _) as [[g' c]|e]; [|reflexivity].
  destruct (Dao.counters_rejected c) eqn:Hc; [reflexivity|].
  destruct dry_run; [reflexivity|]. cbn. exists c. easy.
Qed.

(** [remove_migration] in one equation. *)
Lemma remove_migration_run (dao : Dao.MigrationDAO) (version : string)
    (w : World) :
  let w0 := add_event (DaoRemoveMigration version) w in
  Dao.remove_migration dao version w
  = match match_for_removal version dao.(Dao.project) dao.(Dao.database)
            w.(schema) with
    | Raise e => (Raise e, w0)
    | Ok None => (Raise (Dao.version_not_found version), w0)
    | Ok (Some has_next) =>
        match relink_statement dao version has_next w.(schema) with
        | Raise e => (Raise e, w0)
        | Ok g1 =>
            match delete_migration_node version dao.(Dao.project)
                    dao.(Dao.database) g1 with
            | Raise e => (Raise e, w0)
            | Ok (g2, count) =>
                if bool_decide (count = Some 1%Z)
                then (Ok tt, set_schema g2 w0)
                else (Raise (Dao.removal_failed version), w0)
            end
        end
    end.
Proof.
  cbv zeta.
  unfold Dao.remove_migration, relink_statement, bind, log,
    schema_transaction. cbn.
  destruct (match_for_removal _ _ _ _) as [[has_next|]|e];
    [|reflexivity|reflexivity].
  destruct (if has_next then _ else _) as [g1|e]; [|reflexivity].
  destruct (delete_migration_node _ _ _ _) as [[g2 [count|]]|e];
    [|reflexivity|reflexivity].
  destruct count as [|[p|p|]|p]; reflexivity.
Qed.

(** X14: [remove_migration]: a call that raises leaves the schema
    database as it was, a link it has made from the predecessor to the
    successor included; a call that returns has deleted exactly one
    node. *)
Theorem remove_migration_is_all_or_nothing (dao : Dao.MigrationDAO)
    (version : string) (w : World) :
  let r := Dao.remove_migration dao version w in
  match fst r with
  | Raise _ => (snd r).(schema) = w.(schema)
  | Ok _ =>
      exists has_next g1,
        match_for_removal version dao.(Dao.project) dao.(Dao.database)
          w.(schema) = Ok (Some has_next)
        /\ relink_statement dao version has_next w.(schema) = Ok g1
        /\ delete_migration_node version dao.(Dao.project)
             dao.(Dao.database) g1
           = Ok ((snd r).(schema), Some 1%Z)
  end
  /\ (snd r).(target) = w.(target).
Proof.
  cbv zeta. split; [|apply remove_migration_frame].
  rewrite remove_migration_run. cbv zeta.
  destruct (match_for_removal _ _ _ _) as [[has_next|]|e];
    [|reflexivity|reflexivity].
  destruct (relink_statement _ _ _ _) as [g1|e] eqn:Hlink; [|reflexivity].
  destruct (delete_migration_node _ _ _ _) as [[g2 count]|e] eqn:Hdel;
    [|reflexivity].
  destruct (bool_decide_reflect (count = Some 1%Z)) as [->|Hne];
    [|reflexivity].
  cbn. exists has_next, g1. easy.
Qed.

(** X15: [remove_migration]: a version with no record in the chain
    raises the not-found error; a delete statement that reports another
    count than one raises the removal error, and the link made before it
    is undone with the rest. *)
Theorem remove_migration_rejects_other_counts (dao : Dao.MigrationDAO)
    (version : string) (w : World) :
  let found :=
    match_for_removal version dao.(Dao.project) dao.(Dao.database)
      w.(schema) in
  let w0 := add_event (DaoRemoveMigration version) w in
  (found = Ok None ->
   Dao.remove_migration dao version w
   = (Raise (Dao.version_not_found version), w0))
  /\ (forall has_next g1 g2 count,
      found = Ok (Some has_next) ->
      relink_statement dao version has_next w.(schema) = Ok g1 ->
      delete_migration_node version dao.(Dao.project) dao.(Dao.database) g1
      = Ok (g2, count) ->
      count <> Some 1%Z ->
      Dao.remove_migration dao version w
      = (Raise (Dao.removal_failed version), w0)).
Proof.
  cbv zeta. split.
  - intros Hfound. rewrite remove_migration_run. cbv zeta.
    now rewrite Hfound.
  - intros has_next g1 g2 count Hfound Hlink Hdel Hne.
    rewrite remove_migration_run. cbv zeta.
    rewrite Hfound, Hlink, Hdel.
    destruct (bool_decide_reflect (count = Some 1%Z)); [contradiction|].
    reflexivity.
Qed.

Lemma rows_to_migrations_ok (rows : list (gmap string string)) :
  forall ms,
    Dao.rows_to_migrations rows = Ok ms ->
    Forall2 (fun row m => exists f,
               Migration.from_dict row = Ok f /\ m = Migration.Base f)
            rows ms.
Proof.
  induction rows as [|row rows IH]; intros ms; cbn [Dao.rows_to_migrations].
  - intros [= <-]. constructor.
  - destruct (Migration.from_dict row) as [f|e] eqn:Hrow; [|discriminate].
    destruct (Dao.rows_to_migrations rows) as [ms'|e]; [|discriminate].
    intros [= <-]. constructor; [exists f; easy | now apply IH].
Qed.

Lemma rows_to_migrations_raise (rows : list (gmap string string))
    (row : gmap string string) (e : exn) :
  In row rows -> Migration.from_dict row = Raise e ->
  is_ok (Dao.rows_to_migrations rows) = false.
Proof.
  induction rows as [|r rows IH]; intros Hin Hrow; [contradiction|].
  cbn [Dao.rows_to_migrations].
  destruct (Migration.from_dict r) as [f|e'] eqn:Hr; [|reflexivity].
  destruct Hin as [->|Hin]; [congruence|].
  specialize (IH Hin Hrow).
  destruct (Dao.rows_to_migrations rows); [discriminate | reflexivity].
Qed.

Lemma get_applied_migrations_run (dao : Dao.MigrationDAO) (w : World) :
  Dao.get_applied_migrations dao w
  = (match match_applied dao.(Dao.baseline) dao.(Dao.project)
             dao.(Dao.database) w.(schema) with
     | Raise e => Raise e
     | Ok rows => Dao.rows_to_migrations rows
     end, add_event DaoGetApplied w).
Proof.
  unfold Dao.get_applied_migrations, bind, log, session_read, lift. cbn.
  destruct (match_applied _ _ _ _); reflexivity.
Qed.

(** X16: [get_applied_migrations]: the list returned has one migration
    for every row of the result, in the order of the rows; each one holds
    the attributes [from_dict] reads from its row and has no body, so
    that neither [apply] nor [rollback] can run it; the schema database
    is not changed. *)
Theorem applied_migrations_mirror_rows (dao : Dao.MigrationDAO)
    (w w' : World) (applied : list Migration.Migration) :
  Dao.get_applied_migrations dao w = (Ok applied, w') ->
  exists rows,
    match_applied dao.(Dao.baseline) dao.(Dao.project) dao.(Dao.database)
      w.(schema) = Ok rows
    /\ Forall2 (fun row m => exists f,
                  Migration.from_dict row = Ok f /\ m = Migration.Base f)
               rows applied
    /\ Forall (fun m => forall tx,
                 is_ok (Migration.apply m tx) = false
                 /\ is_ok (Migration.rollback m tx) = false) applied
    /\ w'.(schema) = w.(schema).
Proof.
  rewrite get_applied_migrations_run.
  destruct (match_applied _ _ _ _) as [rows|e]; [|discriminate].
  intros [= Hrows <-]. exists rows. split; [reflexivity|].
  pose proof (rows_to_migrations_ok rows applied Hrows) as Hall.
  split; [exact Hall|]. split; [|reflexivity].
  clear Hrows. induction Hall as [|row m rows ms (f & _ & ->) _ IH];
    constructor; [easy | exact IH].
Qed.

(** X17: [get_applied_migrations]: one row that [from_dict] refuses
    makes the whole call raise, whatever the other rows hold. *)
Theorem unreadable_row_fails_the_read (dao : Dao.MigrationDAO) (w : World)
    (rows : list (gmap string string)) (row : gmap string string)
    (e : exn) :
  match_applied dao.(Dao.baseline) dao.(Dao.project) dao.(Dao.database)
    w.(schema) = Ok rows ->
  In row rows ->
  Migration.from_dict row = Raise e ->
  is_ok (fst (Dao.get_applied_migrations dao w)) = false
  /\ (snd (Dao.get_applied_migrations dao w)).(schema) = w.(schema).
Proof.
  intros Hrows Hin Hrow. rewrite get_applied_migrations_run, Hrows.
  cbn [fst snd]. split; [|reflexivity].
  exact (rows_to_migrations_raise rows row e Hin Hrow).
Qed.

End DaoFacts.

(** ** The executor *)

Section ExecutorRuns.
Context `{Env}.

Local Open Scope list_scope.

Local Abbreviation version_of := Executor.version_of.

Lemma for_each_apply_all (self : Executor.Executor)
    (on_apply : option Executor.Callback) (sel : list Migration.Migration) :
  forall w w',
    for_each sel (Executor.apply_one self on_apply) w = (Ok tt, w') ->
    apply_in_order sel w.(target) = Ok w'.(target)
    /\ w'.(trace) = w.(trace) ++ flat_map (apply_events on_apply) sel.
Proof.
  induction sel as [|m sel IH]; intros w w' Hrun.
  - cbn in Hrun. injection Hrun as <-. cbn. now rewrite app_nil_r.
  - cbn [for_each] in Hrun. unfold bind in Hrun.
    destruct (Executor.apply_one self on_apply m w) as [[[]|e] w1] eqn:H1;
      [|discriminate].
    destruct (apply_one_ok _ _ _ _ _ H1) as (tx' & Hbody & Ht & Htr).
    destruct (IH _ _ Hrun) as [Hdata Htrace].
    cbn [apply_in_order flat_map]. rewrite Hbody, <- Ht. split; [exact Hdata|].
    rewrite Htrace, Htr. unfold apply_events. now rewrite <- !app_assoc.
Qed.

(** An entry that [rollback_one] brings to its end. *)
Lemma rollback_one_ok (self : Executor.Executor)
    (on_rollback : option Executor.Callback) (m : Migration.Migration)
    (w w' : World) :
  Executor.rollback_one self on_rollback m w = (Ok tt, w') ->
  exists local tx',
    Executor.find_local self m = Some local
    /\ Migration.rollback local w.(target) = Ok tx'
    /\ w'.(target) = tx'
    /\ w'.(trace) = w.(trace) ++ rollback_events on_rollback m.
Proof.
  rewrite rollback_one_run. cbv zeta.
  destruct (Executor.find_local self m) as [local|]; [|discriminate].
  destruct (Migration.rollback local (target w)) as [tx'|e] eqn:Hbody;
    [|discriminate].
  intros Hrun. exists local, tx'. split; [reflexivity|].
  split; [exact Hbody|].
  assert (Hrm : forall wc,
    match Dao.remove_migration (Executor.dao self) (version_of m) wc with
    | (Ok _, wr) => (Ok tt, add_event TxCommit (set_target tx' wr))
    | (Raise e, wr) =>
        (Raise (surfaced (version_of m) e), add_event TxRollback wr)
    end = (Ok tt, w') ->
    w'.(target) = tx'
    /\ w'.(trace)
       = wc.(trace) ++ [DaoRemoveMigration (version_of m); TxCommit]).
  { intros wc Hwc.
    pose proof (remove_migration_frame (Executor.dao self) (version_of m) wc)
      as Hframe.
    destruct (Dao.remove_migration _ _ wc) as [[[]|e] wr]; [|discriminate].
    injection Hwc as <-. cbn in Hframe |- *.
    destruct Hframe as (_ & _ & Htr). split; [reflexivity|].
    rewrite Htr, <- app_assoc. reflexivity. }
  unfold rollback_events.
  destruct on_rollback as [callback|].
  - destruct (callback local) as [[]|e]; [|discriminate].
    destruct (Hrm _ Hrun) as [Ht Htr]. split; [exact Ht|].
    rewrite Htr. cbn. rewrite <- !app_assoc. reflexivity.
  - destruct (Hrm _ Hrun) as [Ht Htr]. split; [exact Ht|].
    rewrite Htr. cbn. rewrite <- !app_assoc. reflexivity.
Qed.

Lemma for_each_rollback_all (self : Executor.Executor)
    (on_rollback : option Executor.Callback)
    (sel : list Migration.Migration) :
  forall w w',
    for_each sel (Executor.rollback_one self on_rollback) w = (Ok tt, w') ->
    rollback_in_order self sel w.(target) = Ok w'.(target)
    /\ w'.(trace) = w.(trace) ++ flat_map (rollback_events on_rollback) sel.
Proof.
  induction sel as [|m sel IH]; intros w w' Hrun.
  - cbn in Hrun. injection Hrun as <-. cbn. now rewrite app_nil_r.
  - cbn [for_each] in Hrun. unfold bind in Hrun.
    destruct (Executor.rollback_one self on_rollback m w) as [[[]|e] w1]
      eqn:H1; [|discriminate].
    destruct (rollback_one_ok _ _ _ _ _ H1)
      as (local & tx' & Hlocal & Hbody & Ht & Htr).
    destruct (IH _ _ Hrun) as [Hdata Htrace].
    cbn [rollback_in_order flat_map]. rewrite Hlocal, Hbody, <- Ht.
    split; [exact Hdata|].
    rewrite Htrace, Htr. now rewrite <- !app_assoc.
Qed.

Section MigrateRuns.
Variable analyzer_analyze :
  list Migration.Migration -> list Migration.Migration ->
  Analyzer.AnalyzingResult.

Local Abbreviation analyze := (Executor.analyze analyzer_analyze).
Local Abbreviation migrate := (Executor.migrate analyzer_analyze).

(** X18: [migrate]: a call that returns has run the forward bodies of
    the selected migrations on the migrated database, one after the
    other in the order of the selection, and has made for each of them,
    in this order, the dry run, the transaction with body and callback,
    the commit and the recording; nothing else was called after the
    schema was prepared. *)
Theorem migrate_runs_selection_in_order (self : Executor.Executor)
    (version : option string) (on_apply : option Executor.Callback)
    (w w1 w2 w' : World) (res : Analyzer.AnalyzingResult)
    (sel : list Migration.Migration) :
  analyze self w = (Ok res, w1) ->
  res.(Analyzer.invalid_versions) = [] ->
  Executor.prepare_schema self res w1 = (Ok tt, w2) ->
  Executor.migrations_to_apply res.(Analyzer.pending_migrations) version
  = Ok sel ->
  migrate self version on_apply w = (Ok tt, w') ->
  apply_in_order sel w.(target) = Ok w'.(target)
  /\ w'.(trace) = w2.(trace) ++ flat_map (apply_events on_apply) sel.
Proof.
  intros Ha Hinv Hp Hsel.
  rewrite (migrate_run analyzer_analyze self version on_apply w w1 w2 res
             Ha Hinv Hp), Hsel.
  intros Hrun.
  destruct (prepared_world analyzer_analyze self w w1 w2 res Ha Hp)
    as [Ht _].
  rewrite <- Ht. now apply (for_each_apply_all self on_apply sel).
Qed.

(** X19: [migrate]: when the forward body of a migration of the
    selection raises, after the migrations before it went through,
    [migrate] raises that exception; the transaction of the body is
    rolled back, so that nothing of the body stays in the migrated
    database; no record is written; nothing of the rest of the selection
    is attempted. *)
Theorem forward_body_failure_aborts_current_only (self : Executor.Executor)
    (version : option string) (on_apply : option Executor.Callback)
    (w w1 w2 w3 : World) (res : Analyzer.AnalyzingResult)
    (pre : list Migration.Migration) (m : Migration.Migration)
    (rest : list Migration.Migration) (e : exn) :
  analyze self w = (Ok res, w1) ->
  res.(Analyzer.invalid_versions) = [] ->
  Executor.prepare_schema self res w1 = (Ok tt, w2) ->
  Executor.migrations_to_apply res.(Analyzer.pending_migrations) version
  = Ok (pre ++ m :: rest) ->
  for_each pre (Executor.apply_one self on_apply) w2 = (Ok tt, w3) ->
  fst (Dao.add_migration (Executor.dao self) (Migration.fields m) 0 true w3)
  = Ok tt ->
  Migration.apply m w3.(target) = Raise e ->
  exists w',
    migrate self version on_apply w = (Raise e, w')
    /\ w'.(target) = w3.(target)
    /\ w'.(schema) = w3.(schema)
    /\ w'.(trace)
       = w3.(trace)
         ++ [DaoAddMigration (version_of m) true; TxBegin;
             BodyApply (version_of m); TxRollback].
Proof.
  intros Ha Hinv Hp Hsel Hpre Hdry Happly.
  rewrite (migrate_run analyzer_analyze self version on_apply w w1 w2 res
             Ha Hinv Hp).
  rewrite Hsel, for_each_app, Hpre. cbn [for_each]. unfold bind at 1.
  rewrite apply_one_run. cbv zeta. rewrite Hdry, Happly.
  eexists. split; [reflexivity|]. cbn. rewrite <- !app_assoc. easy.
Qed.

(** X20: [migrate]: when the recording of a migration raises, after its
    forward body and the callback went through, [migrate] raises that
    exception with the body committed: the migrated database holds what
    the body made of it, the schema database holds no record of it. *)
Theorem recording_failure_leaves_body_committed (self : Executor.Executor)
    (version : option string) (on_apply : option Executor.Callback)
    (w w1 w2 w3 : World) (res : Analyzer.AnalyzingResult)
    (pre : list Migration.Migration) (m : Migration.Migration)
    (rest : list Migration.Migration) (tx' : Data) (e : exn) :
  analyze self w = (Ok res, w1) ->
  res.(Analyzer.invalid_versions) = [] ->
  Executor.prepare_schema self res w1 = (Ok tt, w2) ->
  Executor.migrations_to_apply res.(Analyzer.pending_migrations) version
  = Ok (pre ++ m :: rest) ->
  for_each pre (Executor.apply_one self on_apply) w2 = (Ok tt, w3) ->
  fst (Dao.add_migration (Executor.dao self) (Migration.fields m) 0 true w3)
  = Ok tt ->
  Migration.apply m w3.(target) = Ok tx' ->
  callback_returns on_apply m ->
  fst (Dao.add_migration (Executor.dao self) (Migration.fields m)
         (monotonic (S w3.(ticks)) - monotonic w3.(ticks))%Z false
         (before_record on_apply (version_of m) tx' w3))
  = Raise e ->
  exists w',
    migrate self version on_apply w = (Raise e, w')
    /\ w'.(target) = tx'
    /\ w'.(schema) = w3.(schema)
    /\ w'.(trace) = w3.(trace) ++ apply_events on_apply m.
Proof.
  intros Ha Hinv Hp Hsel Hpre Hdry Happly Hcb Hrec.
  rewrite (migrate_run analyzer_analyze self version on_apply w w1 w2 res
             Ha Hinv Hp).
  rewrite Hsel, for_each_app, Hpre. cbn [for_each]. unfold bind at 1.
  rewrite apply_one_run. cbv zeta. rewrite Hdry, Happly.
  set (duration := (monotonic (S (ticks w3)) - monotonic (ticks w3))%Z) in *.
  assert (Hend : forall wd,
    fst (Dao.add_migration (Executor.dao self) (Migration.fields m)
           duration false (add_event TxCommit (set_target tx' wd)))
    = Raise e ->
    exists w',
      match Dao.add_migration (Executor.dao self) (Migration.fields m)
              duration false (add_event TxCommit (set_target tx' wd)) with
      | (Ok _, w4) => for_each rest (Executor.apply_one self on_apply) w4
      | (Raise e0, w4) => (Raise e0, w4)
      end = (Raise e, w')
      /\ w'.(target) = tx'
      /\ w'.(schema) = wd.(schema)
      /\ w'.(trace)
         = wd.(trace) ++ [TxCommit; DaoAddMigration (version_of m) false]).
  { intros wd Hwd.
    destruct (Dao.add_migration (Executor.dao self) (Migration.fields m)
                duration false (add_event TxCommit (set_target tx' wd)))
      as [[[]|e0] w4] eqn:Hcall; [discriminate|].
    cbn [fst] in Hwd. injection Hwd as ->.
    exists w4. split; [reflexivity|].
    apply add_migration_raise in Hcall. subst w4. cbn.
    now rewrite <- app_assoc. }
  unfold before_record in Hrec. unfold apply_events.
  destruct on_apply as [callback|].
  - cbn in Hcb. rewrite Hcb.
    destruct (Hend _ Hrec) as (w' & Hrun & Ht & Hs & Htr).
    exists w'. split; [exact Hrun|]. split; [exact Ht|].
    split; [exact Hs|]. rewrite Htr. cbn. now rewrite <- !app_assoc.
  - destruct (Hend _ Hrec) as (w' & Hrun & Ht & Hs & Htr).
    exists w'. split; [exact Hrun|]. split; [exact Ht|].
    split; [exact Hs|]. rewrite Htr. cbn. now rewrite <- !app_assoc.
Qed.

(** X21: [migrate]: when the dry run of a migration raises, after the
    migrations before it went through, [migrate] raises that exception
    before a transaction is opened on the migrated database: the world
    is as the earlier migrations left it, but for the logged call. *)
Theorem dry_run_failure_opens_no_transaction (self : Executor.Executor)
    (version : option string) (on_apply : option Executor.Callback)
    (w w1 w2 w3 : World) (res : Analyzer.AnalyzingResult)
    (pre : list Migration.Migration) (m : Migration.Migration)
    (rest : list Migration.Migration) (e : exn) :
  analyze self w = (Ok res, w1) ->
  res.(Analyzer.invalid_versions) = [] ->
  Executor.prepare_schema self res w1 = (Ok tt, w2) ->
  Executor.migrations_to_apply res.(Analyzer.pending_migrations) version
  = Ok (pre ++ m :: rest) ->
  for_each pre (Executor.apply_one self on_apply) w2 = (Ok tt, w3) ->
  fst (Dao.add_migration (Executor.dao self) (Migration.fields m) 0 true w3)
  = Raise e ->
  migrate self version on_apply w
  = (Raise e, add_event (DaoAddMigration (version_of m) true) w3).
Proof.
  intros Ha Hinv Hp Hsel Hpre Hdry.
  rewrite (migrate_run analyzer_analyze self version on_apply w w1 w2 res
             Ha Hinv Hp).
  rewrite Hsel, for_each_app, Hpre. cbn [for_each]. unfold bind at 1.
  rewrite apply_one_run. cbv zeta. rewrite Hdry. reflexivity.
Qed.

End MigrateRuns.

(** X22: [rollback]: asked for the version of the last applied
    migration, it finds nothing after it, returns, and has called
    nothing but the read of the applied migrations. *)
Theorem rollback_to_latest_does_nothing (self : Executor.Executor)
    (v : string) (on_rollback : option Executor.Callback) (w w1 : World)
    (init : list Migration.Migration) (m : Migration.Migration) :
  Dao.get_applied_migrations (Executor.dao self) w = (Ok (init ++ [m]), w1) ->
  version_of m = v ->
  ~ In v (List.map version_of init) ->
  Executor.rollback self (Some v) on_rollback w = (Ok tt, w1)
  /\ w1 = add_event DaoGetApplied w.
Proof.
  intros Hget Hm Hinit. split.
  - rewrite (rollback_run self (Some v) on_rollback w w1 _ Hget).
    unfold Executor.migrations_to_rollback.
    destruct (init ++ [m]) as [|first tl] eqn:Hl; [now destruct init|].
    rewrite <- Hl, (version_index_first v init m [] Hm Hinit).
    now rewrite skipn_through.
  - pose proof (get_applied_migrations_world (Executor.dao self) w) as Hw.
    now rewrite Hget in Hw.
Qed.

(** X23: [rollback]: when the loop reaches an entry of which the
    directory holds no local migration, after the entries before it went
    through, [rollback] raises the error naming the version, and opens
    no transaction for the entry: the world is as the earlier entries
    left it. *)
Theorem rollback_needs_local_migration (self : Executor.Executor)
    (version : option string) (on_rollback : option Executor.Callback)
    (w w1 w2 : World) (applied pre : list Migration.Migration)
    (m : Migration.Migration) (rest : list Migration.Migration) :
  Dao.get_applied_migrations (Executor.dao self) w = (Ok applied, w1) ->
  Executor.migrations_to_rollback applied version = Ok (pre ++ m :: rest) ->
  for_each pre (Executor.rollback_one self on_rollback) w1 = (Ok tt, w2) ->
  Executor.find_local self m = None ->
  Executor.rollback self version on_rollback w
  = (Raise (Executor.local_not_found (version_of m)), w2).
Proof.
  intros Hget Hsel Hpre Hlocal.
  rewrite (rollback_run self version on_rollback w w1 applied Hget), Hsel.
  rewrite for_each_app, Hpre. cbn [for_each]. unfold bind at 1.
  rewrite rollback_one_run. cbv zeta. now rewrite Hlocal.
Qed.

(** X24: [rollback]: when the backward body of an entry raises, whatever
    the exception, [rollback] raises it, as a [ValueError] naming the
    version if it is a [NotImplementedError] and as it is otherwise; the
    transaction of the body is rolled back, the record stays, and
    nothing more is called. *)
Theorem backward_body_failure_keeps_record (self : Executor.Executor)
    (version : option string) (on_rollback : option Executor.Callback)
    (w w1 w2 : World) (applied pre : list Migration.Migration)
    (m : Migration.Migration) (rest : list Migration.Migration)
    (local : Migration.Migration) (e : exn) :
  Dao.get_applied_migrations (Executor.dao self) w = (Ok applied, w1) ->
  Executor.migrations_to_rollback applied version = Ok (pre ++ m :: rest) ->
  for_each pre (Executor.rollback_one self on_rollback) w1 = (Ok tt, w2) ->
  Executor.find_local self m = Some local ->
  Migration.rollback local w2.(target) = Raise e ->
  exists w',
    Executor.rollback self version on_rollback w
    = (Raise (surfaced (version_of m) e), w')
    /\ w'.(schema) = w2.(schema)
    /\ w'.(target) = w2.(target)
    /\ w'.(trace)
       = w2.(trace) ++ [TxBegin; BodyRollback (version_of m); TxRollback].
Proof.
  intros Hget Hsel Hpre Hlocal Hbody.
  rewrite (rollback_run self version on_rollback w w1 applied Hget), Hsel.
  rewrite for_each_app, Hpre. cbn [for_each]. unfold bind at 1.
  rewrite rollback_one_run. cbv zeta. rewrite Hlocal, Hbody.
  eexists. split; [reflexivity|]. cbn. rewrite <- !app_assoc. easy.
Qed.

(** X25: [rollback]: when the callback raises for an entry, after its
    backward body went through, [rollback] raises the exception (a
    [NotImplementedError] as the [ValueError] of an unsupported
    rollback); the transaction of the body is rolled back, the DAO is
    not called, and the record stays. *)
Theorem on_rollback_failure_keeps_record (self : Executor.Executor)
    (version : option string) (callback : Executor.Callback)
    (w w1 w2 : World) (applied pre : list Migration.Migration)
    (m : Migration.Migration) (rest : list Migration.Migration)
    (local : Migration.Migration) (tx' : Data) (e : exn) :
  Dao.get_applied_migrations (Executor.dao self) w = (Ok applied, w1) ->
  Executor.migrations_to_rollback applied version = Ok (pre ++ m :: rest) ->
  for_each pre (Executor.rollback_one self (Some callback)) w1
  = (Ok tt, w2) ->
  Executor.find_local self m = Some local ->
  Migration.rollback local w2.(target) = Ok tx' ->
  callback local = Raise e ->
  exists w',
    Executor.rollback self version (Some callback) w
    = (Raise (surfaced (version_of m) e), w')
    /\ w'.(schema) = w2.(schema)
    /\ w'.(target) = w2.(target)
    /\ w'.(trace)
       = w2.(trace)
         ++ [TxBegin; BodyRollback (version_of m); OnRollback (version_of m);
             TxRollback].
Proof.
  intros Hget Hsel Hpre Hlocal Hbody Hcb.
  rewrite (rollback_run self version (Some callback) w w1 applied Hget), Hsel.
  rewrite for_each_app, Hpre. cbn [for_each]. unfold bind at 1.
  rewrite rollback_one_run. cbv zeta. rewrite Hlocal, Hbody, Hcb.
  eexists. split; [reflexivity|]. unfold after_backward_body. cbn.
  rewrite <- !app_assoc. easy.
Qed.

(** X26: [rollback]: a call that returns has run the backward bodies of
    the local migrations of the selected entries on the migrated
    database, one after the other in the order of the selection, and has
    made for each of them, in this order, the transaction with body and
    callback, the removal of the record and the commit. *)
Theorem rollback_runs_selection_in_order (self : Executor.Executor)
    (version : option string) (on_rollback : option Executor.Callback)
    (w w1 w' : World) (applied sel : list Migration.Migration) :
  Dao.get_applied_migrations (Executor.dao self) w = (Ok applied, w1) ->
  Executor.migrations_to_rollback applied version = Ok sel ->
  Executor.rollback self version on_rollback w = (Ok tt, w') ->
  rollback_in_order self sel w.(target) = Ok w'.(target)
  /\ w'.(trace)
     = w.(trace) ++ DaoGetApplied :: flat_map (rollback_events on_rollback) sel.
Proof.
  intros Hget Hsel.
  rewrite (rollback_run self version on_rollback w w1 applied Hget), Hsel.
  intros Hrun.
  pose proof (get_applied_migrations_world (Executor.dao self) w) as Hw.
  rewrite Hget in Hw. cbn [snd] in Hw.
  destruct (for_each_rollback_all self on_rollback sel _ _ Hrun)
    as [Hdata Htrace].
  rewrite Hw in Hdata, Htrace. cbn in Hdata, Htrace.
  split; [exact Hdata|]. rewrite Htrace, <- app_assoc. reflexivity.
Qed.

(** X27: [rollback]: when the removal of the record raises, after the
    backward body and the callback went through, [rollback] raises the
    exception and the transaction of the body is rolled back with it:
    the migrated database and the schema database are as the earlier
    entries left them. *)
Theorem removal_failure_undoes_backward_body (self : Executor.Executor)
    (version : option string) (on_rollback : option Executor.Callback)
    (w w1 w2 : World) (applied pre : list Migration.Migration)
    (m : Migration.Migration) (rest : list Migration.Migration)
    (local : Migration.Migration) (tx' : Data) (e : exn) :
  Dao.get_applied_migrations (Executor.dao self) w = (Ok applied, w1) ->
  Executor.migrations_to_rollback applied version = Ok (pre ++ m :: rest) ->
  for_each pre (Executor.rollback_one self on_rollback) w1 = (Ok tt, w2) ->
  Executor.find_local self m = Some local ->
  Migration.rollback local w2.(target) = Ok tx' ->
  callback_returns on_rollback local ->
  fst (Dao.remove_migration (Executor.dao self) (version_of m)
         (before_remove on_rollback (version_of m) w2))
  = Raise e ->
  exists w',
    Executor.rollback self version on_rollback w
    = (Raise (surfaced (version_of m) e), w')
    /\ w'.(schema) = w2.(schema)
    /\ w'.(target) = w2.(target)
    /\ w'.(trace)
       = w2.(trace)
         ++ [TxBegin; BodyRollback (version_of m)]
         ++ on_rollback_events on_rollback (version_of m)
         ++ [DaoRemoveMigration (version_of m); TxRollback].
Proof.
  intros Hget Hsel Hpre Hlocal Hbody Hcb Hrm.
  rewrite (rollback_run self version on_rollback w w1 applied Hget), Hsel.
  rewrite for_each_app, Hpre. cbn [for_each]. unfold bind at 1.
  rewrite rollback_one_run. cbv zeta. rewrite Hlocal, Hbody.
  assert (Hend : forall wc,
    fst (Dao.remove_migration (Executor.dao self) (version_of m) wc)
    = Raise e ->
    exists w',
      match
        match Dao.remove_migration (Executor.dao self) (version_of m) wc with
        | (Ok _, wr) => (Ok tt, add_event TxCommit (set_target tx' wr))
        | (Raise e0, wr) =>
            (Raise (surfaced (version_of m) e0), add_event TxRollback wr)
        end
      with
      | (Ok _, w4) => for_each rest (Executor.rollback_one self on_rollback) w4
      | (Raise e0, w4) => (Raise e0, w4)
      end = (Raise (surfaced (version_of m) e), w')
      /\ w'.(schema) = wc.(schema)
      /\ w'.(target) = wc.(target)
      /\ w'.(trace)
         = wc.(trace) ++ [DaoRemoveMigration (version_of m); TxRollback]).
  { intros wc Hwc.
    destruct (Dao.remove_migration (Executor.dao self) (version_of m) wc)
      as [[[]|e0] wr] eqn:Hcall; [discriminate|].
    cbn [fst] in Hwc. injection Hwc as ->.
    eexists. split; [reflexivity|].
    apply remove_migration_raise in Hcall. subst wr. cbn.
    now rewrite <- app_assoc. }
  unfold before_remove in Hrm.
  destruct on_rollback as [callback|].
  - cbn in Hcb. rewrite Hcb.
    destruct (Hend _ Hrm) as (w' & Hrun & Hs & Ht & Htr).
    exists w'. split; [exact Hrun|]. split; [exact Hs|].
    split; [exact Ht|]. rewrite Htr. unfold after_backward_body. cbn.
    now rewrite <- !app_assoc.
  - destruct (Hend _ Hrm) as (w' & Hrun & Hs & Ht & Htr).
    exists w'. split; [exact Hrun|]. split; [exact Hs|].
    split; [exact Ht|]. rewrite Htr. unfold after_backward_body. cbn.
    now rewrite <- !app_assoc.
Qed.

End ExecutorRuns.

(** ** The further theorems on the worked inputs *)

Lemma returned_value {A : Type} (default : A) (r : result A) :
  is_ok r = true -> r = Ok (value_or default r).
Proof. destruct r; [reflexivity | discriminate]. Qed.

Section OnTheStores.

#[local] Existing Instance MemoryStore.env.

Local Open Scope list_scope.

Local Abbreviation analyzer := (@Analyzer.analyze (@Data MemoryStore.env)).
Local Abbreviation plain_analyzer := (@Analyzer.analyze (list string)).

(** The theorem at the first script of the worked inputs. *)
Lemma cypher_statements_are_clean_witness :
  exists f statements rollback_statements,
    Scenario.V1
    = Migration.CypherMigration f Inputs.script_one statements
        rollback_statements
    /\ List.Forall clean_statement statements
    /\ List.Forall clean_statement rollback_statements.
Proof.
  apply (cypher_statements_are_clean "0001" "first" None Inputs.script_one
           Scenario.V1).
  vm_compute. reflexivity.
Defined.

Lemma marked_sections_keep_every_segment_witness :
  exists f,
    Scenario.V1
    = Migration.CypherMigration f Inputs.script_one
        (Migration.normalize
           (Str.split ";" (forward_content Inputs.script_one)))
        (Migration.normalize
           (Str.split ";" (down_content Inputs.script_one))).
Proof.
  apply (marked_sections_keep_every_segment "0001" "first" None
           Inputs.script_one Scenario.V1).
  - vm_compute. reflexivity.
  - vm_compute. reflexivity.
Defined.

(** The theorem at the second script, which has no marker, and at a
    script with a down section only. *)
Lemma missing_marker_leaves_section_empty_witness :
  Migration.has_backward_body Scenario.V2 = false
  /\ forall tx, Migration.apply Inputs.down_only tx = Ok tx.
Proof.
  split.
  - destruct (missing_marker_leaves_section_empty "0002" "second" None
                "CREATE (b:B);" Scenario.V2) as [Hdown _].
    + vm_compute. reflexivity.
    + destruct Hdown as (_ & Hbody & _); [vm_compute; reflexivity|].
      exact Hbody.
  - destruct (missing_marker_leaves_section_empty "0004" "down only" None
                Inputs.script_down_only Inputs.down_only) as [_ Hup].
    + vm_compute. reflexivity.
    + destruct Hup as [_ Hruns];
        [vm_compute; reflexivity | vm_compute; reflexivity |].
      exact Hruns.
Defined.

Lemma script_without_semicolon_applies_nothing_witness :
  Migration.apply Inputs.unterminated ["CREATE (a:A)"] = Ok ["CREATE (a:A)"].
Proof.
  destruct (script_without_semicolon_applies_nothing "0005" "unterminated"
              None "CREATE (d:D)" Inputs.unterminated) as [_ Hruns].
  - vm_compute. reflexivity.
  - vm_compute. reflexivity.
  - vm_compute. reflexivity.
  - vm_compute. reflexivity.
  - apply Hruns.
Defined.

(** The theorem at three statements of which the store refuses the
    second. *)
Lemma cypher_apply_stops_at_first_failure_witness :
  Migration.apply
    (Migration.CypherMigration (Migration.fields Cases.broken) EmptyString
       (["CREATE (a:A)"] ++ "INVALID STATEMENT" :: ["CREATE (b:B)"]) [])
    (@nil string)
  = Raise (DriverError "Invalid input: INVALID STATEMENT").
Proof.
  apply (cypher_apply_stops_at_first_failure (H := MemoryStore.env)
           (Migration.fields Cases.broken)
           EmptyString ["CREATE (a:A)"] "INVALID STATEMENT"
           [] (@nil string) ["CREATE (a:A)"]
           (DriverError "Invalid input: INVALID STATEMENT")).
  - vm_compute. reflexivity.
  - vm_compute. reflexivity.
Defined.

(** The theorem at the attributes of a record without description. *)
Lemma from_dict_reads_required_keys_witness :
  Migration.from_dict {[ "version" := "1.2"; "type" := "CYPHER" ]}
  = Raise (KeyError "description").
Proof.
  pose proof (from_dict_reads_required_keys
                {[ "version" := "1.2"; "type" := "CYPHER" ]}) as Hread.
  destruct (Migration.from_dict {[ "version" := "1.2"; "type" := "CYPHER" ]})
    as [f|e].
  - destruct Hread as (_ & Hd & _).
    + intros v Hv. exists [1%N; 2%N]. vm_compute in Hv.
      injection Hv as <-. vm_compute. reflexivity.
    + vm_compute in Hd. discriminate Hd.
  - destruct Hread as [[Hv _]|[(_ & _ & ->)|(_ & Hd & _)]].
    + intros v Hv. exists [1%N; 2%N]. vm_compute in Hv.
      injection Hv as <-. vm_compute. reflexivity.
    + vm_compute in Hv. discriminate Hv.
    + reflexivity.
    + vm_compute in Hd. destruct Hd as [d Hd]. discriminate Hd.
Defined.

Lemma from_other_keeps_recorded_attributes_witness :
  from_other Scenario.V3
  = Ok (Migration.Base
          (Migration.with_checksums (Migration.fields Scenario.V3)
             (Migration.fields Scenario.V3).(Migration.checksum) None)).
Proof.
  apply (from_other_keeps_recorded_attributes Scenario.V3).
  vm_compute. reflexivity.
Defined.

(** The theorem at the three migrations of the worked inputs. *)
Lemma migration_lt_is_strict_order_witness :
  Migration.lt (Migration.fields Scenario.V1) (Migration.fields Scenario.V3)
  = true
  /\ Migration.lt (Migration.fields Scenario.V2) (Migration.fields Scenario.V1)
     = false.
Proof.
  destruct (migration_lt_is_strict_order (Migration.fields Scenario.V1)
              (Migration.fields Scenario.V2) (Migration.fields Scenario.V3))
    as (_ & Htrans & Hasym & _).
  split.
  - apply Htrans; vm_compute; reflexivity.
  - apply Hasym. vm_compute. reflexivity.
Defined.

(** The theorem at an executor for the database [movies] without a
    schema database, and at one with the schema database [system]. *)
Lemma records_carry_target_of_other_database_witness :
  Dao.database (Executor.dao (Executor.new [] None (Some "movies") None))
  = None
  /\ Dao.database
       (Executor.dao (Executor.new [] None (Some "movies") (Some "system")))
     = Some "movies".
Proof.
  split.
  - destruct (records_carry_target_of_other_database [] None (Some "movies")
                None) as [Hdefault _].
    destruct Hdefault as [_ Htarget]; [reflexivity | reflexivity |].
    exact Htarget.
  - destruct (records_carry_target_of_other_database [] None (Some "movies")
                (Some "system")) as [_ Hgiven].
    destruct Hgiven as (_ & _ & Htarget); [reflexivity|].
    apply Htarget. discriminate.
Defined.

(** The in-memory store finds the baseline it has created. *)
Lemma memory_store_finds_baseline : @baseline_is_found MemoryStore.env.
Proof.
  intros version project target g g'. cbn.
  unfold MemoryStore.mem_create_baseline, MemoryStore.mem_match_baseline.
  intros [= <-]. f_equal. cbn [MemoryStore.add_node MemoryStore.nodes].
  rewrite existsb_app. apply orb_true_iff. right. cbn [existsb].
  rewrite orb_false_r. apply andb_true_iff. split.
  - unfold MemoryStore.has_version. cbn [MemoryStore.props].
    replace (MemoryStore.set_prop "migrationTarget" target
               (MemoryStore.set_prop "project" project
                  {["version" := version]}) !! "version")
      with (Some version).
    + cbn. apply String.eqb_refl.
    + destruct project, target; cbn; simplify_map_eq; reflexivity.
  - unfold MemoryStore.in_scope. cbn [MemoryStore.props].
    apply andb_true_iff. split.
    + replace (MemoryStore.set_prop "migrationTarget" target
                 (MemoryStore.set_prop "project" project
                    {["version" := version]}) !! "project")
        with project.
      * apply String.eqb_refl.
      * destruct project, target; cbn; simplify_map_eq; reflexivity.
    + replace (MemoryStore.set_prop "migrationTarget" target
                 (MemoryStore.set_prop "project" project
                    {["version" := version]}) !! "migrationTarget")
        with target.
      * apply String.eqb_refl.
      * destruct project, target; cbn; simplify_map_eq; reflexivity.
Qed.

(** The theorem at the empty in-memory store. *)
Lemma create_baseline_is_idempotent_witness :
  let dao := Executor.dao Scenario.executor in
  let w1 := snd (Dao.create_baseline dao Scenario.fresh) in
  exists w2,
    Dao.create_baseline dao w1 = (Ok tt, w2)
    /\ w2.(schema) = w1.(schema).
Proof.
  intros dao w1.
  apply (create_baseline_is_idempotent dao Scenario.fresh w1
           memory_store_finds_baseline).
  apply returned_unit. vm_compute. reflexivity.
Defined.

(** The theorem at the store with the doubled relationship: the delete
    statement reports two. *)
Lemma remove_migration_rejects_other_counts_witness :
  Dao.remove_migration (Executor.dao Scenario.executor) "0001" Cases.doubled
  = (Raise (Dao.removal_failed "0001"),
     add_event (DaoRemoveMigration "0001") Cases.doubled).
Proof.
  destruct (remove_migration_rejects_other_counts
              (Executor.dao Scenario.executor) "0001" Cases.doubled)
    as [_ Hcount].
  apply (Hcount false Cases.doubled.(schema)
           (fst (value_or (MemoryStore.empty, None)
                   (MemoryStore.mem_delete "0001" None None
                      Cases.doubled.(schema))))
           (Some 2%Z)).
  - vm_compute. reflexivity.
  - reflexivity.
  - vm_compute. reflexivity.
  - discriminate.
Defined.

(** The theorem at the read of the migrated store. *)
Lemma applied_migrations_mirror_rows_witness :
  Forall (fun m => forall tx,
            is_ok (Migration.apply m tx) = false
            /\ is_ok (Migration.rollback m tx) = false) Inputs.applied
  /\ length Inputs.applied = 3%nat.
Proof.
  destruct (applied_migrations_mirror_rows (Executor.dao Scenario.executor)
              Scenario.migrated (snd Scenario.migrated_applied)
              Inputs.applied migrated_applied_returned)
    as (rows & _ & _ & Hbodies & _).
  split; [exact Hbodies | vm_compute; reflexivity].
Defined.

(** The theorem at a store whose chain holds a node without
    description. *)
Lemma unreadable_row_fails_the_read_witness :
  is_ok (fst (Dao.get_applied_migrations (Executor.dao Scenario.executor)
                Cases.with_bare_node)) = false.
Proof.
  pose (rows := value_or []
                  (MemoryStore.mem_match_applied "BASELINE" None None
                     Cases.with_bare_node.(schema))).
  destruct (unreadable_row_fails_the_read (Executor.dao Scenario.executor)
              Cases.with_bare_node rows (nth 0 rows ∅)
              (KeyError "description")) as [Hfails _].
  - apply (returned_value []). vm_compute. reflexivity.
  - left. reflexivity.
  - vm_compute. reflexivity.
  - exact Hfails.
Defined.

(** The theorem at [migrate()] on the fresh store. *)
Lemma migrate_runs_selection_in_order_witness :
  apply_in_order [Scenario.V1; Scenario.V2; Scenario.V3]
    Scenario.fresh.(target)
  = Ok Scenario.migrated.(target)
  /\ Scenario.migrated.(trace)
     = (snd Scenario.fresh_prepared).(trace)
       ++ flat_map (apply_events None)
            [Scenario.V1; Scenario.V2; Scenario.V3].
Proof.
  unfold Scenario.migrated.
  apply (migrate_runs_selection_in_order (H := MemoryStore.env) analyzer
           Scenario.executor None None Scenario.fresh
           (snd Scenario.fresh_analysis) (snd Scenario.fresh_prepared)
           (snd (Executor.migrate analyzer Scenario.executor None None
                   Scenario.fresh))
           (value_or Scenario.no_result (fst Scenario.fresh_analysis))
           [Scenario.V1; Scenario.V2; Scenario.V3]
           fresh_analysis_returned fresh_analysis_clean
           fresh_prepared_returned).
  - vm_compute. reflexivity.
  - apply (returned_unit
             (Executor.migrate analyzer Scenario.executor None None
                Scenario.fresh)).
    vm_compute. reflexivity.
Defined.

(** The theorem at [migrate()] on the fresh store with a second script
    that the store refuses. *)
Lemma forward_body_failure_aborts_current_only_witness :
  fst (Executor.migrate analyzer Cases.with_broken None None Scenario.fresh)
  = Raise (DriverError "Invalid input: INVALID STATEMENT")
  /\ (snd (Executor.migrate analyzer Cases.with_broken None None
             Scenario.fresh)).(target)
     = ["CREATE (a:A)"].
Proof.
  pose (a := Executor.analyze analyzer Cases.with_broken Scenario.fresh).
  assert (Ha : a = (Ok (value_or Scenario.no_result (fst a)), snd a))
    by (apply returned; vm_compute; reflexivity).
  pose (p := Executor.prepare_schema Cases.with_broken
               (value_or Scenario.no_result (fst a)) (snd a)).
  assert (Hp : p = (Ok tt, snd p))
    by (apply returned_unit; vm_compute; reflexivity).
  pose (loop := for_each [Scenario.V1]
                  (Executor.apply_one Cases.with_broken None) (snd p)).
  assert (Hloop : loop = (Ok tt, snd loop))
    by (apply returned_unit; vm_compute; reflexivity).
  destruct (forward_body_failure_aborts_current_only (H := MemoryStore.env)
              analyzer
              Cases.with_broken None None Scenario.fresh (snd a) (snd p)
              (snd loop) (value_or Scenario.no_result (fst a))
              [Scenario.V1] Cases.broken [Scenario.V3]
              (DriverError "Invalid input: INVALID STATEMENT") Ha)
    as (w' & Hrun & Htarget & _).
  - vm_compute. reflexivity.
  - exact Hp.
  - vm_compute. reflexivity.
  - exact Hloop.
  - vm_compute. reflexivity.
  - vm_compute. reflexivity.
  - rewrite Hrun. cbn [fst snd]. split; [reflexivity|].
    rewrite Htarget. vm_compute. reflexivity.
Defined.

(** The theorem at [migrate()] on the fresh store with a connection
    that is lost when the first record is written. *)
Lemma recording_failure_leaves_body_committed_witness :
  fst (@Executor.migrate Doubles.recording_fails plain_analyzer
         Scenario.executor None None Scenario.fresh)
  = Raise (DriverError "connection lost")
  /\ (snd (@Executor.migrate Doubles.recording_fails plain_analyzer
             Scenario.executor None None Scenario.fresh)).(target)
     = ["CREATE (a:A)"].
Proof.
  pose (E := Doubles.recording_fails).
  pose (a := @Executor.analyze Doubles.recording_fails plain_analyzer
               Scenario.executor Scenario.fresh).
  assert (Ha : a = (Ok (value_or Scenario.no_result (fst a)), snd a))
    by (apply returned; vm_compute; reflexivity).
  pose (p := @Executor.prepare_schema E Scenario.executor
               (value_or Scenario.no_result (fst a)) (snd a)).
  assert (Hp : p = (Ok tt, snd p))
    by (apply returned_unit; vm_compute; reflexivity).
  destruct (recording_failure_leaves_body_committed (H := Doubles.recording_fails)
              plain_analyzer
              Scenario.executor None None Scenario.fresh (snd a) (snd p)
              (snd p) (value_or Scenario.no_result (fst a))
              [] Scenario.V1 [Scenario.V2; Scenario.V3] ["CREATE (a:A)"]
              (DriverError "connection lost") Ha)
    as (w' & Hrun & Htarget & _).
  - vm_compute. reflexivity.
  - exact Hp.
  - vm_compute. reflexivity.
  - reflexivity.
  - vm_compute. reflexivity.
  - vm_compute. reflexivity.
  - exact I.
  - vm_compute. reflexivity.
  - rewrite Hrun. cbn [fst snd]. split; [reflexivity | exact Htarget].
Defined.

(** The theorem at [migrate()] on the fresh store of a machine where
    [getuser()] raises. *)
Lemma dry_run_failure_opens_no_transaction_witness :
  fst (@Executor.migrate Doubles.without_user plain_analyzer
         Scenario.executor None None Scenario.fresh)
  = Raise (Exception "Test exception")
  /\ (snd (@Executor.migrate Doubles.without_user plain_analyzer
             Scenario.executor None None Scenario.fresh)).(trace)
     = [DaoGetApplied; DaoCreateBaseline; DaoCreateConstraints;
        DaoAddMigration "0001" true].
Proof.
  pose (E := Doubles.without_user).
  pose (a := @Executor.analyze Doubles.without_user plain_analyzer
               Scenario.executor Scenario.fresh).
  assert (Ha : a = (Ok (value_or Scenario.no_result (fst a)), snd a))
    by (apply returned; vm_compute; reflexivity).
  pose (p := @Executor.prepare_schema E Scenario.executor
               (value_or Scenario.no_result (fst a)) (snd a)).
  assert (Hp : p = (Ok tt, snd p))
    by (apply returned_unit; vm_compute; reflexivity).
  rewrite (dry_run_failure_opens_no_transaction (H := Doubles.without_user)
             plain_analyzer
             Scenario.executor None None Scenario.fresh (snd a) (snd p)
             (snd p) (value_or Scenario.no_result (fst a))
             [] Scenario.V1 [Scenario.V2; Scenario.V3]
             (Exception "Test exception") Ha).
  - cbn [fst snd]. split; [reflexivity | vm_compute; reflexivity].
  - vm_compute. reflexivity.
  - exact Hp.
  - vm_compute. reflexivity.
  - reflexivity.
  - vm_compute. reflexivity.
Defined.

(** The theorem at [rollback(version="0003")] on the migrated store. *)
Lemma rollback_to_latest_does_nothing_witness :
  Executor.rollback Scenario.executor (Some "0003") None Scenario.migrated
  = (Ok tt, snd Scenario.migrated_applied).
Proof.
  assert (Hshape : Inputs.applied
                   = firstn 2 Inputs.applied ++ [Inputs.entry 2])
    by (vm_compute; reflexivity).
  destruct (rollback_to_latest_does_nothing Scenario.executor "0003" None
              Scenario.migrated (snd Scenario.migrated_applied)
              (firstn 2 Inputs.applied) (Inputs.entry 2)) as [Hrun _].
  - rewrite <- Hshape. exact migrated_applied_returned.
  - vm_compute. reflexivity.
  - vm_compute. intros [Heq|[Heq|[]]]; discriminate Heq.
  - exact Hrun.
Defined.

(** The theorem at [rollback()] on the migrated store by an executor
    whose directory holds the first migration only. *)
Lemma rollback_needs_local_migration_witness :
  Executor.rollback Scenario.partial None None Scenario.migrated
  = (Raise (Executor.local_not_found (Executor.version_of (Inputs.entry 2))),
     snd Scenario.migrated_applied)
  /\ Executor.version_of (Inputs.entry 2) = "0003".
Proof.
  split; [|vm_compute; reflexivity].
  apply (rollback_needs_local_migration Scenario.partial None None
           Scenario.migrated (snd Scenario.migrated_applied)
           (snd Scenario.migrated_applied) Inputs.applied []
           (Inputs.entry 2) []).
  - exact migrated_applied_returned.
  - vm_compute. reflexivity.
  - reflexivity.
  - vm_compute. reflexivity.
Defined.

(** The theorem at [rollback()] of a script whose down section the
    store refuses. *)
Lemma backward_body_failure_keeps_record_witness :
  fst (Executor.rollback Cases.with_one_way None None Cases.migrated_one_way)
  = Raise (DriverError "Invalid input: INVALID STATEMENT")
  /\ (snd (Executor.rollback Cases.with_one_way None None
             Cases.migrated_one_way)).(target)
     = ["CREATE (a:A)"].
Proof.
  pose (g := Dao.get_applied_migrations (Executor.dao Cases.with_one_way)
               Cases.migrated_one_way).
  assert (Hg : g = (Ok (value_or [] (fst g)), snd g))
    by (apply returned; vm_compute; reflexivity).
  destruct (backward_body_failure_keeps_record Cases.with_one_way None None
              Cases.migrated_one_way (snd g) (snd g) (value_or [] (fst g))
              [] (nth 0 (value_or [] (fst g)) Scenario.V1) []
              Cases.one_way
              (DriverError "Invalid input: INVALID STATEMENT") Hg)
    as (w' & Hrun & _ & Htarget & _).
  - vm_compute. reflexivity.
  - reflexivity.
  - vm_compute. reflexivity.
  - vm_compute. reflexivity.
  - rewrite Hrun. cbn [fst snd]. split; [vm_compute; reflexivity|].
    rewrite Htarget. vm_compute. reflexivity.
Defined.

(** The theorem at [rollback()] on the migrated store with a callback
    that raises for the third migration. *)
Lemma on_rollback_failure_keeps_record_witness :
  fst (Executor.rollback Scenario.executor None
         (Some (Scenario.failing_for "0003")) Scenario.migrated)
  = Raise (Exception "callback failed")
  /\ (snd (Executor.rollback Scenario.executor None
             (Some (Scenario.failing_for "0003")) Scenario.migrated)).(target)
     = Scenario.migrated.(target).
Proof.
  destruct (on_rollback_failure_keeps_record Scenario.executor None
              (Scenario.failing_for "0003") Scenario.migrated
              (snd Scenario.migrated_applied) (snd Scenario.migrated_applied)
              Inputs.applied [] (Inputs.entry 2) [] Scenario.V3
              ["CREATE (a:A)"; "CREATE (b:B)"; "CREATE (c:C)";
               "MATCH (c:C) DELETE c"]
              (Exception "callback failed") migrated_applied_returned)
    as (w' & Hrun & _ & Htarget & _).
  - vm_compute. reflexivity.
  - reflexivity.
  - vm_compute. reflexivity.
  - vm_compute. reflexivity.
  - vm_compute. reflexivity.
  - rewrite Hrun. cbn [fst snd]. split; [vm_compute; reflexivity|].
    rewrite Htarget. vm_compute. reflexivity.
Defined.

(** The theorem at [rollback()] on the migrated store. *)
Lemma rollback_runs_selection_in_order_witness :
  let w' := snd (Executor.rollback Scenario.executor None None
                   Scenario.migrated) in
  rollback_in_order Scenario.executor [Inputs.entry 2]
    Scenario.migrated.(target)
  = Ok w'.(target)
  /\ w'.(trace)
     = Scenario.migrated.(trace)
       ++ DaoGetApplied :: flat_map (rollback_events None) [Inputs.entry 2].
Proof.
  cbv zeta.
  apply (rollback_runs_selection_in_order Scenario.executor None None
           Scenario.migrated (snd Scenario.migrated_applied)
           (snd (Executor.rollback Scenario.executor None None
                   Scenario.migrated))
           Inputs.applied [Inputs.entry 2] migrated_applied_returned).
  - vm_compute. reflexivity.
  - apply (returned_unit
             (Executor.rollback Scenario.executor None None
                Scenario.migrated)).
    vm_compute. reflexivity.
Defined.

(** The theorem at [rollback()] on the store with the doubled
    relationship, where the delete statement reports two. *)
Lemma removal_failure_undoes_backward_body_witness :
  fst (Executor.rollback Scenario.executor None None Cases.doubled)
  = Raise (Dao.removal_failed "0001")
  /\ (snd (Executor.rollback Scenario.executor None None
             Cases.doubled)).(target)
     = ["CREATE (a:A)"].
Proof.
  pose (g := Dao.get_applied_migrations (Executor.dao Scenario.executor)
               Cases.doubled).
  assert (Hg : g = (Ok (value_or [] (fst g)), snd g))
    by (apply returned; vm_compute; reflexivity).
  destruct (removal_failure_undoes_backward_body Scenario.executor None None
              Cases.doubled (snd g) (snd g) (value_or [] (fst g))
              [] (nth 1 (value_or [] (fst g)) Scenario.V1) []
              Scenario.V1 ["CREATE (a:A)"; "MATCH (a:A) DELETE a"]
              (Dao.removal_failed "0001") Hg)
    as (w' & Hrun & _ & Htarget & _).
  - vm_compute. reflexivity.
  - reflexivity.
  - vm_compute. reflexivity.
  - vm_compute. reflexivity.
  - exact I.
  - vm_compute. reflexivity.
  - rewrite Hrun. cbn [fst snd]. split; [vm_compute; reflexivity|].
    rewrite Htarget. vm_compute. reflexivity.
Defined.

End OnTheStores.
